(** * Learning-assistant: the focus/lock mode controller of [main.py]

    A shallow embedding of the parts of [main.py] that make up the
    "study mode" (focus mode) controller: the [Task] record with its timer
    and close-attempt counter, the [StudyHelper] task repository with its
    JSON persistence, and the handlers of [StudyHelperGUI] that drive the
    lock (mode switch, window close, forced full screen, unlock dialog,
    task actions).  The error book (class [错题] and the methods of
    [StudyHelper] on it) and the two statistics functions are embedded as
    well.

    Conventions of the embedding.
    - A [datetime] is an integer count of microseconds (its resolution);
      [datetime.datetime.now()] is an argument [now] of every handler that
      reads the clock.  The readings inside one handler are taken at one
      instant.
    - Python computes [used_time] in minutes as a binary float
      ([total_seconds() / 60]).  Here minutes are exact fractions over
      [US_PER_MIN] microseconds, so [used_time < time_limit] is the exact
      comparison.  The two give the same answer at every instant for
      limits up to [MAX_TIME_LIMIT] (10^7 minutes); much higher (at
      3 * 10^8 minutes) the float comparison is off by a microsecond.
      Statements about the outcome of the comparison carry that bound.
    - A [datetime] ranges over the years 1 to 9999; [start_countdown]
      raises [OverflowError] when the start time plus the limit leaves
      that range, a case the embedding of [start_countdown] does not
      have.  Statements about what follows the computation of the end
      time carry [is_datetime] for it.
    - Python objects that are mutated in place (the tasks of
      [helper.tasks]) are list cells; a reference to a task object is an
      index into the list.
    - Message boxes are recorded in a log of [messagebox.Message]; labels
      and messages are constructors that carry the data the original text
      is formatted from. *)

From Stdlib Require Import ZArith List String Bool Lia.
Import ListNotations.
Local Open Scope Z_scope.

(** ** Time *)

Module datetime.

(** A point in time, in microseconds. *)
Definition datetime := Z.

(** Microseconds per second and per minute. *)
Definition US_PER_SEC : Z := 1000000.
Definition US_PER_MIN : Z := 60000000.

(** [strftime("%Y-%m-%d %H:%M:%S")]: the text keeps whole seconds only;
    it is represented by that number of seconds. *)
Definition strftime (d : datetime) : Z := d / US_PER_SEC.

(** [strptime(s, "%Y-%m-%d %H:%M:%S")]. *)
Definition strptime (s : Z) : datetime := s * US_PER_SEC.

(** [timedelta(minutes=m)]. *)
Definition minutes (m : Z) : Z := m * US_PER_MIN.

End datetime.

(** ** Number formatting *)

(** Nearest integer to [n / d] (for [0 < d]), ties to the even one. *)
Definition round_half_even (n d : Z) : Z :=
  let q := n / d in
  let r := n mod d in
  if 2 * r <? d then q
  else if d <? 2 * r then q + 1
  else if Z.even q then q else q + 1.

(** [f"{remaining:.1f}"] for a duration given in microseconds: the number
    of tenths of a minute that is printed (["0.3"] is 3).  The source
    formats the float [time_limit - used_time]; when the exact remaining
    time lies halfway between two tenths the float may lie on either side
    and the source may print the other tenth (with 3 seconds left of 30
    minutes it prints 0.1, and this function gives 0).  Statements about
    the printed value only bound it to within half a tenth. *)
Definition format_1f (remaining_us : Z) : Z :=
  round_half_even remaining_us (datetime.US_PER_MIN / 10).

(** ** Message boxes *)

Module messagebox.

Inductive Message : Type :=
| NotStarted
    (* showerror("错误", "学霸模式任务未开始计时，无法完成") *)
| TimeNotReached (time_limit : Z) (remaining_tenths : Z)
    (* showerror("时间未到", "学霸模式任务需完成{time_limit}分钟，还需{remaining:.1f}分钟") *)
| SwitchFailed
    (* showerror("模式切换失败", "学霸模式任务尚未完成，无法切换到普通模式") *)
| StudyModeHint
    (* showinfo("提示", "学霸模式：新增任务将带有时间限制，...") *)
| CloseForbidden
    (* showerror("禁止关闭", "学霸模式任务正在运行，需完成指定时间后才能关闭窗口") *)
| CloseWarning (attempts : Z)
    (* showerror("警告", "已尝试关闭{attempts}次！继续尝试将强制全屏模式！") *)
| ConfirmClose (answer : bool)
    (* askyesno("确认关闭", "确定要退出学习助手吗？") *)
| UnlockSucceeded
    (* showinfo("解锁成功", "全屏模式已解锁") *)
| TaskStarted
    (* showinfo("成功", "学霸模式任务已开始计时") *)
| TaskCompleted
    (* showinfo("成功", "任务已标记为完成") *)
| ConfirmDelete (answer : bool)
    (* askyesno("确认删除", ...) *)
| TaskDeleted
    (* showinfo("成功", "任务已删除") *)
| TaskAdded (study : bool)
    (* showinfo("成功", "{学霸模式|普通}任务添加成功") *)
| FieldsEmpty
    (* showerror("错误", "科目、任务内容和截止日期不能为空") *)
| InvalidMinutes
    (* showerror("错误", "请输入有效的正整数分钟数") *)
| NoTimeLimit
    (* showerror("错误", "请选择或输入时间限制") *)
| BadDate.
    (* showerror("错误", "日期格式不正确，请使用YYYY-MM-DD") *)

End messagebox.

(** ** class Task *)

Module Task.

Record t : Type := mk {
  id : string;
  subject : string;
  content : string;
  deadline : string;
  priority : Z;
  completed : bool;
  created_at : Z;
  completed_at : option Z;
  study_mode : string;
  time_limit : Z;
  start_time : option datetime.datetime;
  close_attempts : Z
}.

Definition set_start_time (v : option datetime.datetime) (self : t) : t :=
  mk self.(id) self.(subject) self.(content) self.(deadline)
     self.(priority) self.(completed) self.(created_at)
     self.(completed_at) self.(study_mode) self.(time_limit)
     v self.(close_attempts).

Definition set_completed (c : bool) (at_ : option Z) (self : t) : t :=
  mk self.(id) self.(subject) self.(content) self.(deadline)
     self.(priority) c self.(created_at)
     at_ self.(study_mode) self.(time_limit)
     self.(start_time) self.(close_attempts).

Definition set_close_attempts (n : Z) (self : t) : t :=
  mk self.(id) self.(subject) self.(content) self.(deadline)
     self.(priority) self.(completed) self.(created_at)
     self.(completed_at) self.(study_mode) self.(time_limit)
     self.(start_time) n.

(** [__init__]; the identifier made by [_generate_id] (a time stamp and a
    random number) is the argument [new_id]. *)
Definition init (new_id : string) (now : datetime.datetime)
    (subject content deadline : string) (priority : Z)
    (study_mode : string) (time_limit : Z) : t :=
  {| id := new_id;
     subject := subject;
     content := content;
     deadline := deadline;
     priority := Z.max 1 (Z.min 5 priority);
     completed := false;
     created_at := datetime.strftime now;
     completed_at := None;
     study_mode := study_mode;
     time_limit := time_limit;
     start_time := None;
     close_attempts := 0 |}.

Definition is_study_mode (self : t) : bool :=
  (self.(study_mode) =? "study_mode")%string.

(** A [datetime] object is always true in a condition, so
    [not self.start_time] tests for [None]. *)
Definition started (self : t) : bool :=
  match self.(start_time) with Some _ => true | None => false end.

Definition start_study_mode (now : datetime.datetime) (self : t) : t :=
  if is_study_mode self && negb (started self)
  then set_start_time (Some now) self
  else self.

(** [(now - start_time).total_seconds() / 60], in microseconds. *)
Definition used_time (now start : datetime.datetime) : Z := now - start.

(** [used_time < time_limit], both in minutes: the exact comparison, equal
    to the float comparison of the source for limits up to
    [MAX_TIME_LIMIT]. *)
Definition time_not_reached (now start : datetime.datetime) (limit : Z) : bool :=
  used_time now start <? datetime.minutes limit.

(** [remaining = time_limit - used_time], in microseconds. *)
Definition remaining (now start : datetime.datetime) (limit : Z) : Z :=
  datetime.minutes limit - used_time now start.

(** [complete]: the result, the task afterwards and the message boxes
    shown. *)
Definition complete (now : datetime.datetime) (self : t)
    : bool * t * list messagebox.Message :=
  let finish :=
    (true,
     if negb self.(completed)
     then set_completed true (Some (datetime.strftime now)) self
     else self,
     []) in
  if is_study_mode self && (0 <? self.(time_limit)) then
    match self.(start_time) with
    | None => (false, self, [messagebox.NotStarted])
    | Some st =>
        if time_not_reached now st self.(time_limit)
        then (false, self,
              [messagebox.TimeNotReached self.(time_limit)
                 (format_1f (remaining now st self.(time_limit)))])
        else finish
    end
  else finish.

Definition record_close_attempt (self : t) : Z * t :=
  let self' := set_close_attempts (self.(close_attempts) + 1) self in
  (self'.(close_attempts), self').

(** The JSON object written by [to_dict].  Keys that [from_dict] reads
    with [data.get] may be missing from a file. *)
Record Dict : Type := mkDict {
  d_id : string;
  d_subject : string;
  d_content : string;
  d_deadline : string;
  d_priority : Z;
  d_completed : bool;
  d_created_at : Z;
  d_completed_at : option Z;
  d_study_mode : option string;
  d_time_limit : option Z;
  d_start_time : option Z;
  d_close_attempts : option Z
}.

Definition to_dict (self : t) : Dict :=
  {| d_id := self.(id);
     d_subject := self.(subject);
     d_content := self.(content);
     d_deadline := self.(deadline);
     d_priority := self.(priority);
     d_completed := self.(completed);
     d_created_at := self.(created_at);
     d_completed_at := self.(completed_at);
     d_study_mode := Some self.(study_mode);
     d_time_limit := Some self.(time_limit);
     d_start_time := option_map datetime.strftime self.(start_time);
     d_close_attempts := Some self.(close_attempts) |}.

Definition get {A : Type} (o : option A) (default : A) : A :=
  match o with Some v => v | None => default end.

Definition from_dict (data : Dict) : t :=
  {| id := data.(d_id);
     subject := data.(d_subject);
     content := data.(d_content);
     deadline := data.(d_deadline);
     priority := Z.max 1 (Z.min 5 data.(d_priority));
     completed := data.(d_completed);
     created_at := data.(d_created_at);
     completed_at := data.(d_completed_at);
     study_mode := get data.(d_study_mode) "normal"%string;
     time_limit := get data.(d_time_limit) 0;
     start_time := option_map datetime.strptime data.(d_start_time);
     close_attempts := get data.(d_close_attempts) 0 |}.

End Task.

(** ** Lists of objects *)

(** Position of the first element that satisfies [p]: the element a
    [for ... if ...: return] loop or [next(...)] stops at. *)
Fixpoint index_where {A : Type} (p : A -> bool) (l : list A) : option nat :=
  match l with
  | [] => None
  | x :: rest =>
      if p x then Some O
      else option_map S (index_where p rest)
  end.

(** The list after the object at position [i] has been mutated into [x]. *)
Fixpoint set_nth {A : Type} (i : nat) (x : A) (l : list A) : list A :=
  match l, i with
  | [], _ => []
  | _ :: rest, O => x :: rest
  | y :: rest, S j => y :: set_nth j x rest
  end.

(** [s.endswith(suffix)]. *)
Definition endswith (s suffix : string) : bool :=
  let n := String.length s in
  let k := String.length suffix in
  (k <=? n)%nat && (substring (n - k) k s =? suffix)%string.

(** ** class StudyHelper (the task part) *)

Module StudyHelper.

(** [tasks] is the list held in memory, [tasks_file] the content of
    [tasks.json]. *)
Record t : Type := mk {
  tasks : list Task.t;
  tasks_file : list Task.Dict
}.

Definition set_tasks (l : list Task.t) (self : t) : t :=
  mk l self.(tasks_file).

Definition _save_tasks (self : t) : t :=
  mk self.(tasks) (map Task.to_dict self.(tasks)).

(** [__init__]: the tasks are read back from the file. *)
Definition _load_tasks (file : list Task.Dict) : list Task.t :=
  map Task.from_dict file.

Definition init (file : list Task.Dict) : t :=
  mk (_load_tasks file) file.

Definition has_id (task_id : string) (task : Task.t) : bool :=
  (task.(Task.id) =? task_id)%string.

Definition add_task (new_id : string) (now : datetime.datetime)
    (subject content deadline : string) (priority : Z)
    (study_mode : string) (time_limit : Z) (self : t) : Task.t * t :=
  let task :=
    Task.init new_id now subject content deadline priority
      study_mode time_limit in
  (task, _save_tasks (set_tasks (self.(tasks) ++ [task])%list self)).

Definition start_study_mode_task (now : datetime.datetime)
    (task_id : string) (self : t) : bool * t :=
  let wanted task :=
    has_id task_id task && Task.is_study_mode task
    && negb (Task.started task) in
  match index_where wanted self.(tasks) with
  | Some i =>
      match nth_error self.(tasks) i with
      | Some task =>
          (true,
           _save_tasks
             (set_tasks
                (set_nth i (Task.start_study_mode now task) self.(tasks))
                self))
      | None => (false, self)
      end
  | None => (false, self)
  end.

Definition complete_task (now : datetime.datetime) (task_id : string)
    (self : t) : bool * t * list messagebox.Message :=
  match index_where (has_id task_id) self.(tasks) with
  | Some i =>
      match nth_error self.(tasks) i with
      | Some task =>
          let '(ok, task', shown) := Task.complete now task in
          let self' := set_tasks (set_nth i task' self.(tasks)) self in
          if ok then (true, _save_tasks self', shown)
          else (false, self', shown)
      | None => (false, self, [])
      end
  | None => (false, self, [])
  end.

Definition record_close_attempt (task_id : string) (self : t) : Z * t :=
  match index_where (has_id task_id) self.(tasks) with
  | Some i =>
      match nth_error self.(tasks) i with
      | Some task =>
          let '(attempts, task') := Task.record_close_attempt task in
          (attempts,
           _save_tasks (set_tasks (set_nth i task' self.(tasks)) self))
      | None => (0, self)
      end
  | None => (0, self)
  end.

Definition get_pending_tasks (self : t) : list Task.t :=
  filter (fun task => negb task.(Task.completed)) self.(tasks).

Definition get_completed_tasks (self : t) : list Task.t :=
  filter (fun task => task.(Task.completed)) self.(tasks).

Definition delete_task (task_id : string) (self : t) : bool * t :=
  let initial_count := List.length self.(tasks) in
  let self' :=
    set_tasks (filter (fun task => negb (has_id task_id task)) self.(tasks))
      self in
  if (List.length self'.(tasks) <? initial_count)%nat
  then (true, _save_tasks self')
  else (false, self').

(** The value [{"total": ..., "completed": ...}] that [get_task_stats]
    keeps per subject. *)
Record SubjectCount : Type := mkCount {
  total : Z;
  completed : Z
}.

(** The body of the loop of [get_task_stats] for one task: the entry of
    the subject is made if missing, its total goes up by one and, for a
    completed task, so does its completed count.  The dictionary keeps
    the order of insertion. *)
Fixpoint tally (subject : string) (done : bool)
    (subject_stats : list (string * SubjectCount))
    : list (string * SubjectCount) :=
  match subject_stats with
  | [] => [(subject, mkCount (0 + 1) (if done then 0 + 1 else 0))]
  | (s, c) :: rest =>
      if (s =? subject)%string
      then (s, mkCount (c.(total) + 1)
                 (if done then c.(completed) + 1 else c.(completed)))
           :: rest
      else (s, c) :: tally subject done rest
  end.

(** [datetime.strptime(task.created_at.split()[0], "%Y-%m-%d")]: midnight
    of the day the task was created. *)
Definition created_date (task : Task.t) : datetime.datetime :=
  datetime.strptime (task.(Task.created_at) / 86400 * 86400).

(** [get_task_stats(days)] called at time [now].  The completion rate
    [(completed / total) * 100], a float in the source, is the exact
    fraction given by a numerator and a denominator. *)
Definition get_task_stats (now : datetime.datetime) (days : Z) (self : t)
    : list (string * SubjectCount) * Z * Z * (Z * Z) :=
  let end_date := now in
  let start_date := end_date - days * 86400 * datetime.US_PER_SEC in
  let recent_tasks :=
    filter
      (fun task =>
         (start_date <=? created_date task)
         && (created_date task <=? end_date))
      self.(tasks) in
  match recent_tasks with
  | [] => ([], 0, 0, (0, 1))
  | _ =>
      let total := Z.of_nat (List.length recent_tasks) in
      let completed :=
        Z.of_nat
          (List.length
             (filter (fun task => task.(Task.completed)) recent_tasks)) in
      let completion_rate :=
        if 0 <? total then (completed * 100, total) else (0, 1) in
      (fold_left
         (fun subject_stats task =>
            tally task.(Task.subject) task.(Task.completed) subject_stats)
         recent_tasks [],
       total, completed, completion_rate)
  end.

End StudyHelper.

(** ** The window toolkit *)

Module tk.

(** The root window as the program observes and drives it.  [screen] is
    the geometry the window manager gives the window while it is full
    screen; [winfo_exists] becomes [false] on [destroy()]. *)
Record Window : Type := mkWindow {
  geometry : string;
  fullscreen : bool;
  topmost : bool;
  screen : string;
  winfo_exists : bool
}.

(** [root.geometry(g)]; [root.geometry()] is the projection [geometry]. *)
Definition set_geometry (g : string) (w : Window) : Window :=
  mkWindow g w.(fullscreen) w.(topmost) w.(screen) w.(winfo_exists).

(** [root.attributes("-fullscreen", b)].  Going full screen makes the
    window as large as the screen; leaving it is followed in the program
    by an explicit [geometry(...)]. *)
Definition attributes_fullscreen (b : bool) (w : Window) : Window :=
  mkWindow (if b then w.(screen) else w.(geometry)) b
    w.(topmost) w.(screen) w.(winfo_exists).

(** [root.attributes("-topmost", b)]. *)
Definition attributes_topmost (b : bool) (w : Window) : Window :=
  mkWindow w.(geometry) w.(fullscreen) b w.(screen) w.(winfo_exists).

Definition destroy (w : Window) : Window :=
  mkWindow w.(geometry) w.(fullscreen) w.(topmost) w.(screen) false.

(** The unlock dialog: whether the [Toplevel] still exists and whether
    its [Entry] and [Button] are in state ["normal"] ([true]) or
    ["disabled"] ([false]). *)
Record Toplevel : Type := mkToplevel {
  dialog_exists : bool;
  inputs_normal : bool
}.

End tk.

(** ** class StudyHelperGUI (the focus mode controller) *)

Module StudyHelperGUI.

(** Text of [error_label] in the unlock dialog. *)
Inductive ErrorText : Type :=
| NoError
| TriesLeft (remaining : Z)     (* "密码错误，还有{remaining}次机会" *)
| TooManyErrors.                 (* "密码错误次数过多，窗口将保持锁定" *)

(** Text of [study_mode_status]. *)
Inductive StatusText : Type :=
| NoStatus
| Remaining (subject : string) (minutes seconds : Z)
    (* "学霸任务：{subject} - 剩余时间：{minutes}分{seconds}秒" *)
| Reached (subject : string).
    (* "✅ 学霸任务：{subject} - 时间已达标，可标记完成" *)

(** Text of [lock_label]. *)
Inductive LockText : Type :=
| NoLock
| LockRunning      (* "⚠️ 学霸模式运行中，无法关闭窗口" *)
| LockForced.      (* "⚠️ 强制全屏模式：完成任务或输入密码才能退出" *)

(** Callbacks registered with [root.after].  [update_countdown] is a
    closure over the task object (of which it reads [id] and [subject])
    and [end_time]. *)
Inductive Callback : Type :=
| reset_unlock_dialog_cb
| update_countdown_cb (task_id subject : string) (end_time : datetime.datetime).

(** The attributes of the object.  [shown] is the log of message boxes,
    oldest first; [scheduled] the pending [root.after] callbacks with the
    time they are due.  [countdown_label] is [None] throughout the
    program and is left out.  [wrong_attempts], [password_var] and
    [error_label] come into being with the first unlock dialog. *)
Record t : Type := mk {
  root : tk.Window;
  original_geometry : string;
  is_fullscreen : bool;
  unlock_password : string;
  unlock_dialog : option tk.Toplevel;
  wrong_attempts : Z;
  password_var : string;
  error_label : ErrorText;
  current_mode : string;
  running_study_task_id : option string;
  study_mode_status : StatusText;
  lock_label : LockText;
  helper : StudyHelper.t;
  shown : list messagebox.Message;
  scheduled : list (datetime.datetime * Callback)
}.

Definition set_root (v : tk.Window) (self : t) : t :=
  mk v self.(original_geometry) self.(is_fullscreen)
    self.(unlock_password) self.(unlock_dialog) self.(wrong_attempts)
    self.(password_var) self.(error_label) self.(current_mode)
    self.(running_study_task_id) self.(study_mode_status)
    self.(lock_label) self.(helper) self.(shown) self.(scheduled).

Definition set_original_geometry (v : string) (self : t) : t :=
  mk self.(root) v self.(is_fullscreen) self.(unlock_password)
    self.(unlock_dialog) self.(wrong_attempts) self.(password_var)
    self.(error_label) self.(current_mode) self.(running_study_task_id)
    self.(study_mode_status) self.(lock_label) self.(helper) self.(shown)
    self.(scheduled).

Definition set_is_fullscreen (v : bool) (self : t) : t :=
  mk self.(root) self.(original_geometry) v self.(unlock_password)
    self.(unlock_dialog) self.(wrong_attempts) self.(password_var)
    self.(error_label) self.(current_mode) self.(running_study_task_id)
    self.(study_mode_status) self.(lock_label) self.(helper) self.(shown)
    self.(scheduled).

Definition set_unlock_dialog (v : option tk.Toplevel) (self : t) : t :=
  mk self.(root) self.(original_geometry) self.(is_fullscreen)
    self.(unlock_password) v self.(wrong_attempts) self.(password_var)
    self.(error_label) self.(current_mode) self.(running_study_task_id)
    self.(study_mode_status) self.(lock_label) self.(helper) self.(shown)
    self.(scheduled).

Definition set_wrong_attempts (v : Z) (self : t) : t :=
  mk self.(root) self.(original_geometry) self.(is_fullscreen)
    self.(unlock_password) self.(unlock_dialog) v self.(password_var)
    self.(error_label) self.(current_mode) self.(running_study_task_id)
    self.(study_mode_status) self.(lock_label) self.(helper) self.(shown)
    self.(scheduled).

Definition set_password_var (v : string) (self : t) : t :=
  mk self.(root) self.(original_geometry) self.(is_fullscreen)
    self.(unlock_password) self.(unlock_dialog) self.(wrong_attempts) v
    self.(error_label) self.(current_mode) self.(running_study_task_id)
    self.(study_mode_status) self.(lock_label) self.(helper) self.(shown)
    self.(scheduled).

Definition set_error_label (v : ErrorText) (self : t) : t :=
  mk self.(root) self.(original_geometry) self.(is_fullscreen)
    self.(unlock_password) self.(unlock_dialog) self.(wrong_attempts)
    self.(password_var) v self.(current_mode) self.(running_study_task_id)
    self.(study_mode_status) self.(lock_label) self.(helper) self.(shown)
    self.(scheduled).

Definition set_current_mode (v : string) (self : t) : t :=
  mk self.(root) self.(original_geometry) self.(is_fullscreen)
    self.(unlock_password) self.(unlock_dialog) self.(wrong_attempts)
    self.(password_var) self.(error_label) v self.(running_study_task_id)
    self.(study_mode_status) self.(lock_label) self.(helper) self.(shown)
    self.(scheduled).

Definition set_running_study_task_id (v : option string) (self : t) : t :=
  mk self.(root) self.(original_geometry) self.(is_fullscreen)
    self.(unlock_password) self.(unlock_dialog) self.(wrong_attempts)
    self.(password_var) self.(error_label) self.(current_mode) v
    self.(study_mode_status) self.(lock_label) self.(helper) self.(shown)
    self.(scheduled).

Definition set_study_mode_status (v : StatusText) (self : t) : t :=
  mk self.(root) self.(original_geometry) self.(is_fullscreen)
    self.(unlock_password) self.(unlock_dialog) self.(wrong_attempts)
    self.(password_var) self.(error_label) self.(current_mode)
    self.(running_study_task_id) v self.(lock_label) self.(helper)
    self.(shown) self.(scheduled).

Definition set_lock_label (v : LockText) (self : t) : t :=
  mk self.(root) self.(original_geometry) self.(is_fullscreen)
    self.(unlock_password) self.(unlock_dialog) self.(wrong_attempts)
    self.(password_var) self.(error_label) self.(current_mode)
    self.(running_study_task_id) self.(study_mode_status) v self.(helper)
    self.(shown) self.(scheduled).

Definition set_helper (v : StudyHelper.t) (self : t) : t :=
  mk self.(root) self.(original_geometry) self.(is_fullscreen)
    self.(unlock_password) self.(unlock_dialog) self.(wrong_attempts)
    self.(password_var) self.(error_label) self.(current_mode)
    self.(running_study_task_id) self.(study_mode_status)
    self.(lock_label) v self.(shown) self.(scheduled).

Definition set_shown (v : list messagebox.Message) (self : t) : t :=
  mk self.(root) self.(original_geometry) self.(is_fullscreen)
    self.(unlock_password) self.(unlock_dialog) self.(wrong_attempts)
    self.(password_var) self.(error_label) self.(current_mode)
    self.(running_study_task_id) self.(study_mode_status)
    self.(lock_label) self.(helper) v self.(scheduled).

Definition set_scheduled (v : list (datetime.datetime * Callback)) (self : t) : t :=
  mk self.(root) self.(original_geometry) self.(is_fullscreen)
    self.(unlock_password) self.(unlock_dialog) self.(wrong_attempts)
    self.(password_var) self.(error_label) self.(current_mode)
    self.(running_study_task_id) self.(study_mode_status)
    self.(lock_label) self.(helper) self.(shown) v.

(** [__init__] on a screen of geometry [screen], with the [tasks.json]
    found on disk. *)
Definition init (screen : string) (file : list Task.Dict) : t :=
  {| root := tk.mkWindow "1400x750" false false screen true;
     original_geometry := "1400x750";
     is_fullscreen := false;
     unlock_password := "123456";
     unlock_dialog := None;
     wrong_attempts := 0;
     password_var := EmptyString;
     error_label := NoError;
     current_mode := "normal";
     running_study_task_id := None;
     study_mode_status := NoStatus;
     lock_label := NoLock;
     helper := StudyHelper.init file;
     shown := [];
     scheduled := [] |}.

(** [messagebox.show...]: one more entry in the log. *)
Definition show (m : messagebox.Message) (self : t) : t :=
  set_shown (self.(shown) ++ [m])%list self.

(** [root.after(ms, cb)] called at time [now]. *)
Definition after (now : datetime.datetime) (ms : Z) (cb : Callback)
    (self : t) : t :=
  set_scheduled (self.(scheduled) ++ [(now + ms * 1000, cb)])%list self.

(** A string or [None] used as a condition. *)
Definition truthy (o : option string) : bool :=
  match o with
  | Some s => negb (s =? EmptyString)%string
  | None => false
  end.

(** [self.unlock_dialog and self.unlock_dialog.winfo_exists()]. *)
Definition dialog_open (self : t) : bool :=
  match self.(unlock_dialog) with
  | Some d => d.(tk.dialog_exists)
  | None => false
  end.

Definition show_unlock_dialog (self : t) : t :=
  if dialog_open self then self
  else
    set_error_label NoError
      (set_password_var EmptyString
         (set_wrong_attempts 0
            (set_unlock_dialog (Some (tk.mkToplevel true true)) self))).

Definition enter_fullscreen (self : t) : t :=
  let self := set_original_geometry self.(root).(tk.geometry) self in
  let self := set_root (tk.attributes_fullscreen true self.(root)) self in
  let self := set_root (tk.attributes_topmost true self.(root)) self in
  let self := set_is_fullscreen true self in
  let self := set_lock_label LockForced self in
  show_unlock_dialog self.

Definition exit_fullscreen (self : t) : t :=
  let self := set_root (tk.attributes_fullscreen false self.(root)) self in
  let self := set_root (tk.attributes_topmost false self.(root)) self in
  let self :=
    set_root (tk.set_geometry self.(original_geometry) self.(root)) self in
  let self := set_is_fullscreen false self in
  if dialog_open self then set_unlock_dialog None self else self.

(** [state] of the [Entry] and the [Button] of the dialog. *)
Definition configure_inputs (normal : bool) (self : t) : t :=
  match self.(unlock_dialog) with
  | Some d =>
      set_unlock_dialog
        (Some (tk.mkToplevel d.(tk.dialog_exists) normal)) self
  | None => self
  end.

(** [check_password] is the command of the unlock button and the
    [<Return>] binding of the dialog, so it runs while the dialog
    exists. *)
Definition check_password (now : datetime.datetime) (self : t) : t :=
  let entered_password := self.(password_var) in
  if (entered_password =? self.(unlock_password))%string then
    show messagebox.UnlockSucceeded (exit_fullscreen self)
  else
    let self := set_wrong_attempts (self.(wrong_attempts) + 1) self in
    let remaining := 3 - self.(wrong_attempts) in
    if 0 <? remaining then
      set_password_var EmptyString (set_error_label (TriesLeft remaining) self)
    else
      let self := set_error_label TooManyErrors self in
      let self := configure_inputs false self in
      after now 5000 reset_unlock_dialog_cb self.

Definition reset_unlock_dialog (self : t) : t :=
  if dialog_open self then
    let self := set_password_var EmptyString self in
    let self := set_error_label NoError self in
    let self := set_wrong_attempts 0 self in
    configure_inputs true self
  else self.

(** [self.running_study_task_id != task.id]. *)
Definition running_is (task_id : string) (self : t) : bool :=
  match self.(running_study_task_id) with
  | Some r => (r =? task_id)%string
  | None => false
  end.

(** The closure [update_countdown] of [start_countdown].
    [remaining.seconds] is the seconds part of the [timedelta], without
    its days. *)
Definition update_countdown (now : datetime.datetime)
    (task_id subject : string) (end_time : datetime.datetime)
    (self : t) : t :=
  if negb (self.(current_mode) =? "study_mode")%string
     || negb (running_is task_id self)
  then self
  else if now <? end_time then
    let seconds := ((end_time - now) / datetime.US_PER_SEC) mod 86400 in
    let self :=
      set_study_mode_status
        (Remaining subject (seconds / 60) (seconds mod 60)) self in
    after now 1000 (update_countdown_cb task_id subject end_time) self
  else set_study_mode_status (Reached subject) self.

(** [start_countdown(task)], the task object being the one at position
    [i] of [helper.tasks].  For a task that has not been started the
    source reads the clock twice, in [start_study_mode] and when it
    assigns [task.start_time]; both readings are [now] here.  Where the
    start time plus the limit is not a [datetime] the source raises
    [OverflowError] at the computation of [end_time]; the embedding
    computes on, so it describes the source where that sum is a
    [datetime]. *)
Definition start_countdown (now : datetime.datetime) (i : nat)
    (self : t) : t :=
  match nth_error self.(helper).(StudyHelper.tasks) i with
  | None => self
  | Some task =>
      let self :=
        if negb (Task.started task) then
          let h :=
            snd (StudyHelper.start_study_mode_task now task.(Task.id)
                   self.(helper)) in
          match nth_error h.(StudyHelper.tasks) i with
          | Some task =>
              set_helper
                (StudyHelper.set_tasks
                   (set_nth i (Task.set_start_time (Some now) task)
                      h.(StudyHelper.tasks)) h) self
          | None => set_helper h self
          end
        else self in
      match nth_error self.(helper).(StudyHelper.tasks) i with
      | Some task =>
          match task.(Task.start_time) with
          | Some st =>
              let end_time := st + datetime.minutes task.(Task.time_limit) in
              update_countdown now task.(Task.id) task.(Task.subject)
                end_time self
          | None => self
          end
      | None => self
      end
  end.

(** The guard at the head of [switch_mode]: the switch to normal mode is
    refused. *)
Definition switch_refused (now : datetime.datetime) (self : t) : bool :=
  let new_mode := self.(current_mode) in
  if (new_mode =? "normal")%string && truthy self.(running_study_task_id)
  then
    match self.(running_study_task_id) with
    | Some r =>
        match find (StudyHelper.has_id r) self.(helper).(StudyHelper.tasks) with
        | Some task =>
            match task.(Task.start_time) with
            | Some st =>
                Task.time_not_reached now st task.(Task.time_limit)
            | None => false
            end
        | None => false
        end
    | None => false
    end
  else false.

(** [switch_mode], the command of both radio buttons; the radio button
    has stored the selected mode in [current_mode] before. *)
Definition switch_mode (now : datetime.datetime) (self : t) : t :=
  let new_mode := self.(current_mode) in
  if switch_refused now self then
    set_current_mode "study_mode" (show messagebox.SwitchFailed self)
  else if (new_mode =? "study_mode")%string then
    (* pending_study_tasks[0]: the first task that is not completed and
       is a study-mode task *)
    match
      index_where
        (fun task => negb task.(Task.completed) && Task.is_study_mode task)
        self.(helper).(StudyHelper.tasks)
    with
    | Some i =>
        match nth_error self.(helper).(StudyHelper.tasks) i with
        | Some task =>
            let self :=
              set_running_study_task_id (Some task.(Task.id)) self in
            let self := start_countdown now i self in
            set_lock_label LockRunning self
        | None => self
        end
    | None =>
        set_lock_label NoLock (show messagebox.StudyModeHint self)
    end
  else
    let self := set_running_study_task_id None self in
    let self := set_study_mode_status NoStatus self in
    let self := set_lock_label NoLock self in
    if self.(is_fullscreen) then exit_fullscreen self else self.

(** [handle_close], the [WM_DELETE_WINDOW] handler of the root window;
    [answer] is what the user answers should [askyesno] be shown. *)
Definition handle_close (answer : bool) (self : t) : t :=
  if truthy self.(running_study_task_id)
     && (self.(current_mode) =? "study_mode")%string
  then
    match self.(running_study_task_id) with
    | Some r =>
        let '(attempts, h) :=
          StudyHelper.record_close_attempt r self.(helper) in
        let self := set_helper h self in
        if attempts <=? 1 then show messagebox.CloseForbidden self
        else
          let self := show (messagebox.CloseWarning attempts) self in
          if 3 <=? attempts then enter_fullscreen self else self
    | None => self
    end
  else
    let self := show (messagebox.ConfirmClose answer) self in
    if answer then set_root (tk.destroy self.(root)) self else self.

(** The reset of the session that follows a completed or deleted
    study-mode task in [on_task_select]. *)
Definition clear_session (self : t) : t :=
  let self := set_running_study_task_id None self in
  let self := set_study_mode_status NoStatus self in
  let self := set_lock_label NoLock self in
  if self.(is_fullscreen) then exit_fullscreen self else self.

(** [on_task_select]: a click in the row that displays [short_id] (the
    last six characters of a task id), in column [column], at
    horizontal position [click_x]; [x] and [width] are the bounding box
    of the cell.  [click_x < x + width/3] is compared exactly. *)
Definition on_task_select (now : datetime.datetime) (short_id : string)
    (column : nat) (click_x x width : Z) (answer : bool) (self : t) : t :=
  let tasks := self.(helper).(StudyHelper.tasks) in
  match find (fun task => endswith task.(Task.id) short_id) tasks with
  | None => self
  | Some found =>
      let full_id := found.(Task.id) in
      if (full_id =? EmptyString)%string then self
      else if negb (column =? 7)%nat then self
      else
        match index_where (StudyHelper.has_id full_id) tasks with
        | None => self
        | Some i =>
            match nth_error tasks i with
            | None => self
            | Some task =>
                if Task.is_study_mode task then
                  if 3 * (click_x - x) <? width then
                    let h :=
                      snd (StudyHelper.start_study_mode_task now full_id
                             self.(helper)) in
                    let self := set_helper h self in
                    let self :=
                      set_running_study_task_id (Some full_id) self in
                    let self := start_countdown now i self in
                    let self := set_lock_label LockRunning self in
                    show messagebox.TaskStarted self
                  else if 3 * (click_x - x) <? 2 * width then
                    let '(ok, h, msgs) :=
                      StudyHelper.complete_task now full_id self.(helper) in
                    let self :=
                      set_shown (self.(shown) ++ msgs)%list
                        (set_helper h self) in
                    if ok then
                      clear_session (show messagebox.TaskCompleted self)
                    else self
                  else
                    let self := show (messagebox.ConfirmDelete answer) self in
                    if answer then
                      let h :=
                        snd (StudyHelper.delete_task full_id self.(helper)) in
                      let self := set_helper h self in
                      show messagebox.TaskDeleted (clear_session self)
                    else self
                else
                  if 2 * (click_x - x) <? width then
                    let '(ok, h, msgs) :=
                      StudyHelper.complete_task now full_id self.(helper) in
                    let self :=
                      set_shown (self.(shown) ++ msgs)%list
                        (set_helper h self) in
                    if ok then show messagebox.TaskCompleted self else self
                  else
                    let self := show (messagebox.ConfirmDelete answer) self in
                    if answer then
                      let h :=
                        snd (StudyHelper.delete_task full_id self.(helper)) in
                      show messagebox.TaskDeleted (set_helper h self)
                    else self
            end
        end
  end.

(** [save_task] of the add-task dialog.  [manual] is the text of the
    manual minutes entry: [None] when empty, [Some None] when it is not
    a number; [chosen] the value of the read-only minutes box;
    [date_ok] whether [deadline] parses as a date. *)
Definition save_task (new_id : string) (now : datetime.datetime)
    (subject content deadline : string) (priority : Z)
    (manual : option (option Z)) (chosen : option Z) (date_ok : bool)
    (self : t) : t :=
  if (subject =? EmptyString)%string || (content =? EmptyString)%string
     || (deadline =? EmptyString)%string
  then show messagebox.FieldsEmpty self
  else
    let study_mode := self.(current_mode) in
    let parsed : messagebox.Message + Z :=
      if (study_mode =? "study_mode")%string then
        match manual with
        | Some (Some n) =>
            if n <=? 0 then inl messagebox.InvalidMinutes else inr n
        | Some None => inl messagebox.InvalidMinutes
        | None =>
            match chosen with
            | Some n => inr n
            | None => inl messagebox.NoTimeLimit
            end
        end
      else inr 0 in
    match parsed with
    | inl m => show m self
    | inr time_limit =>
        if date_ok then
          let h :=
            snd (StudyHelper.add_task new_id now subject content deadline
                   priority study_mode time_limit self.(helper)) in
          show
            (messagebox.TaskAdded (study_mode =? "study_mode")%string)
            (set_helper h self)
        else show messagebox.BadDate self
    end.

(** *** The event loop *)

(** What can happen to the application between two returns to
    [mainloop]. *)
Inductive Event : Type :=
| SelectMode (mode : string)
    (* a radio button of the mode bar is clicked *)
| WindowClose (answer : bool)
    (* WM_DELETE_WINDOW on the root window *)
| TaskSelect (short_id : string) (column : nat) (click_x x width : Z)
    (answer : bool)
    (* a click in one of the task lists *)
| SaveTask (new_id subject content deadline : string) (priority : Z)
    (manual : option (option Z)) (chosen : option Z) (date_ok : bool)
    (* the save button of the add-task dialog *)
| TypePassword (text : string)
    (* the text of the password entry is edited *)
| UnlockButton
    (* the unlock button is clicked *)
| ReturnKey
    (* <Return> is pressed in the unlock dialog *)
| DialogClose
    (* WM_DELETE_WINDOW on the unlock dialog, which has no handler of
       its own and is destroyed *)
| Timer (k : nat).
    (* the k-th pending root.after callback becomes due *)

Fixpoint remove_nth {A : Type} (k : nat) (l : list A) : list A :=
  match l, k with
  | [], _ => []
  | _ :: rest, O => rest
  | y :: rest, S j => y :: remove_nth j rest
  end.

Definition run_callback (now : datetime.datetime) (cb : Callback)
    (self : t) : t :=
  match cb with
  | reset_unlock_dialog_cb => reset_unlock_dialog self
  | update_countdown_cb task_id subject end_time =>
      update_countdown now task_id subject end_time self
  end.

(** A disabled entry or button does not react; the [<Return>] binding
    sits on the dialog itself and [check_password] does not look at the
    state of the widgets. *)
Definition inputs_usable (self : t) : bool :=
  match self.(unlock_dialog) with
  | Some d => d.(tk.dialog_exists) && d.(tk.inputs_normal)
  | None => false
  end.

(** One event handled at time [now].  Nothing is handled once the root
    window is destroyed. *)
Definition step (now : datetime.datetime) (ev : Event) (self : t) : t :=
  if negb self.(root).(tk.winfo_exists) then self
  else
    match ev with
    | SelectMode mode => switch_mode now (set_current_mode mode self)
    | WindowClose answer => handle_close answer self
    | TaskSelect short_id column click_x x width answer =>
        on_task_select now short_id column click_x x width answer self
    | SaveTask new_id subject content deadline priority manual chosen
        date_ok =>
        save_task new_id now subject content deadline priority manual
          chosen date_ok self
    | TypePassword text =>
        if inputs_usable self then set_password_var text self else self
    | UnlockButton =>
        if inputs_usable self then check_password now self else self
    | ReturnKey =>
        if dialog_open self then check_password now self else self
    | DialogClose =>
        match self.(unlock_dialog) with
        | Some d =>
            set_unlock_dialog
              (Some (tk.mkToplevel false d.(tk.inputs_normal))) self
        | None => self
        end
    | Timer k =>
        match nth_error self.(scheduled) k with
        | Some (due, cb) =>
            if due <=? now then
              run_callback now cb
                (set_scheduled (remove_nth k self.(scheduled)) self)
            else self
        | None => self
        end
    end.

(** A run of the event loop: the events with the time each one is
    handled at. *)
Fixpoint run (evs : list (datetime.datetime * Event)) (self : t) : t :=
  match evs with
  | [] => self
  | (now, ev) :: rest => run rest (step now ev self)
  end.

End StudyHelperGUI.

(** ** Sample data *)

Module Sample.

(** A study-mode task of 30 minutes that has not been started. *)
Definition task : Task.t :=
  Task.init "task_20240101120000_123" 0 "math" "exercises" "2024-01-02" 3
    "study_mode" 30.

(** The same task, started at time 0. *)
Definition started_task : Task.t := Task.start_study_mode 0 task.

Definition second (n : Z) : datetime.datetime := n * datetime.US_PER_SEC.

(** The application started on a 1920x1080 screen with [task] on disk,
    switched to study mode at time 0. *)
Definition session : StudyHelperGUI.t :=
  StudyHelperGUI.step 0 (StudyHelperGUI.SelectMode "study_mode")
    (StudyHelperGUI.init "1920x1080+0+0" [Task.to_dict task]).

(** The session after three requests to close the window. *)
Definition locked_session : StudyHelperGUI.t :=
  StudyHelperGUI.run
    [(second 10, StudyHelperGUI.WindowClose true);
     (second 11, StudyHelperGUI.WindowClose true);
     (second 12, StudyHelperGUI.WindowClose true)]
    session.

End Sample.

(** ** Vocabulary of the statements *)

(** The state in which [handle_close] takes its study-mode branch: a
    running task id, study mode selected, and the task in the list. *)
Definition active (s : StudyHelperGUI.t) (r : string) (i : nat)
    (task : Task.t) : Prop :=
  s.(StudyHelperGUI.running_study_task_id) = Some r /\
  r <> EmptyString /\
  s.(StudyHelperGUI.current_mode) = "study_mode"%string /\
  index_where (StudyHelper.has_id r)
    s.(StudyHelperGUI.helper).(StudyHelper.tasks) = Some i /\
  nth_error s.(StudyHelperGUI.helper).(StudyHelper.tasks) i = Some task.


(** [t'] is a later state of the task object [t]: same id, the close
    attempts have not gone down, a start time that was set is still the
    same, and a completed task is still completed. *)
Definition later (t t' : Task.t) : Prop :=
  t'.(Task.id) = t.(Task.id) /\
  t.(Task.close_attempts) <= t'.(Task.close_attempts) /\
  (forall st, t.(Task.start_time) = Some st ->
              t'.(Task.start_time) = Some st) /\
  (t.(Task.completed) = true -> t'.(Task.completed) = true).

(** How a list of tasks can differ from an earlier one: every task is
    still there, in a later state, possibly followed by new tasks; or the
    tasks with one id have been deleted and the others are as they
    were. *)
Definition tasks_evolve (l l' : list Task.t) : Prop :=
  (exists l1 extra, l' = (l1 ++ extra)%list /\ Forall2 later l l1) \/
  (exists x, l' = filter (fun t => negb (StudyHelper.has_id x t)) l).

(** No event of the run makes the task list shorter, that is, none
    deletes a task. *)
Fixpoint never_deletes (evs : list (datetime.datetime * StudyHelperGUI.Event))
    (s : StudyHelperGUI.t) : Prop :=
  match evs with
  | [] => True
  | (now, ev) :: rest =>
      let s' := StudyHelperGUI.step now ev s in
      (List.length s.(StudyHelperGUI.helper).(StudyHelper.tasks)
       <= List.length s'.(StudyHelperGUI.helper).(StudyHelper.tasks))%nat
      /\ never_deletes rest s'
  end.

(** ** class 错题 (an entry of the error book) *)

Module 错题.

Record t : Type := mk {
  id : string;
  subject : string;
  question : string;
  answer : string;
  mistake : string;
  category : string;
  created_at : Z;
  review_count : Z;
  last_reviewed : option Z
}.

(** [__init__]; [new_id] is what [_generate_id] makes. *)
Definition init (new_id : string) (now : datetime.datetime)
    (subject question answer mistake category : string) : t :=
  {| id := new_id;
     subject := subject;
     question := question;
     answer := answer;
     mistake := mistake;
     category := category;
     created_at := datetime.strftime now;
     review_count := 0;
     last_reviewed := None |}.

Definition review (now : datetime.datetime) (self : t) : t :=
  mk self.(id) self.(subject) self.(question) self.(answer) self.(mistake)
     self.(category) self.(created_at) (self.(review_count) + 1)
     (Some (datetime.strftime now)).

(** The JSON object of [to_dict]; [from_dict] reads every key with
    [data[...]], so none may be missing. *)
Record Dict : Type := mkDict {
  d_id : string;
  d_subject : string;
  d_question : string;
  d_answer : string;
  d_mistake : string;
  d_category : string;
  d_created_at : Z;
  d_review_count : Z;
  d_last_reviewed : option Z
}.

Definition to_dict (self : t) : Dict :=
  {| d_id := self.(id);
     d_subject := self.(subject);
     d_question := self.(question);
     d_answer := self.(answer);
     d_mistake := self.(mistake);
     d_category := self.(category);
     d_created_at := self.(created_at);
     d_review_count := self.(review_count);
     d_last_reviewed := self.(last_reviewed) |}.

Definition from_dict (data : Dict) : t :=
  {| id := data.(d_id);
     subject := data.(d_subject);
     question := data.(d_question);
     answer := data.(d_answer);
     mistake := data.(d_mistake);
     category := data.(d_category);
     created_at := data.(d_created_at);
     review_count := data.(d_review_count);
     last_reviewed := data.(d_last_reviewed) |}.

End 错题.

(** ** class StudyHelper (the error-book part)

    The attributes [errors] and [errors_file] of [StudyHelper] and the
    methods on them.  They share no state with the task part, which is
    [StudyHelper.t]. *)

Module StudyHelperErrors.

Record t : Type := mk {
  errors : list 错题.t;
  errors_file : list 错题.Dict
}.

Definition set_errors (l : list 错题.t) (self : t) : t :=
  mk l self.(errors_file).

Definition _save_errors (self : t) : t :=
  mk self.(errors) (map 错题.to_dict self.(errors)).

Definition _load_errors (file : list 错题.Dict) : list 错题.t :=
  map 错题.from_dict file.

Definition init (file : list 错题.Dict) : t :=
  mk (_load_errors file) file.

Definition has_id (error_id : string) (error : 错题.t) : bool :=
  (error.(错题.id) =? error_id)%string.

Definition add_error (new_id : string) (now : datetime.datetime)
    (subject question answer mistake category : string) (self : t)
    : 错题.t * t :=
  let error :=
    错题.init new_id now subject question answer mistake category in
  (error, _save_errors (set_errors (self.(errors) ++ [error])%list self)).

Definition review_error (now : datetime.datetime) (error_id : string)
    (self : t) : bool * t :=
  match index_where (has_id error_id) self.(errors) with
  | Some i =>
      match nth_error self.(errors) i with
      | Some error =>
          (true,
           _save_errors
             (set_errors (set_nth i (错题.review now error) self.(errors))
                self))
      | None => (false, self)
      end
  | None => (false, self)
  end.

Definition get_errors_by_subject (subject : string) (self : t)
    : list 错题.t :=
  if (subject =? EmptyString)%string then self.(errors)
  else
    filter (fun error => (error.(错题.subject) =? subject)%string)
      self.(errors).

Definition delete_error (error_id : string) (self : t) : bool * t :=
  let initial_count := List.length self.(errors) in
  let self' :=
    set_errors (filter (fun error => negb (has_id error_id error))
                  self.(errors)) self in
  if (List.length self'.(errors) <? initial_count)%nat
  then (true, _save_errors self')
  else (false, self').

(** A [dict] from strings to counters, in insertion order.
    [bump k d] is [if k not in d: d[k] = 0] followed by [d[k] += 1]. *)
Fixpoint bump (k : string) (d : list (string * Z)) : list (string * Z) :=
  match d with
  | [] => [(k, 0 + 1)]
  | (k', n) :: rest =>
      if (k' =? k)%string then (k', n + 1) :: rest
      else (k', n) :: bump k rest
  end.

(** The value [{"count": ..., "categories": {...}}] kept per subject. *)
Record SubjectStats : Type := mkStats {
  count : Z;
  categories : list (string * Z)
}.

(** The body of the loop of [get_error_stats] for one error. *)
Fixpoint tally (subject category : string)
    (subject_stats : list (string * SubjectStats))
    : list (string * SubjectStats) :=
  match subject_stats with
  | [] => [(subject, mkStats (0 + 1) (bump category []))]
  | (s, st) :: rest =>
      if (s =? subject)%string
      then (s, mkStats (st.(count) + 1) (bump category st.(categories)))
           :: rest
      else (s, st) :: tally subject category rest
  end.

Definition get_error_stats (self : t) : list (string * SubjectStats) :=
  match self.(errors) with
  | [] => []
  | _ =>
      fold_left
        (fun subject_stats error =>
           tally error.(错题.subject) error.(错题.category) subject_stats)
        self.(errors) []
  end.

(** [d.get(k)]. *)
Fixpoint lookup {V : Type} (k : string) (d : list (string * V)) : option V :=
  match d with
  | [] => None
  | (k', v) :: rest => if (k' =? k)%string then Some v else lookup k rest
  end.

End StudyHelperErrors.

(** ** More vocabulary of the statements *)

(** The file [tasks.json] holds what [to_dict] makes of the tasks in
    memory. *)
Definition synced (h : StudyHelper.t) : Prop :=
  h.(StudyHelper.tasks_file) = map Task.to_dict h.(StudyHelper.tasks).

(** A start time cut to whole seconds, as it comes back from the file. *)
Definition whole_seconds (st : datetime.datetime) : datetime.datetime :=
  datetime.strptime (datetime.strftime st).

(** The task as it is after being written to the file and read back. *)
Definition reloaded (task : Task.t) : Task.t :=
  Task.set_start_time (option_map whole_seconds task.(Task.start_time)) task.

(** The events that come from the unlock dialog. *)
Definition dialog_input (ev : StudyHelperGUI.Event) : Prop :=
  match ev with
  | StudyHelperGUI.TypePassword _ => True
  | StudyHelperGUI.UnlockButton => True
  | StudyHelperGUI.ReturnKey => True
  | _ => False
  end.

(** Sum of the counters of a dictionary. *)
Definition total {K : Type} (d : list (K * Z)) : Z :=
  fold_right (fun kv acc => snd kv + acc) 0 d.

(** The largest time limit, in minutes (about 19 years), for which
    statements about the outcome of [used_time < time_limit] are made.
    The source compares binary floats; up to this limit, positive or
    negative, the float comparison and the exact one of
    [Task.time_not_reached] agree whatever the elapsed time is. *)
Definition MAX_TIME_LIMIT : Z := 10000000.

(** A [datetime] of Python, counted in microseconds from
    0001-01-01 00:00:00: the last one is 9999-12-31 23:59:59.999999. *)
Definition is_datetime (d : datetime.datetime) : Prop :=
  0 <= d <= 315537897599999999.

(** * Properties *)

(** ** Lists of objects *)

Section ListFacts.

Context {A : Type}.
Implicit Types (p : A -> bool) (l : list A) (i : nat).

Lemma index_where_Some p l i :
  index_where p l = Some i ->
  exists x, nth_error l i = Some x /\ p x = true.
Proof.
  revert i; induction l as [|y rest IH]; intros i; simpl.
  - discriminate.
  - destruct (p y) eqn:Hy.
    + intros [= <-]; exists y; auto.
    + destruct (index_where p rest) as [j|]; simpl; [|discriminate].
      intros [= <-]; simpl; apply IH; reflexivity.
Qed.

Lemma index_where_find p l i x :
  index_where p l = Some i -> nth_error l i = Some x -> find p l = Some x.
Proof.
  revert i; induction l as [|y rest IH]; intros i; simpl.
  - discriminate.
  - destruct (p y) eqn:Hy.
    + intros [= <-]; simpl; auto.
    + destruct (index_where p rest) as [j|]; simpl; [|discriminate].
      intros [= <-]; simpl; apply IH; reflexivity.
Qed.

Lemma find_index_where p l x :
  find p l = Some x ->
  exists i, index_where p l = Some i /\ nth_error l i = Some x.
Proof.
  induction l as [|y rest IH]; simpl.
  - discriminate.
  - destruct (p y) eqn:Hy.
    + intros [= <-]; exists O; auto.
    + intros H; destruct (IH H) as (i & Hi & Hn).
      exists (S i); rewrite Hi; auto.
Qed.

Lemma index_where_None p l :
  index_where p l = None -> forall x, In x l -> p x = false.
Proof.
  induction l as [|y rest IH]; simpl; [tauto|].
  destruct (p y) eqn:Hy; [discriminate|].
  destruct (index_where p rest); simpl; [discriminate|].
  intros _ x [<-|Hin]; auto.
Qed.

Lemma find_None_index_where p l :
  find p l = None -> index_where p l = None.
Proof.
  induction l as [|y rest IH]; simpl; auto.
  destruct (p y); [discriminate|].
  intros H; rewrite (IH H); reflexivity.
Qed.

Lemma nth_error_set_nth l i x y :
  nth_error l i = Some x -> nth_error (set_nth i y l) i = Some y.
Proof.
  revert i; induction l as [|z rest IH]; intros [|i]; simpl;
    try discriminate; auto.
Qed.

Lemma set_nth_same l i x :
  nth_error l i = Some x -> set_nth i x l = l.
Proof.
  revert i; induction l as [|z rest IH]; intros [|i]; simpl;
    try discriminate.
  - intros [= ->]; reflexivity.
  - intros H; rewrite (IH _ H); reflexivity.
Qed.

Lemma length_set_nth l i y :
  List.length (set_nth i y l) = List.length l.
Proof.
  revert i; induction l as [|z rest IH]; intros [|i]; simpl; auto.
Qed.

Lemma Forall2_set_nth (R : A -> A -> Prop) l i x y :
  (forall z, R z z) ->
  nth_error l i = Some x -> R x y -> Forall2 R l (set_nth i y l).
Proof.
  intros Hrefl.
  assert (Hl : forall l', Forall2 R l' l')
    by (induction l'; constructor; auto).
  revert i; induction l as [|z rest IH]; intros [|i]; simpl;
    try discriminate.
  - intros [= ->] Hxy; constructor; auto.
  - intros Hn Hxy; constructor; auto.
Qed.

(** A mutation that does not change the outcome of a test on any object
    does not change what a search for that test finds. *)
Lemma index_where_Forall2 p l l' :
  Forall2 (fun a b => p b = p a) l l' ->
  index_where p l' = index_where p l.
Proof.
  induction 1 as [|a b l l' Hab _ IH]; simpl; auto.
  rewrite Hab, IH; reflexivity.
Qed.

End ListFacts.

(** ** Task *)

Lemma minutes_unfold m : datetime.minutes m = m * 60000000.
Proof. reflexivity. Qed.

Lemma round_half_even_close n d :
  0 < d -> 2 * Z.abs (n - round_half_even n d * d) <= d.
Proof.
  intros Hd; unfold round_half_even.
  pose proof (Z.div_mod n d ltac:(lia)) as Hdm.
  pose proof (Z.mod_pos_bound n d Hd) as Hb.
  destruct (2 * (n mod d) <? d) eqn:H1; [apply Z.ltb_lt in H1; nia|].
  apply Z.ltb_ge in H1.
  destruct (d <? 2 * (n mod d)) eqn:H2; [apply Z.ltb_lt in H2; nia|].
  apply Z.ltb_ge in H2.
  destruct (Z.even (n / d)); nia.
Qed.

(** What [complete] does to a timed task that has been started. *)
Lemma complete_started now task st :
  Task.is_study_mode task = true ->
  0 < task.(Task.time_limit) ->
  task.(Task.start_time) = Some st ->
  (now - st < datetime.minutes task.(Task.time_limit) ->
   Task.complete now task =
     (false, task,
      [messagebox.TimeNotReached task.(Task.time_limit)
         (format_1f (Task.remaining now st task.(Task.time_limit)))])) /\
  (datetime.minutes task.(Task.time_limit) <= now - st ->
   exists task',
     Task.complete now task = (true, task', []) /\
     task'.(Task.completed) = true).
Proof.
  intros Hmode Hlim Hst; unfold Task.complete.
  rewrite Hmode, Hst.
  replace (0 <? Task.time_limit task) with true
    by (symmetry; apply Z.ltb_lt; assumption).
  unfold Task.time_not_reached, Task.used_time; simpl.
  split; intros Hcmp.
  - apply Z.ltb_lt in Hcmp; rewrite Hcmp; reflexivity.
  - apply Z.ltb_ge in Hcmp; rewrite Hcmp.
    destruct (Task.completed task) eqn:Hc; simpl; eexists; split;
      try reflexivity; auto.
Qed.

(** ** C1: completion is guarded by the time limit *)

(** C1 as stated fails where it says that the exact remaining time is
    reported: 29 minutes 58 seconds into a 30-minute task the refusal
    message reads "0.0" minutes, while 2 seconds remain. *)
Lemma complete_reports_rounded_remaining :
  ~ (forall now task st d,
        task.(Task.start_time) = Some st ->
        Task.complete now task =
          (false, task,
           [messagebox.TimeNotReached task.(Task.time_limit) d]) ->
        d * (datetime.US_PER_MIN / 10)
        = Task.remaining now st task.(Task.time_limit)).
Proof.
  intros H.
  specialize (H (Sample.second 1798) Sample.started_task 0 0
                eq_refl eq_refl).
  vm_compute in H; discriminate.
Qed.

(** C1 (amended): for a study-mode task with a positive time limit of at
    most [MAX_TIME_LIMIT] minutes that has been started, [complete_task]
    succeeds, marking the task completed, if and only if the time elapsed
    since the start is at least the limit.  When it is refused it returns
    [False], leaves the helper (the task list, the completed flag, the
    file) as it was, and shows one message with the limit and the
    remaining time in tenths of a minute, which, when the start does not
    lie in the future, is within half a tenth of the exact remaining
    time. *)
Theorem complete_task_guarded_by_time_limit :
  forall now task_id h i task st,
    index_where (StudyHelper.has_id task_id) h.(StudyHelper.tasks) = Some i ->
    nth_error h.(StudyHelper.tasks) i = Some task ->
    Task.is_study_mode task = true ->
    0 < task.(Task.time_limit) <= MAX_TIME_LIMIT ->
    task.(Task.start_time) = Some st ->
    let limit := task.(Task.time_limit) in
    let '(ok, h', msgs) := StudyHelper.complete_task now task_id h in
    (ok = true <-> datetime.minutes limit <= now - st) /\
    (ok = true ->
     exists task',
       nth_error h'.(StudyHelper.tasks) i = Some task' /\
       task'.(Task.completed) = true) /\
    (ok = false ->
     h' = h /\
     Task.complete now task = (false, task, msgs) /\
     exists d,
       msgs = [messagebox.TimeNotReached limit d] /\
       (st <= now ->
        2 * Z.abs (Task.remaining now st limit
                   - d * (datetime.US_PER_MIN / 10))
        <= datetime.US_PER_MIN / 10)).
Proof.
  intros now task_id h i task st Hi Hn Hmode (Hlim & Hmax) Hst limit.
  unfold StudyHelper.complete_task; rewrite Hi, Hn.
  destruct (complete_started now task st Hmode Hlim Hst) as [Hlt Hge].
  destruct (Z.lt_ge_cases (now - st) (datetime.minutes limit)) as [Hc|Hc].
  - rewrite (Hlt Hc).
    rewrite (set_nth_same _ _ _ Hn).
    split; [split; [discriminate|unfold limit in *; lia]|].
    split; [discriminate|].
    intros _; split; [destruct h; reflexivity|].
    split; [reflexivity|].
    eexists; split; [reflexivity|].
    intros _; apply round_half_even_close; reflexivity.
  - destruct (Hge Hc) as (task' & -> & Hdone).
    split; [split; auto|].
    split; [|discriminate].
    intros _; exists task'; split; auto.
    simpl; apply nth_error_set_nth with (x := task); assumption.
Qed.

Lemma complete_task_guarded_by_time_limit_witness :
  let h := StudyHelper.mk [Sample.started_task] [] in
  fst (fst (StudyHelper.complete_task (Sample.second 1740)
              "task_20240101120000_123" h)) = true
  <-> datetime.minutes 30 <= Sample.second 1740 - 0.
Proof.
  intros h.
  assert (Hlim : 0 < Sample.started_task.(Task.time_limit) <= MAX_TIME_LIMIT)
    by (vm_compute; split; [reflexivity|discriminate]).
  pose proof (complete_task_guarded_by_time_limit (Sample.second 1740)
                "task_20240101120000_123" h 0%nat Sample.started_task 0
                eq_refl eq_refl eq_refl Hlim eq_refl) as H.
  destruct (StudyHelper.complete_task _ _ h) as [[ok h'] msgs].
  exact (proj1 H).
Defined.

(** ** C2: close requests and the forced full screen *)

Lemma truthy_Some r : r <> EmptyString -> StudyHelperGUI.truthy (Some r) = true.
Proof.
  intros Hr; simpl.
  destruct (String.eqb_spec r EmptyString); [contradiction|reflexivity].
Qed.

Lemma record_close_attempt_found task_id h i task :
  index_where (StudyHelper.has_id task_id) h.(StudyHelper.tasks) = Some i ->
  nth_error h.(StudyHelper.tasks) i = Some task ->
  let n := task.(Task.close_attempts) + 1 in
  let l := set_nth i (Task.set_close_attempts n task) h.(StudyHelper.tasks) in
  StudyHelper.record_close_attempt task_id h
  = (n, StudyHelper.mk l (map Task.to_dict l)).
Proof.
  intros Hi Hn; unfold StudyHelper.record_close_attempt.
  rewrite Hi, Hn; reflexivity.
Qed.

(** The first task with a given id is still the first one after the
    object at some position has been replaced by one with the same id. *)
Lemma index_where_has_id_set_nth r l i (task task' : Task.t) :
  nth_error l i = Some task ->
  task'.(Task.id) = task.(Task.id) ->
  index_where (StudyHelper.has_id r) (set_nth i task' l)
  = index_where (StudyHelper.has_id r) l.
Proof.
  intros Hn Hid; apply index_where_Forall2.
  apply Forall2_set_nth with (x := task); auto.
  unfold StudyHelper.has_id; rewrite Hid; reflexivity.
Qed.

Lemma handle_close_active answer s r i task :
  active s r i task ->
  let n := task.(Task.close_attempts) + 1 in
  let l :=
    set_nth i (Task.set_close_attempts n task)
      s.(StudyHelperGUI.helper).(StudyHelper.tasks) in
  let s1 :=
    StudyHelperGUI.set_helper (StudyHelper.mk l (map Task.to_dict l)) s in
  StudyHelperGUI.handle_close answer s
  = if n <=? 1 then StudyHelperGUI.show messagebox.CloseForbidden s1
    else
      let s2 := StudyHelperGUI.show (messagebox.CloseWarning n) s1 in
      if 3 <=? n then StudyHelperGUI.enter_fullscreen s2 else s2.
Proof.
  intros (Hrun & Hr & Hmode & Hi & Hn) n l s1.
  unfold StudyHelperGUI.handle_close.
  rewrite Hrun, (truthy_Some r Hr), Hmode; simpl.
  rewrite (record_close_attempt_found r _ i task Hi Hn); reflexivity.
Qed.

Lemma handle_close_keeps_active answer s r i task :
  active s r i task ->
  active (StudyHelperGUI.handle_close answer s) r i
    (Task.set_close_attempts (task.(Task.close_attempts) + 1) task).
Proof.
  intros Hact.
  rewrite (handle_close_active answer s r i task Hact).
  destruct Hact as (Hrun & Hr & Hmode & Hi & Hn).
  assert (Hi' :
    index_where (StudyHelper.has_id r)
      (set_nth i (Task.set_close_attempts (Task.close_attempts task + 1) task)
         (StudyHelper.tasks (StudyHelperGUI.helper s))) = Some i)
    by (rewrite (index_where_has_id_set_nth r _ i task); auto).
  pose proof (nth_error_set_nth _ i task
    (Task.set_close_attempts (Task.close_attempts task + 1) task) Hn) as Hn'.
  unfold active.
  destruct (_ <=? 1); [|destruct (3 <=? _)];
    unfold StudyHelperGUI.enter_fullscreen, StudyHelperGUI.show_unlock_dialog;
    try destruct (StudyHelperGUI.dialog_open _); simpl; auto.
Qed.

(** C2 as stated fails for an active task while the mode selector is on
    normal.  The application is started on a file that holds the sample
    task, started and with two close attempts on record; the selector is
    on normal, and the task is started from the task list, which makes it
    the running task.  A close request is then not counted, the window
    does not go full screen although the count would reach 3, and the
    request, once confirmed, destroys the window. *)
Lemma close_in_normal_mode_is_not_counted :
  ~ (forall answer s r i task,
        s.(StudyHelperGUI.running_study_task_id) = Some r ->
        r <> EmptyString ->
        index_where (StudyHelper.has_id r)
          s.(StudyHelperGUI.helper).(StudyHelper.tasks) = Some i ->
        nth_error s.(StudyHelperGUI.helper).(StudyHelper.tasks) i
        = Some task ->
        3 <= task.(Task.close_attempts) + 1 ->
        (StudyHelperGUI.handle_close answer s).(StudyHelperGUI.is_fullscreen)
        = true).
Proof.
  intros H.
  pose (s :=
    StudyHelperGUI.on_task_select (Sample.second 60) "00_123" 7 10 0 300
      true
      (StudyHelperGUI.init "1920x1080+0+0"
         [Task.to_dict (Task.set_close_attempts 2 Sample.started_task)])).
  assert (Hf : (StudyHelperGUI.handle_close true s)
                 .(StudyHelperGUI.is_fullscreen) = true).
  { apply (H true s "task_20240101120000_123"%string 0%nat
             (Task.set_close_attempts 2 Sample.started_task)).
    - vm_compute; reflexivity.
    - discriminate.
    - vm_compute; reflexivity.
    - vm_compute; reflexivity.
    - vm_compute; discriminate. }
  vm_compute in Hf; discriminate.
Qed.

(** C2 (amended): while a task is active and study mode is selected, a
    close request counts one more attempt on the task and never closes
    the window; it forces the locked full-screen state (full screen, on
    top, unlock dialog open)
    exactly when the count after the increment is at least 3, and below 3
    it only shows one warning and leaves window, full-screen flag and
    dialog as they were.  Three requests in a row from a count of 0 end
    locked with a count of exactly 3. *)
Theorem handle_close_locks_at_three :
  forall answer s r i task,
    active s r i task ->
    let n := task.(Task.close_attempts) + 1 in
    let s' := StudyHelperGUI.handle_close answer s in
    active s' r i (Task.set_close_attempts n task) /\
    s'.(StudyHelperGUI.root).(tk.winfo_exists)
    = s.(StudyHelperGUI.root).(tk.winfo_exists) /\
    (3 <= n ->
     s'.(StudyHelperGUI.is_fullscreen) = true /\
     s'.(StudyHelperGUI.root).(tk.fullscreen) = true /\
     s'.(StudyHelperGUI.root).(tk.topmost) = true /\
     s'.(StudyHelperGUI.lock_label) = StudyHelperGUI.LockForced /\
     StudyHelperGUI.dialog_open s' = true) /\
    (n < 3 ->
     s'.(StudyHelperGUI.is_fullscreen) = s.(StudyHelperGUI.is_fullscreen) /\
     s'.(StudyHelperGUI.root) = s.(StudyHelperGUI.root) /\
     s'.(StudyHelperGUI.unlock_dialog) = s.(StudyHelperGUI.unlock_dialog) /\
     s'.(StudyHelperGUI.shown)
     = (s.(StudyHelperGUI.shown)
        ++ [if n <=? 1 then messagebox.CloseForbidden
            else messagebox.CloseWarning n])%list) /\
    (task.(Task.close_attempts) = 0 ->
     s.(StudyHelperGUI.is_fullscreen) = false ->
     forall a2 a3,
       let s2 := StudyHelperGUI.handle_close a2 s' in
       let s3 := StudyHelperGUI.handle_close a3 s2 in
       s'.(StudyHelperGUI.is_fullscreen) = false /\
       s2.(StudyHelperGUI.is_fullscreen) = false /\
       s3.(StudyHelperGUI.is_fullscreen) = true /\
       exists task3,
         nth_error s3.(StudyHelperGUI.helper).(StudyHelper.tasks) i
         = Some task3 /\
         task3.(Task.close_attempts) = 3).
Proof.
  assert (Hone : forall answer s r i task,
    active s r i task ->
    let n := task.(Task.close_attempts) + 1 in
    let s' := StudyHelperGUI.handle_close answer s in
    s'.(StudyHelperGUI.root).(tk.winfo_exists)
    = s.(StudyHelperGUI.root).(tk.winfo_exists) /\
    (3 <= n ->
     s'.(StudyHelperGUI.is_fullscreen) = true /\
     s'.(StudyHelperGUI.root).(tk.fullscreen) = true /\
     s'.(StudyHelperGUI.root).(tk.topmost) = true /\
     s'.(StudyHelperGUI.lock_label) = StudyHelperGUI.LockForced /\
     StudyHelperGUI.dialog_open s' = true) /\
    (n < 3 ->
     s'.(StudyHelperGUI.is_fullscreen) = s.(StudyHelperGUI.is_fullscreen) /\
     s'.(StudyHelperGUI.root) = s.(StudyHelperGUI.root) /\
     s'.(StudyHelperGUI.unlock_dialog) = s.(StudyHelperGUI.unlock_dialog) /\
     s'.(StudyHelperGUI.shown)
     = (s.(StudyHelperGUI.shown)
        ++ [if n <=? 1 then messagebox.CloseForbidden
            else messagebox.CloseWarning n])%list)).
  { intros answer s r i task Hact n s'.
    unfold s'; rewrite (handle_close_active answer s r i task Hact).
    fold n.
    destruct (n <=? 1) eqn:H1; [apply Z.leb_le in H1|apply Z.leb_gt in H1].
    - split; [reflexivity|]; split; [lia|]; intros _; simpl; auto.
    - destruct (3 <=? n) eqn:H3; [apply Z.leb_le in H3|apply Z.leb_gt in H3].
      + split.
        * unfold StudyHelperGUI.enter_fullscreen,
            StudyHelperGUI.show_unlock_dialog.
          destruct (StudyHelperGUI.dialog_open _); reflexivity.
        * split; [|lia]; intros _.
          unfold StudyHelperGUI.enter_fullscreen,
            StudyHelperGUI.show_unlock_dialog.
          destruct (StudyHelperGUI.dialog_open _) eqn:Hd; simpl; auto 6.
      + split; [reflexivity|]; split; [lia|]; intros _; simpl; auto. }
  intros answer s r i task Hact n s'.
  pose proof (handle_close_keeps_active answer s r i task Hact) as Hact1.
  destruct (Hone answer s r i task Hact) as (Hw & Hlock & Hwarn).
  fold n in Hact1, Hlock, Hwarn; fold s' in Hact1, Hw, Hlock, Hwarn.
  split; [exact Hact1|].
  split; [exact Hw|].
  split; [exact Hlock|].
  split; [exact Hwarn|].
  intros Hzero Hfs a2 a3 s2 s3.
  pose proof (handle_close_keeps_active a2 s' r i _ Hact1) as Hact2.
  pose proof (handle_close_keeps_active a3 _ r i _ Hact2) as Hact3.
  destruct (Hone a2 s' r i _ Hact1) as (_ & _ & Hwarn2).
  destruct (Hone a3 _ r i _ Hact2) as (_ & Hlock3 & _).
  simpl in Hwarn2, Hlock3, Hact3.
  fold s2 in Hwarn2, Hlock3, Hact3; fold s3 in Hlock3, Hact3.
  unfold n in *.
  split; [destruct Hwarn as (-> & _); [lia|assumption]|].
  split; [destruct Hwarn2 as (-> & _); [lia|];
          destruct Hwarn as (-> & _); [lia|assumption]|].
  split; [apply Hlock3; lia|].
  destruct Hact3 as (_ & _ & _ & _ & Hn3).
  eexists; split; [exact Hn3|]; simpl; lia.
Qed.

Lemma handle_close_locks_at_three_witness :
  let s := Sample.session in
  let s' := StudyHelperGUI.handle_close true s in
  s'.(StudyHelperGUI.root).(tk.winfo_exists)
  = s.(StudyHelperGUI.root).(tk.winfo_exists).
Proof.
  intros s s'.
  refine (proj1 (proj2
    (handle_close_locks_at_three true s "task_20240101120000_123" 0%nat
       Sample.started_task _))).
  repeat split; try reflexivity.
  intros H; discriminate H.
Defined.

(** ** C4: leaving study mode *)




(** ** C6: unlocking with the correct secret *)

(** [enter_fullscreen] captures the geometry the window has at that
    moment. *)
Lemma enter_fullscreen_captures s :
  (StudyHelperGUI.enter_fullscreen s).(StudyHelperGUI.original_geometry)
  = s.(StudyHelperGUI.root).(tk.geometry).
Proof.
  unfold StudyHelperGUI.enter_fullscreen, StudyHelperGUI.show_unlock_dialog.
  destruct (StudyHelperGUI.dialog_open _); reflexivity.
Qed.

(** With the correct secret in the entry, [check_password] clears full
    screen and always-on-top, sets the window to [original_geometry],
    closes the unlock dialog, and leaves the tasks, hence every start
    time, the running task and the pending timers untouched. *)
Lemma check_password_correct_secret now s :
  s.(StudyHelperGUI.password_var) = s.(StudyHelperGUI.unlock_password) ->
  let s' := StudyHelperGUI.check_password now s in
  s'.(StudyHelperGUI.root).(tk.fullscreen) = false /\
  s'.(StudyHelperGUI.root).(tk.topmost) = false /\
  s'.(StudyHelperGUI.is_fullscreen) = false /\
  s'.(StudyHelperGUI.root).(tk.geometry)
  = s.(StudyHelperGUI.original_geometry) /\
  StudyHelperGUI.dialog_open s' = false /\
  s'.(StudyHelperGUI.helper) = s.(StudyHelperGUI.helper) /\
  s'.(StudyHelperGUI.running_study_task_id)
  = s.(StudyHelperGUI.running_study_task_id) /\
  s'.(StudyHelperGUI.scheduled) = s.(StudyHelperGUI.scheduled) /\
  s'.(StudyHelperGUI.shown)
  = (s.(StudyHelperGUI.shown) ++ [messagebox.UnlockSucceeded])%list.
Proof.
  intros Hpw s'.
  unfold s', StudyHelperGUI.check_password.
  rewrite Hpw, String.eqb_refl.
  unfold StudyHelperGUI.exit_fullscreen.
  destruct (StudyHelperGUI.dialog_open _) eqn:Hd; simpl;
    repeat split; auto.
Qed.

(** When the correct secret is entered right after one call of
    [enter_fullscreen], the window gets back the geometry it had before
    that call. *)
Lemma unlock_after_one_enter_fullscreen now s0 :
  let s :=
    StudyHelperGUI.set_password_var s0.(StudyHelperGUI.unlock_password)
      (StudyHelperGUI.enter_fullscreen s0) in
  (StudyHelperGUI.check_password now s).(StudyHelperGUI.root).(tk.geometry)
  = s0.(StudyHelperGUI.root).(tk.geometry).
Proof.
  intros s.
  assert (Hpw : s.(StudyHelperGUI.password_var)
                = s.(StudyHelperGUI.unlock_password)).
  { unfold s, StudyHelperGUI.enter_fullscreen,
      StudyHelperGUI.show_unlock_dialog.
    destruct (StudyHelperGUI.dialog_open _); reflexivity. }
  destruct (check_password_correct_secret now s Hpw) as (_ & _ & _ & Hg & _).
  rewrite Hg; unfold s; simpl.
  apply enter_fullscreen_captures.
Qed.

(** C6 at the failing input: the sample session, whose window has the
    geometry "1400x750", is locked by its third close request; a fourth
    close request comes while it is locked, and then the correct secret
    is submitted.  Full screen and always-on-top are cleared, the dialog
    is closed and the tasks with their start times are untouched, but the
    window is set to the geometry of the screen, not to the geometry it
    had before the lock. *)
Theorem unlock_after_fourth_close_misses_geometry :
  let s4 :=
    StudyHelperGUI.handle_close true Sample.locked_session in
  let s := StudyHelperGUI.set_password_var "123456" s4 in
  let s' := StudyHelperGUI.check_password (Sample.second 21) s in
  Sample.session.(StudyHelperGUI.is_fullscreen) = false /\
  Sample.session.(StudyHelperGUI.root).(tk.geometry) = "1400x750"%string /\
  Sample.locked_session.(StudyHelperGUI.is_fullscreen) = true /\
  s.(StudyHelperGUI.password_var) = s.(StudyHelperGUI.unlock_password) /\
  s'.(StudyHelperGUI.root).(tk.fullscreen) = false /\
  s'.(StudyHelperGUI.root).(tk.topmost) = false /\
  s'.(StudyHelperGUI.is_fullscreen) = false /\
  StudyHelperGUI.dialog_open s' = false /\
  s'.(StudyHelperGUI.helper) = s.(StudyHelperGUI.helper) /\
  s'.(StudyHelperGUI.root).(tk.geometry) = "1920x1080+0+0"%string /\
  s'.(StudyHelperGUI.root).(tk.geometry)
  <> Sample.session.(StudyHelperGUI.root).(tk.geometry).
Proof.
  vm_compute; repeat split; try reflexivity; discriminate.
Qed.

(** ** C10: completing twice *)

(** C10 as stated fails when the clock reads an earlier time at the
    second call (the source reads the local wall clock): [complete] tests
    the time limit before it looks at [completed], so a 30-minute task
    completed at minute 30 is refused when [complete] is called again at
    a reading of minute 1. *)
Lemma complete_again_at_an_earlier_reading :
  ~ (forall now now' task task' msgs,
        Task.complete now task = (true, task', msgs) ->
        fst (fst (Task.complete now' task')) = true).
Proof.
  intros H.
  assert (H1 :
    Task.complete (Sample.second 1800) Sample.started_task
    = (true,
       Task.set_completed true (Some 1800) Sample.started_task, []))
    by (vm_compute; reflexivity).
  specialize (H (Sample.second 1800) (Sample.second 60) _ _ _ H1).
  vm_compute in H; discriminate.
Qed.

(** C10 (amended): once [complete] has succeeded on a task, a call at a
    clock reading that is not earlier succeeds again, shows nothing, and
    leaves the task, with its completed flag and its [completed_at],
    exactly as the first success left it. *)
Theorem complete_idempotent :
  forall now now' task task' msgs,
    Task.complete now task = (true, task', msgs) ->
    now <= now' ->
    Task.complete now' task' = (true, task', []) /\
    task'.(Task.completed) = true.
Proof.
  intros now now' task task' msgs H Hle.
  assert (Hshape :
    task' = (if negb task.(Task.completed)
             then Task.set_completed true (Some (datetime.strftime now)) task
             else task) /\
    (Task.is_study_mode task && (0 <? task.(Task.time_limit)) = true ->
     exists st, task.(Task.start_time) = Some st /\
                Task.time_not_reached now st task.(Task.time_limit) = false)).
  { unfold Task.complete in H.
    destruct (Task.is_study_mode task && (0 <? Task.time_limit task)).
    - destruct (Task.start_time task) as [st|]; [|discriminate].
      destruct (Task.time_not_reached now st _) eqn:Ht; [discriminate|].
      injection H as <- _; split; [reflexivity|].
      intros _; exists st; auto.
    - injection H as <- _; split; [reflexivity|discriminate]. }
  destruct Hshape as (-> & Htimed).
  assert (Hdone :
    Task.completed
      (if negb task.(Task.completed)
       then Task.set_completed true (Some (datetime.strftime now)) task
       else task) = true)
    by (destruct (Task.completed task) eqn:Hc; simpl; auto).
  split; [|exact Hdone].
  unfold Task.complete; rewrite Hdone; simpl.
  replace (Task.is_study_mode _) with (Task.is_study_mode task)
    by (destruct (Task.completed task); reflexivity).
  replace (Task.time_limit (if negb _ then _ else _))
    with (Task.time_limit task)
    by (destruct (Task.completed task); reflexivity).
  replace (Task.start_time (if negb _ then _ else _))
    with (Task.start_time task)
    by (destruct (Task.completed task); reflexivity).
  destruct (Task.is_study_mode task && (0 <? Task.time_limit task));
    [|reflexivity].
  destruct (Htimed eq_refl) as (st & -> & Ht).
  unfold Task.time_not_reached, Task.used_time in *.
  apply Z.ltb_ge in Ht.
  replace (now' - st <? _) with false; [reflexivity|].
  symmetry; apply Z.ltb_ge; lia.
Qed.

Lemma complete_idempotent_witness :
  exists task',
    Task.complete (Sample.second 1900) task' = (true, task', []) /\
    task'.(Task.completed) = true.
Proof.
  eexists.
  refine (complete_idempotent (Sample.second 1800) (Sample.second 1900)
            Sample.started_task _ [] _ _).
  - reflexivity.
  - vm_compute; discriminate.
Defined.

(** ** Tasks in a later state *)

Lemma later_refl t : later t t.
Proof. unfold later; repeat split; auto; lia. Qed.

Lemma later_trans t1 t2 t3 : later t1 t2 -> later t2 t3 -> later t1 t3.
Proof.
  unfold later; intros (Hi & Hc & Hs & Hd) (Hi' & Hc' & Hs' & Hd').
  repeat split; auto; try congruence; lia.
Qed.

Lemma Forall2_later_refl l : Forall2 later l l.
Proof. induction l; constructor; auto using later_refl. Qed.

Lemma Forall2_later_trans l1 l2 l3 :
  Forall2 later l1 l2 -> Forall2 later l2 l3 -> Forall2 later l1 l3.
Proof.
  intros H; revert l3; induction H; intros l3 H3; inversion H3; subst;
    constructor; eauto using later_trans.
Qed.

Lemma later_set_nth l i task task' :
  nth_error l i = Some task -> later task task' ->
  Forall2 later l (set_nth i task' l).
Proof.
  intros Hn Hl; apply Forall2_set_nth with (x := task);
    auto using later_refl.
Qed.


Lemma start_study_mode_later now task :
  later task (Task.start_study_mode now task).
Proof.
  unfold Task.start_study_mode, Task.started.
  destruct (Task.is_study_mode task); simpl; auto using later_refl.
  destruct (Task.start_time task) eqn:Hst; simpl; auto using later_refl.
  unfold later; simpl; repeat split; auto; try lia.
  intros st; rewrite Hst; discriminate.
Qed.


Lemma helper_update_countdown now task_id subject end_time s :
  (StudyHelperGUI.update_countdown now task_id subject end_time s)
    .(StudyHelperGUI.helper) = s.(StudyHelperGUI.helper).
Proof.
  unfold StudyHelperGUI.update_countdown.
  destruct (_ || _); [reflexivity|].
  destruct (_ <? _); reflexivity.
Qed.

(** ** How the handlers change the tasks *)

Lemma complete_later now task :
  later task (snd (fst (Task.complete now task))).
Proof.
  unfold Task.complete.
  assert (Hfin : later task
            (if negb task.(Task.completed)
             then Task.set_completed true (Some (datetime.strftime now)) task
             else task)).
  { destruct (Task.completed task) eqn:Hc; simpl; auto using later_refl.
    unfold later; simpl; repeat split; auto; lia. }
  destruct (_ && _); [|exact Hfin].
  destruct (Task.start_time task); simpl; auto using later_refl.
  destruct (Task.time_not_reached _ _ _); simpl; auto using later_refl.
Qed.

Lemma record_close_attempt_later task :
  later task (snd (Task.record_close_attempt task)).
Proof. unfold later; simpl; repeat split; auto; lia. Qed.

Lemma start_study_mode_task_later now task_id h :
  Forall2 later h.(StudyHelper.tasks)
    (snd (StudyHelper.start_study_mode_task now task_id h)).(StudyHelper.tasks).
Proof.
  unfold StudyHelper.start_study_mode_task.
  destruct (index_where _ _) as [i|]; [|apply Forall2_later_refl].
  destruct (nth_error _ i) as [task|] eqn:Hn; [|apply Forall2_later_refl].
  simpl; apply later_set_nth with (task := task);
    auto using start_study_mode_later.
Qed.

Lemma complete_task_later now task_id h :
  Forall2 later h.(StudyHelper.tasks)
    (snd (fst (StudyHelper.complete_task now task_id h))).(StudyHelper.tasks).
Proof.
  unfold StudyHelper.complete_task.
  destruct (index_where _ _) as [i|]; [|apply Forall2_later_refl].
  destruct (nth_error _ i) as [task|] eqn:Hn; [|apply Forall2_later_refl].
  pose proof (complete_later now task) as Hl.
  destruct (Task.complete now task) as [[ok task'] shown]; simpl in Hl.
  destruct ok; simpl; apply later_set_nth with (task := task); auto.
Qed.

Lemma record_close_attempt_task_later task_id h :
  Forall2 later h.(StudyHelper.tasks)
    (snd (StudyHelper.record_close_attempt task_id h)).(StudyHelper.tasks).
Proof.
  unfold StudyHelper.record_close_attempt.
  destruct (index_where _ _) as [i|]; [|apply Forall2_later_refl].
  destruct (nth_error _ i) as [task|] eqn:Hn; [|apply Forall2_later_refl].
  simpl; apply later_set_nth with (task := task).
  - exact Hn.
  - exact (record_close_attempt_later task).
Qed.

Lemma delete_task_filter task_id h :
  (snd (StudyHelper.delete_task task_id h)).(StudyHelper.tasks)
  = filter (fun t => negb (StudyHelper.has_id task_id t)) h.(StudyHelper.tasks).
Proof.
  unfold StudyHelper.delete_task; simpl.
  destruct (_ <? _)%nat; reflexivity.
Qed.

Lemma helper_exit_fullscreen s :
  (StudyHelperGUI.exit_fullscreen s).(StudyHelperGUI.helper)
  = s.(StudyHelperGUI.helper).
Proof.
  unfold StudyHelperGUI.exit_fullscreen.
  destruct (StudyHelperGUI.dialog_open _); reflexivity.
Qed.

Lemma helper_enter_fullscreen s :
  (StudyHelperGUI.enter_fullscreen s).(StudyHelperGUI.helper)
  = s.(StudyHelperGUI.helper).
Proof.
  unfold StudyHelperGUI.enter_fullscreen, StudyHelperGUI.show_unlock_dialog.
  destruct (StudyHelperGUI.dialog_open _); reflexivity.
Qed.

Lemma helper_clear_session s :
  (StudyHelperGUI.clear_session s).(StudyHelperGUI.helper)
  = s.(StudyHelperGUI.helper).
Proof.
  unfold StudyHelperGUI.clear_session; simpl.
  destruct (StudyHelperGUI.is_fullscreen s); [|reflexivity].
  rewrite helper_exit_fullscreen; reflexivity.
Qed.

Lemma helper_check_password now s :
  (StudyHelperGUI.check_password now s).(StudyHelperGUI.helper)
  = s.(StudyHelperGUI.helper).
Proof.
  unfold StudyHelperGUI.check_password.
  destruct (_ =? _)%string; simpl; [apply helper_exit_fullscreen|].
  destruct (0 <? _); [reflexivity|].
  unfold StudyHelperGUI.configure_inputs; simpl.
  destruct (StudyHelperGUI.unlock_dialog s); reflexivity.
Qed.

Lemma helper_reset_unlock_dialog s :
  (StudyHelperGUI.reset_unlock_dialog s).(StudyHelperGUI.helper)
  = s.(StudyHelperGUI.helper).
Proof.
  unfold StudyHelperGUI.reset_unlock_dialog.
  destruct (StudyHelperGUI.dialog_open s); [|reflexivity].
  unfold StudyHelperGUI.configure_inputs; simpl.
  destruct (StudyHelperGUI.unlock_dialog s); reflexivity.
Qed.

Lemma start_countdown_later now i s :
  Forall2 later s.(StudyHelperGUI.helper).(StudyHelper.tasks)
    (StudyHelperGUI.start_countdown now i s)
      .(StudyHelperGUI.helper).(StudyHelper.tasks).
Proof.
  unfold StudyHelperGUI.start_countdown.
  destruct (nth_error _ i) as [task|] eqn:Hn; [|apply Forall2_later_refl].
  set (s1 := if negb (Task.started task) then _ else s).
  assert (H1 : Forall2 later
            s.(StudyHelperGUI.helper).(StudyHelper.tasks)
            s1.(StudyHelperGUI.helper).(StudyHelper.tasks)).
  { unfold s1; destruct (Task.started task) eqn:Hs; simpl;
      [apply Forall2_later_refl|].
    pose proof (start_study_mode_task_later now task.(Task.id)
                  s.(StudyHelperGUI.helper)) as Hh.
    set (h := snd (StudyHelper.start_study_mode_task now _ _)) in *.
    destruct (nth_error (StudyHelper.tasks h) i) as [task1|] eqn:Hn1;
      simpl; [|exact Hh].
    apply Forall2_later_trans with (l2 := StudyHelper.tasks h); [exact Hh|].
    apply later_set_nth with (task := task1); [exact Hn1|].
    (* the object at position i had no start time on entry *)
    assert (Hst1 : task1.(Task.start_time) = None
                   \/ task1.(Task.start_time) = Some now).
    { clear - Hn Hn1 Hs.
      unfold h, StudyHelper.start_study_mode_task in Hn1.
      destruct (index_where _ _) as [j|];
        [|simpl in Hn1; rewrite Hn in Hn1; injection Hn1 as <-;
          unfold Task.started in Hs;
          destruct (Task.start_time task); [discriminate|auto]].
      destruct (nth_error _ j) as [tj|] eqn:Hj;
        [|simpl in Hn1; rewrite Hn in Hn1; injection Hn1 as <-;
          unfold Task.started in Hs;
          destruct (Task.start_time task); [discriminate|auto]].
      simpl in Hn1.
      destruct (Nat.eq_dec i j) as [->|Hij].
      - rewrite (nth_error_set_nth _ j tj _ Hj) in Hn1.
        injection Hn1 as <-.
        rewrite Hn in Hj; injection Hj as <-.
        unfold Task.start_study_mode; rewrite Hs.
        destruct (Task.is_study_mode task); simpl; auto.
        unfold Task.started in Hs.
        destruct (Task.start_time task); [discriminate|auto].
      - assert (Hsame : forall (l : list Task.t) a b x,
                  a <> b -> nth_error (set_nth b x l) a = nth_error l a).
        { induction l as [|z rest IH]; intros [|a] [|b] x Hab; simpl; auto;
            congruence. }
        rewrite Hsame in Hn1 by assumption.
        rewrite Hn in Hn1; injection Hn1 as <-.
        unfold Task.started in Hs.
        destruct (Task.start_time task); [discriminate|auto]. }
    unfold later; simpl; repeat split; auto; try lia.
    intros st Hst; destruct Hst1 as [H|H]; rewrite H in Hst; congruence. }
  destruct (nth_error (StudyHelper.tasks (StudyHelperGUI.helper s1)) i)
    as [task'|]; [|exact H1].
  destruct (Task.start_time task'); [|exact H1].
  rewrite helper_update_countdown; exact H1.
Qed.

Lemma switch_mode_later now s :
  Forall2 later s.(StudyHelperGUI.helper).(StudyHelper.tasks)
    (StudyHelperGUI.switch_mode now s)
      .(StudyHelperGUI.helper).(StudyHelper.tasks).
Proof.
  unfold StudyHelperGUI.switch_mode.
  destruct (StudyHelperGUI.switch_refused now s);
    [apply Forall2_later_refl|].
  destruct (_ =? _)%string.
  - destruct (index_where _ _) as [i|]; [|apply Forall2_later_refl].
    destruct (nth_error _ i) as [task|]; [|apply Forall2_later_refl].
    simpl.
    exact (start_countdown_later now i
             (StudyHelperGUI.set_running_study_task_id
                (Some task.(Task.id)) s)).
  - simpl; destruct (StudyHelperGUI.is_fullscreen s);
      [rewrite helper_exit_fullscreen|]; apply Forall2_later_refl.
Qed.

Lemma handle_close_later answer s :
  Forall2 later s.(StudyHelperGUI.helper).(StudyHelper.tasks)
    (StudyHelperGUI.handle_close answer s)
      .(StudyHelperGUI.helper).(StudyHelper.tasks).
Proof.
  unfold StudyHelperGUI.handle_close.
  destruct (_ && _).
  - destruct (StudyHelperGUI.running_study_task_id s) as [r|];
      [|apply Forall2_later_refl].
    pose proof (record_close_attempt_task_later r s.(StudyHelperGUI.helper))
      as Hl.
    destruct (StudyHelper.record_close_attempt r _) as [attempts h].
    simpl in Hl.
    destruct (attempts <=? 1); [exact Hl|].
    destruct (3 <=? attempts); [|exact Hl].
    rewrite helper_enter_fullscreen; exact Hl.
  - destruct answer; apply Forall2_later_refl.
Qed.

Lemma evolve_later l l' : Forall2 later l l' -> tasks_evolve l l'.
Proof.
  intros H; left; exists l', []; split; [|exact H].
  rewrite app_nil_r; reflexivity.
Qed.

Lemma on_task_select_evolve now short_id column click_x x width answer s :
  tasks_evolve s.(StudyHelperGUI.helper).(StudyHelper.tasks)
    (StudyHelperGUI.on_task_select now short_id column click_x x width
       answer s).(StudyHelperGUI.helper).(StudyHelper.tasks).
Proof.
  pose proof (Forall2_later_refl
                s.(StudyHelperGUI.helper).(StudyHelper.tasks)) as Hrefl.
  unfold StudyHelperGUI.on_task_select.
  destruct (find _ _) as [found|]; [|apply evolve_later, Hrefl].
  destruct (_ =? EmptyString)%string; [apply evolve_later, Hrefl|].
  destruct (negb _); [apply evolve_later, Hrefl|].
  destruct (index_where _ _) as [i|]; [|apply evolve_later, Hrefl].
  destruct (nth_error _ i) as [task|]; [|apply evolve_later, Hrefl].
  destruct (Task.is_study_mode task).
  - destruct (3 * (click_x - x) <? width).
    + apply evolve_later; simpl.
      eapply Forall2_later_trans;
        [apply (start_study_mode_task_later now found.(Task.id))|].
      match goal with
      | |- context [StudyHelperGUI.start_countdown now i ?s1] =>
          exact (start_countdown_later now i s1)
      end.
    + destruct (3 * (click_x - x) <? 2 * width).
      * pose proof (complete_task_later now found.(Task.id)
                      s.(StudyHelperGUI.helper)) as Hl.
        destruct (StudyHelper.complete_task now _ _) as [[ok h] msgs].
        simpl in Hl; apply evolve_later.
        destruct ok; [rewrite helper_clear_session|]; exact Hl.
      * destruct answer; [|apply evolve_later, Hrefl].
        right; exists found.(Task.id); simpl.
        rewrite helper_clear_session; simpl.
        apply delete_task_filter.
  - destruct (2 * (click_x - x) <? width).
    + pose proof (complete_task_later now found.(Task.id)
                    s.(StudyHelperGUI.helper)) as Hl.
      destruct (StudyHelper.complete_task now _ _) as [[ok h] msgs].
      simpl in Hl; apply evolve_later.
      destruct ok; exact Hl.
    + destruct answer; [|apply evolve_later, Hrefl].
      right; exists found.(Task.id); simpl.
      apply delete_task_filter.
Qed.

Lemma save_task_evolve new_id now subject content deadline priority manual
    chosen date_ok s :
  tasks_evolve s.(StudyHelperGUI.helper).(StudyHelper.tasks)
    (StudyHelperGUI.save_task new_id now subject content deadline priority
       manual chosen date_ok s).(StudyHelperGUI.helper).(StudyHelper.tasks).
Proof.
  pose proof (Forall2_later_refl
                s.(StudyHelperGUI.helper).(StudyHelper.tasks)) as Hrefl.
  unfold StudyHelperGUI.save_task.
  destruct (_ || _); [apply evolve_later, Hrefl|].
  match goal with
  | |- context [match ?p with inl _ => _ | inr _ => _ end] => destruct p
  end; [apply evolve_later, Hrefl|].
  destruct date_ok; [|apply evolve_later, Hrefl].
  left; simpl; eexists _, [_]; split; [reflexivity|exact Hrefl].
Qed.

(** Every event of the application leaves each task in a later state, or
    deletes the tasks of one id and leaves the others as they were. *)
Lemma step_tasks_evolve now ev s :
  tasks_evolve s.(StudyHelperGUI.helper).(StudyHelper.tasks)
    (StudyHelperGUI.step now ev s).(StudyHelperGUI.helper).(StudyHelper.tasks).
Proof.
  pose proof (Forall2_later_refl
                s.(StudyHelperGUI.helper).(StudyHelper.tasks)) as Hrefl.
  unfold StudyHelperGUI.step.
  destruct (negb _); [apply evolve_later, Hrefl|].
  destruct ev.
  - apply evolve_later.
    exact (switch_mode_later now (StudyHelperGUI.set_current_mode mode s)).
  - apply evolve_later, handle_close_later.
  - apply on_task_select_evolve.
  - apply save_task_evolve.
  - destruct (StudyHelperGUI.inputs_usable s); apply evolve_later, Hrefl.
  - destruct (StudyHelperGUI.inputs_usable s);
      [rewrite helper_check_password|]; apply evolve_later, Hrefl.
  - destruct (StudyHelperGUI.dialog_open s);
      [rewrite helper_check_password|]; apply evolve_later, Hrefl.
  - destruct (StudyHelperGUI.unlock_dialog s); apply evolve_later, Hrefl.
  - destruct (nth_error _ k) as [[due cb]|]; [|apply evolve_later, Hrefl].
    destruct (due <=? now); [|apply evolve_later, Hrefl].
    destruct cb; simpl.
    + rewrite helper_reset_unlock_dialog; apply evolve_later, Hrefl.
    + rewrite helper_update_countdown; apply evolve_later, Hrefl.
Qed.

Lemma filter_all {A : Type} (p : A -> bool) l :
  (List.length l <= List.length (filter p l))%nat -> filter p l = l.
Proof.
  induction l as [|y rest IH]; simpl; auto.
  pose proof (filter_length_le p rest) as Hle.
  destruct (p y); simpl; intros H; [|lia].
  rewrite IH by lia; reflexivity.
Qed.

(** Along a run that deletes nothing, the tasks of the start are all
    still there, in the same order and each in a later state, followed by
    the tasks added since. *)
Lemma run_later evs s :
  never_deletes evs s ->
  exists l1 extra,
    (StudyHelperGUI.run evs s).(StudyHelperGUI.helper).(StudyHelper.tasks)
    = (l1 ++ extra)%list /\
    Forall2 later s.(StudyHelperGUI.helper).(StudyHelper.tasks) l1.
Proof.
  revert s; induction evs as [|[now ev] rest IH]; intros s; simpl.
  - intros _; exists s.(StudyHelperGUI.helper).(StudyHelper.tasks), [].
    rewrite app_nil_r; auto using Forall2_later_refl.
  - intros (Hlen & Hrest).
    destruct (IH _ Hrest) as (l2 & extra2 & Heq & Hl2).
    rewrite Heq.
    destruct (step_tasks_evolve now ev s)
      as [(l1 & extra1 & Hstep & Hl1)|(x & Hstep)].
    + rewrite Hstep in Hl2.
      apply Forall2_app_inv_l in Hl2.
      destruct Hl2 as (l2a & l2b & Ha & _ & ->).
      exists l2a, (l2b ++ extra2)%list; split;
        [rewrite app_assoc; reflexivity|].
      eapply Forall2_later_trans; eassumption.
    + rewrite Hstep in Hlen; apply filter_all in Hlen.
      rewrite Hlen in Hstep; rewrite Hstep in Hl2.
      exists l2, extra2; auto.
Qed.

(** ** C7: starting the timer *)



(** ** C8: the close-attempt counter *)

Lemma from_dict_to_dict_close_attempts task :
  (Task.from_dict (Task.to_dict task)).(Task.close_attempts)
  = task.(Task.close_attempts).
Proof. reflexivity. Qed.

(** C8: [record_close_attempt] adds exactly 1 to the counter of the task
    and returns the new count; the helper writes the task list to the
    file in the same call, and the count read back from the file is the
    same.  Under every event of the application each task is afterwards
    in a later state, in which its counter is not smaller, unless the
    event deletes the tasks of one id, and then the other tasks are as
    they were.  Along a run of events that deletes nothing, every task of
    the start is still there with a counter that is not smaller. *)
Theorem close_attempts_never_decrease :
  (forall task,
      Task.record_close_attempt task
      = (task.(Task.close_attempts) + 1,
         Task.set_close_attempts (task.(Task.close_attempts) + 1) task)) /\
  (forall task_id h i task,
      index_where (StudyHelper.has_id task_id) h.(StudyHelper.tasks) = Some i ->
      nth_error h.(StudyHelper.tasks) i = Some task ->
      let '(attempts, h') := StudyHelper.record_close_attempt task_id h in
      attempts = task.(Task.close_attempts) + 1 /\
      h'.(StudyHelper.tasks)
      = set_nth i (Task.set_close_attempts attempts task)
          h.(StudyHelper.tasks) /\
      h'.(StudyHelper.tasks_file) = map Task.to_dict h'.(StudyHelper.tasks) /\
      map Task.close_attempts
        (StudyHelper.init h'.(StudyHelper.tasks_file)).(StudyHelper.tasks)
      = map Task.close_attempts h'.(StudyHelper.tasks)) /\
  (forall now ev s,
      tasks_evolve s.(StudyHelperGUI.helper).(StudyHelper.tasks)
        (StudyHelperGUI.step now ev s)
          .(StudyHelperGUI.helper).(StudyHelper.tasks)) /\
  (forall evs s,
      never_deletes evs s ->
      exists l1 extra,
        (StudyHelperGUI.run evs s).(StudyHelperGUI.helper).(StudyHelper.tasks)
        = (l1 ++ extra)%list /\
        Forall2
          (fun t t' => t.(Task.close_attempts) <= t'.(Task.close_attempts))
          s.(StudyHelperGUI.helper).(StudyHelper.tasks) l1).
Proof.
  split; [reflexivity|]; split; [|split; [exact step_tasks_evolve|]].
  2:{ intros evs s Hnd.
      destruct (run_later evs s Hnd) as (l1 & extra & Heq & Hl).
      exists l1, extra; split; [exact Heq|].
      clear - Hl; induction Hl as [|t t' l l' Ht _ IH]; constructor; auto.
      apply Ht. }
  intros task_id h i task Hi Hn.
  rewrite (record_close_attempt_found task_id h i task Hi Hn).
  split; [reflexivity|]; split; [reflexivity|]; split; [reflexivity|].
  simpl; unfold StudyHelper._load_tasks; rewrite !map_map.
  apply map_ext; intros t; apply from_dict_to_dict_close_attempts.
Qed.

Lemma close_attempts_never_decrease_witness :
  fst (StudyHelper.record_close_attempt "task_20240101120000_123"
         (StudyHelper.mk [Sample.started_task] []))
  = Sample.started_task.(Task.close_attempts) + 1.
Proof.
  destruct close_attempts_never_decrease as (_ & Hrec & _ & _).
  specialize (Hrec "task_20240101120000_123"%string
                (StudyHelper.mk [Sample.started_task] []) 0%nat
                Sample.started_task eq_refl eq_refl).
  destruct (StudyHelper.record_close_attempt _ _) as [attempts h'].
  exact (proj1 Hrec).
Defined.

(** ** C9: deleting the active task while locked *)

Lemma find_first_with_same_id (p : Task.t -> bool) l found :
  find p l = Some found ->
  (forall t, StudyHelper.has_id found.(Task.id) t = true -> p t = true) ->
  exists i,
    index_where (StudyHelper.has_id found.(Task.id)) l = Some i /\
    nth_error l i = Some found.
Proof.
  intros Hf Hp; induction l as [|y rest IH]; simpl in *; [discriminate|].
  destruct (p y) eqn:Hy.
  - injection Hf as <-.
    unfold StudyHelper.has_id; rewrite String.eqb_refl.
    exists O; auto.
  - destruct (StudyHelper.has_id (Task.id found) y) eqn:Hid;
      [rewrite (Hp y Hid) in Hy; discriminate|].
    destruct (IH Hf) as (i & Hi & Hn).
    exists (S i); rewrite Hi; auto.
Qed.

Lemma filter_length_lt {A : Type} (p : A -> bool) l x :
  In x l -> p x = false -> (List.length (filter p l) < List.length l)%nat.
Proof.
  induction l as [|y rest IH]; simpl; [tauto|].
  pose proof (filter_length_le p rest) as Hle.
  intros [->|Hin] Hx.
  - rewrite Hx; lia.
  - specialize (IH Hin Hx); destruct (p y); simpl; lia.
Qed.

(** C9: a confirmed click on "delete" in the row of the active study-mode
    task, while the window is locked in full screen, clears the running
    task id, the status and the lock label, leaves full screen and
    always-on-top, closes the unlock dialog, and removes the task: the
    remaining tasks are the old ones without those of that id, unchanged,
    and the file, written in the same call, has no record of that id. *)
Theorem delete_active_task_resets_session :
  forall now short_id click_x x width s task,
    find (fun t => endswith t.(Task.id) short_id)
      s.(StudyHelperGUI.helper).(StudyHelper.tasks) = Some task ->
    s.(StudyHelperGUI.running_study_task_id) = Some task.(Task.id) ->
    task.(Task.id) <> EmptyString ->
    Task.is_study_mode task = true ->
    s.(StudyHelperGUI.is_fullscreen) = true ->
    0 <= width ->
    2 * width <= 3 * (click_x - x) ->
    let s' :=
      StudyHelperGUI.on_task_select now short_id 7 click_x x width true s in
    let l' := s'.(StudyHelperGUI.helper).(StudyHelper.tasks) in
    s'.(StudyHelperGUI.running_study_task_id) = None /\
    s'.(StudyHelperGUI.study_mode_status) = StudyHelperGUI.NoStatus /\
    s'.(StudyHelperGUI.lock_label) = StudyHelperGUI.NoLock /\
    s'.(StudyHelperGUI.is_fullscreen) = false /\
    s'.(StudyHelperGUI.root).(tk.fullscreen) = false /\
    s'.(StudyHelperGUI.root).(tk.topmost) = false /\
    StudyHelperGUI.dialog_open s' = false /\
    l' = filter (fun t => negb (StudyHelper.has_id task.(Task.id) t))
           s.(StudyHelperGUI.helper).(StudyHelper.tasks) /\
    (forall t, In t l' -> t.(Task.id) <> task.(Task.id)) /\
    s'.(StudyHelperGUI.helper).(StudyHelper.tasks_file)
    = map Task.to_dict l' /\
    (forall d, In d s'.(StudyHelperGUI.helper).(StudyHelper.tasks_file) ->
               d.(Task.d_id) <> task.(Task.id)).
Proof.
  intros now short_id click_x x width s task Hfind Hrun Hid Hmode Hfs Hw Hx
    s' l'.
  destruct (find_first_with_same_id _ _ _ Hfind) as (i & Hi & Hn).
  { intros t Ht; apply String.eqb_eq in Ht; rewrite Ht.
    apply (find_some _ _ Hfind). }
  assert (Hs' : s' =
    StudyHelperGUI.show messagebox.TaskDeleted
      (StudyHelperGUI.clear_session
         (StudyHelperGUI.set_helper
            (snd (StudyHelper.delete_task task.(Task.id)
                    s.(StudyHelperGUI.helper)))
            (StudyHelperGUI.show (messagebox.ConfirmDelete true) s)))).
  { unfold s', StudyHelperGUI.on_task_select.
    rewrite Hfind.
    destruct (String.eqb_spec (Task.id task) EmptyString); [contradiction|].
    simpl negb; cbv iota.
    rewrite Hi, Hn, Hmode.
    replace (3 * (click_x - x) <? width) with false
      by (symmetry; apply Z.ltb_ge; lia).
    replace (3 * (click_x - x) <? 2 * width) with false
      by (symmetry; apply Z.ltb_ge; lia).
    reflexivity. }
  assert (Hdel :
    snd (StudyHelper.delete_task task.(Task.id) s.(StudyHelperGUI.helper))
    = let l :=
        filter (fun t => negb (StudyHelper.has_id task.(Task.id) t))
          s.(StudyHelperGUI.helper).(StudyHelper.tasks) in
      StudyHelper.mk l (map Task.to_dict l)).
  { unfold StudyHelper.delete_task; simpl.
    replace (_ <? _)%nat with true; [reflexivity|].
    symmetry; apply Nat.ltb_lt.
    apply filter_length_lt with (x := task);
      [exact (nth_error_In _ _ Hn)|].
    unfold StudyHelper.has_id; rewrite String.eqb_refl; reflexivity. }
  assert (Hl' : l' =
    filter (fun t => negb (StudyHelper.has_id task.(Task.id) t))
      s.(StudyHelperGUI.helper).(StudyHelper.tasks)).
  { unfold l'; rewrite Hs'; simpl.
    rewrite helper_clear_session; simpl; rewrite Hdel; reflexivity. }
  assert (Hids : forall t, In t l' -> t.(Task.id) <> task.(Task.id)).
  { intros t Ht; rewrite Hl' in Ht; apply filter_In in Ht.
    destruct Ht as (_ & Ht); unfold StudyHelper.has_id in Ht.
    destruct (String.eqb_spec (Task.id t) (Task.id task));
      [discriminate|assumption]. }
  assert (Hfile : s'.(StudyHelperGUI.helper).(StudyHelper.tasks_file)
                  = map Task.to_dict l').
  { rewrite Hl'; rewrite Hs'; simpl.
    rewrite helper_clear_session; simpl; rewrite Hdel; reflexivity. }
  assert (Hui :
    s'.(StudyHelperGUI.running_study_task_id) = None /\
    s'.(StudyHelperGUI.study_mode_status) = StudyHelperGUI.NoStatus /\
    s'.(StudyHelperGUI.lock_label) = StudyHelperGUI.NoLock /\
    s'.(StudyHelperGUI.is_fullscreen) = false /\
    s'.(StudyHelperGUI.root).(tk.fullscreen) = false /\
    s'.(StudyHelperGUI.root).(tk.topmost) = false /\
    StudyHelperGUI.dialog_open s' = false).
  { rewrite Hs'; unfold StudyHelperGUI.clear_session; simpl.
    rewrite Hfs; unfold StudyHelperGUI.exit_fullscreen.
    destruct (StudyHelperGUI.dialog_open _) eqn:Hd; simpl;
      repeat split; auto. }
  destruct Hui as (H1 & H2 & H3 & H4 & H5 & H6 & H7).
  repeat (split; [assumption|]).
  intros d Hd; rewrite Hfile in Hd; apply in_map_iff in Hd.
  destruct Hd as (t & <- & Ht); simpl; apply Hids; assumption.
Qed.

Lemma delete_active_task_resets_session_witness :
  (StudyHelperGUI.on_task_select (Sample.second 20) "00_123" 7 290 0 300
     true Sample.locked_session).(StudyHelperGUI.helper).(StudyHelper.tasks)
  = [].
Proof.
  set (task := Task.set_close_attempts 3 Sample.started_task).
  assert (Hfind :
    find (fun t => endswith t.(Task.id) "00_123")
      Sample.locked_session.(StudyHelperGUI.helper).(StudyHelper.tasks)
    = Some task) by (vm_compute; reflexivity).
  assert (Hrun :
    Sample.locked_session.(StudyHelperGUI.running_study_task_id)
    = Some task.(Task.id)) by (vm_compute; reflexivity).
  assert (Hid : task.(Task.id) <> EmptyString) by (vm_compute; discriminate).
  assert (Hmode : Task.is_study_mode task = true)
    by (vm_compute; reflexivity).
  assert (Hfs : Sample.locked_session.(StudyHelperGUI.is_fullscreen) = true)
    by (vm_compute; reflexivity).
  assert (Hw : 0 <= 300) by lia.
  assert (Hx : 2 * 300 <= 3 * (290 - 0)) by lia.
  destruct (delete_active_task_resets_session (Sample.second 20) "00_123"
              290 0 300 Sample.locked_session task
              Hfind Hrun Hid Hmode Hfs Hw Hx)
    as (_ & _ & _ & _ & _ & _ & _ & Hl & _).
  rewrite Hl; vm_compute; reflexivity.
Defined.

(** ** C3: the unlock dialog after three wrong secrets *)

(** The third wrong secret in a row disables the inputs and schedules
    [reset_unlock_dialog] five seconds later; the lock is kept. *)
Lemma third_wrong_secret_locks_out now s :
  StudyHelperGUI.dialog_open s = true ->
  s.(StudyHelperGUI.password_var) <> s.(StudyHelperGUI.unlock_password) ->
  s.(StudyHelperGUI.wrong_attempts) = 2 ->
  let s' := StudyHelperGUI.check_password now s in
  s'.(StudyHelperGUI.wrong_attempts) = 3 /\
  s'.(StudyHelperGUI.error_label) = StudyHelperGUI.TooManyErrors /\
  StudyHelperGUI.inputs_usable s' = false /\
  StudyHelperGUI.dialog_open s' = true /\
  s'.(StudyHelperGUI.scheduled)
  = (s.(StudyHelperGUI.scheduled)
     ++ [(now + 5 * datetime.US_PER_SEC,
          StudyHelperGUI.reset_unlock_dialog_cb)])%list /\
  s'.(StudyHelperGUI.is_fullscreen) = s.(StudyHelperGUI.is_fullscreen).
Proof.
  intros Hd Hpw Hw; unfold StudyHelperGUI.check_password.
  destruct (String.eqb_spec (StudyHelperGUI.password_var s)
              (StudyHelperGUI.unlock_password s)); [contradiction|].
  simpl; rewrite Hw; simpl.
  unfold StudyHelperGUI.dialog_open in Hd.
  unfold StudyHelperGUI.configure_inputs, StudyHelperGUI.inputs_usable,
    StudyHelperGUI.dialog_open, StudyHelperGUI.after; simpl.
  destruct (StudyHelperGUI.unlock_dialog s) as [d|]; [|discriminate].
  simpl; rewrite Hd, andb_false_r; repeat split; reflexivity.
Qed.

(** A click on the disabled unlock button, or typing in the disabled
    entry, does nothing. *)
Lemma disabled_inputs_do_nothing now s :
  StudyHelperGUI.inputs_usable s = false ->
  StudyHelperGUI.step now StudyHelperGUI.UnlockButton s = s /\
  forall text, StudyHelperGUI.step now (StudyHelperGUI.TypePassword text) s = s.
Proof.
  intros Hu; unfold StudyHelperGUI.step; rewrite Hu.
  destruct (negb _); auto.
Qed.

(** When the cool-down is over, [reset_unlock_dialog] puts the failure
    counter back to 0 and enables the inputs; the lock is kept. *)
Lemma reset_unlock_dialog_reenables s :
  StudyHelperGUI.dialog_open s = true ->
  let s' := StudyHelperGUI.reset_unlock_dialog s in
  s'.(StudyHelperGUI.wrong_attempts) = 0 /\
  StudyHelperGUI.inputs_usable s' = true /\
  s'.(StudyHelperGUI.error_label) = StudyHelperGUI.NoError /\
  s'.(StudyHelperGUI.is_fullscreen) = s.(StudyHelperGUI.is_fullscreen).
Proof.
  intros Hd; unfold StudyHelperGUI.reset_unlock_dialog; rewrite Hd.
  unfold StudyHelperGUI.dialog_open in Hd.
  unfold StudyHelperGUI.configure_inputs, StudyHelperGUI.inputs_usable; simpl.
  destruct (StudyHelperGUI.unlock_dialog s) as [d|]; [|discriminate].
  simpl; rewrite Hd; repeat split; reflexivity.
Qed.

(** [<Return>] in the dialog runs [check_password] whatever the state of
    the inputs: with a wrong secret in the entry the failure counter goes
    up by one. *)
Lemma return_key_counts_a_failure now s :
  s.(StudyHelperGUI.root).(tk.winfo_exists) = true ->
  StudyHelperGUI.dialog_open s = true ->
  s.(StudyHelperGUI.password_var) <> s.(StudyHelperGUI.unlock_password) ->
  (StudyHelperGUI.step now StudyHelperGUI.ReturnKey s)
    .(StudyHelperGUI.wrong_attempts)
  = s.(StudyHelperGUI.wrong_attempts) + 1.
Proof.
  intros Hroot Hd Hpw; unfold StudyHelperGUI.step.
  rewrite Hroot, Hd; simpl.
  unfold StudyHelperGUI.check_password.
  destruct (String.eqb_spec (StudyHelperGUI.password_var s)
              (StudyHelperGUI.unlock_password s)); [contradiction|].
  simpl; destruct (0 <? _); simpl; [reflexivity|].
  unfold StudyHelperGUI.configure_inputs; simpl.
  destruct (StudyHelperGUI.unlock_dialog s); reflexivity.
Qed.

(** C3 at the failing input: in the locked sample session the secret
    "000000" is submitted three times.  The third submission locks the
    dialog out for five seconds and a click on the unlock button is then
    ignored; but [<Return>], pressed one second later, is handled by
    [check_password]: the failure counter goes from 3 to 4 and a second
    reset is scheduled. *)
Theorem return_key_during_cooldown_is_counted :
  let wrong t :=
    [(Sample.second t, StudyHelperGUI.TypePassword "000000");
     (Sample.second t, StudyHelperGUI.UnlockButton)] in
  let s3 :=
    StudyHelperGUI.run (wrong 20 ++ wrong 21 ++ wrong 22)%list
      Sample.locked_session in
  let s4 :=
    StudyHelperGUI.step (Sample.second 23) StudyHelperGUI.ReturnKey s3 in
  s3.(StudyHelperGUI.wrong_attempts) = 3 /\
  StudyHelperGUI.inputs_usable s3 = false /\
  s3.(StudyHelperGUI.scheduled)
  = (Sample.locked_session.(StudyHelperGUI.scheduled)
     ++ [(Sample.second 27, StudyHelperGUI.reset_unlock_dialog_cb)])%list /\
  StudyHelperGUI.step (Sample.second 23) StudyHelperGUI.UnlockButton s3 = s3 /\
  s4.(StudyHelperGUI.wrong_attempts) = 4 /\
  s4.(StudyHelperGUI.scheduled)
  = (s3.(StudyHelperGUI.scheduled)
     ++ [(Sample.second 28, StudyHelperGUI.reset_unlock_dialog_cb)])%list /\
  s4.(StudyHelperGUI.is_fullscreen) = true.
Proof. vm_compute; repeat split; reflexivity. Qed.

(** ** C5: the geometry captured before the lock *)

(** Entering full screen while already in full screen captures the
    geometry of the screen in place of the one captured first. *)
Lemma enter_fullscreen_twice s :
  (StudyHelperGUI.enter_fullscreen (StudyHelperGUI.enter_fullscreen s))
    .(StudyHelperGUI.original_geometry)
  = s.(StudyHelperGUI.root).(tk.screen).
Proof.
  rewrite enter_fullscreen_captures.
  unfold StudyHelperGUI.enter_fullscreen, StudyHelperGUI.show_unlock_dialog.
  destruct (StudyHelperGUI.dialog_open _); reflexivity.
Qed.

(** C5 at the failing input: the sample session is locked by its third
    close request, with the geometry "1400x750" captured.  A fourth close
    request captures the full-screen geometry over it, and unlocking with
    the correct secret then sets the window to the geometry of the
    screen, not to the one it had before the lock. *)
Theorem fourth_close_overwrites_geometry :
  let s4 :=
    StudyHelperGUI.step (Sample.second 13) (StudyHelperGUI.WindowClose true)
      Sample.locked_session in
  let s5 :=
    StudyHelperGUI.run
      [(Sample.second 20, StudyHelperGUI.TypePassword "123456");
       (Sample.second 21, StudyHelperGUI.UnlockButton)] s4 in
  Sample.session.(StudyHelperGUI.root).(tk.geometry) = "1400x750"%string /\
  Sample.locked_session.(StudyHelperGUI.original_geometry)
  = "1400x750"%string /\
  Sample.locked_session.(StudyHelperGUI.is_fullscreen) = true /\
  s4.(StudyHelperGUI.original_geometry) = "1920x1080+0+0"%string /\
  s5.(StudyHelperGUI.is_fullscreen) = false /\
  s5.(StudyHelperGUI.root).(tk.geometry) = "1920x1080+0+0"%string.
Proof. vm_compute; repeat split; reflexivity. Qed.

(** * Further properties of the code *)

(** ** Tasks written to the file and read back *)

Lemma strftime_whole_seconds st :
  datetime.strftime (whole_seconds st) = datetime.strftime st.
Proof.
  unfold whole_seconds, datetime.strftime, datetime.strptime.
  apply Z.div_mul; discriminate.
Qed.

Lemma whole_seconds_bounds st :
  whole_seconds st <= st < whole_seconds st + datetime.US_PER_SEC.
Proof.
  unfold whole_seconds, datetime.strftime, datetime.strptime,
    datetime.US_PER_SEC.
  pose proof (Z.div_mod st 1000000 ltac:(lia)) as Hdm.
  pose proof (Z.mod_pos_bound st 1000000 ltac:(lia)) as Hb.
  lia.
Qed.

(** X1: a task whose priority is within 1..5 (as [__init__] leaves it)
    comes back from [to_dict] and [from_dict] with every field as it was,
    except that its start time is cut to whole seconds, which moves it
    back by less than one second; writing the task again gives the same
    file entry. *)
Theorem task_survives_save_and_load :
  forall task,
    1 <= task.(Task.priority) <= 5 ->
    Task.from_dict (Task.to_dict task) = reloaded task /\
    Task.to_dict (reloaded task) = Task.to_dict task /\
    forall st,
      task.(Task.start_time) = Some st ->
      (reloaded task).(Task.start_time) = Some (whole_seconds st) /\
      whole_seconds st <= st < whole_seconds st + datetime.US_PER_SEC.
Proof.
  intros task Hp; split; [|split].
  - destruct task as [i su co de pr cm cr ca sm tl st cl]; simpl in *.
    unfold Task.from_dict, reloaded, Task.set_start_time, Task.get; simpl.
    replace (Z.max 1 (Z.min 5 pr)) with pr by lia.
    destruct st; reflexivity.
  - destruct task as [i su co de pr cm cr ca sm tl st cl]; simpl in *.
    unfold Task.to_dict, reloaded; simpl.
    destruct st as [st|]; simpl; [|reflexivity].
    rewrite strftime_whole_seconds; reflexivity.
  - intros st Hst; split; [|apply whole_seconds_bounds].
    unfold reloaded; simpl; rewrite Hst; reflexivity.
Qed.

Lemma task_survives_save_and_load_witness :
  Task.from_dict (Task.to_dict Sample.started_task)
  = reloaded Sample.started_task.
Proof.
  refine (proj1 (task_survives_save_and_load Sample.started_task _)).
  vm_compute; split; discriminate.
Defined.

(** The priority of a task made by [__init__] or read by [from_dict] is
    within 1..5. *)
Lemma priority_in_range_init new_id now subject content deadline priority
    study_mode time_limit :
  1 <= (Task.init new_id now subject content deadline priority study_mode
          time_limit).(Task.priority) <= 5.
Proof. simpl; lia. Qed.

Lemma priority_in_range_from_dict data :
  1 <= (Task.from_dict data).(Task.priority) <= 5.
Proof. simpl; lia. Qed.

(** ** When [complete_task] succeeds *)

(** X2: for the first task with the given id, its time limit being at
    most [MAX_TIME_LIMIT] minutes, [complete_task] succeeds
    if and only if the task is not a study-mode task, or its time limit
    is not positive, or it has been started and the time elapsed since is
    at least the limit.  A success shows nothing and leaves the file in
    step with the list; a refusal changes nothing and shows exactly one
    message: "not started" when the start time is missing, the remaining
    time otherwise. *)
Theorem complete_task_succeeds_iff :
  forall now task_id h i task,
    index_where (StudyHelper.has_id task_id) h.(StudyHelper.tasks) = Some i ->
    nth_error h.(StudyHelper.tasks) i = Some task ->
    task.(Task.time_limit) <= MAX_TIME_LIMIT ->
    let '(ok, h', msgs) := StudyHelper.complete_task now task_id h in
    (ok = true <->
     Task.is_study_mode task = false \/
     task.(Task.time_limit) <= 0 \/
     exists st,
       task.(Task.start_time) = Some st /\
       datetime.minutes task.(Task.time_limit) <= now - st) /\
    (ok = true -> msgs = [] /\ synced h') /\
    (ok = false ->
     h' = h /\
     (task.(Task.start_time) = None /\ msgs = [messagebox.NotStarted] \/
      exists st d,
        task.(Task.start_time) = Some st /\
        msgs = [messagebox.TimeNotReached task.(Task.time_limit) d])).
Proof.
  intros now task_id h i task Hi Hn Hmax.
  unfold StudyHelper.complete_task; rewrite Hi, Hn.
  unfold Task.complete.
  destruct (Task.is_study_mode task) eqn:Hmode; simpl.
  - destruct (0 <? Task.time_limit task) eqn:Hlim; simpl.
    + apply Z.ltb_lt in Hlim.
      destruct (Task.start_time task) as [st|] eqn:Hst.
      * unfold Task.time_not_reached, Task.used_time.
        destruct (now - st <? _) eqn:Hc;
          [apply Z.ltb_lt in Hc|apply Z.ltb_ge in Hc].
        -- rewrite (set_nth_same _ _ _ Hn).
           split; [split; [discriminate|]|split; [discriminate|]].
           ++ intros [H|[H|(st' & [= <-] & H)]]; [discriminate|lia|lia].
           ++ intros _; split; [destruct h; reflexivity|].
              right; eexists _, _; split; reflexivity.
        -- split; [split; auto|split; [|discriminate]].
           ++ intros _; right; right; exists st; auto.
           ++ intros _; split; reflexivity.
      * rewrite (set_nth_same _ _ _ Hn).
        split; [split; [discriminate|]|split; [discriminate|]].
        -- intros [H|[H|(st' & H & _)]]; [discriminate|lia|discriminate].
        -- intros _; split; [destruct h; reflexivity|]; left; auto.
    + apply Z.ltb_ge in Hlim.
      split; [split; auto|split; [|discriminate]].
      intros _; split; reflexivity.
  - split; [split; auto|split; [|discriminate]].
    intros _; split; reflexivity.
Qed.

Lemma complete_task_succeeds_iff_witness :
  fst (fst (StudyHelper.complete_task (Sample.second 5)
              "task_20240101120000_123"
              (StudyHelper.mk [Sample.task] []))) = false.
Proof.
  assert (Hmax : Sample.task.(Task.time_limit) <= MAX_TIME_LIMIT)
    by (vm_compute; discriminate).
  pose proof (complete_task_succeeds_iff (Sample.second 5)
                "task_20240101120000_123" (StudyHelper.mk [Sample.task] [])
                0%nat Sample.task eq_refl eq_refl Hmax) as H.
  destruct (StudyHelper.complete_task _ _ _) as [[ok h'] msgs].
  destruct H as (Hiff & _ & _); simpl.
  destruct ok; [|reflexivity].
  destruct (proj1 Hiff eq_refl) as [H|[H|(st & H & _)]].
  - vm_compute in H; discriminate.
  - vm_compute in H; exfalso; apply H; reflexivity.
  - vm_compute in H; discriminate.
Defined.

(** ** An id that no task has *)

Lemma index_where_absent {A : Type} (p : A -> bool) l :
  (forall x, In x l -> p x = false) -> index_where p l = None.
Proof.
  induction l as [|y rest IH]; simpl; auto.
  intros H; rewrite (H y (or_introl eq_refl)).
  rewrite IH; auto.
Qed.

Lemma filter_keeps_all {A : Type} (p : A -> bool) l :
  (forall x, In x l -> p x = true) -> filter p l = l.
Proof.
  induction l as [|y rest IH]; simpl; auto.
  intros H; rewrite (H y (or_introl eq_refl)).
  rewrite IH; auto.
Qed.

(** X3: with an id that no task of the list has, the four methods that
    look a task up change neither the list nor the file, show nothing,
    and answer [False] ([0] for [record_close_attempt]). *)
Theorem unknown_id_changes_nothing :
  forall now task_id h,
    (forall task, In task h.(StudyHelper.tasks) ->
                  task.(Task.id) <> task_id) ->
    StudyHelper.start_study_mode_task now task_id h = (false, h) /\
    StudyHelper.complete_task now task_id h = (false, h, []) /\
    StudyHelper.record_close_attempt task_id h = (0, h) /\
    StudyHelper.delete_task task_id h = (false, h).
Proof.
  intros now task_id h Hno.
  assert (Hid : forall task, In task h.(StudyHelper.tasks) ->
                             StudyHelper.has_id task_id task = false).
  { intros task Hin; unfold StudyHelper.has_id.
    destruct (String.eqb_spec (Task.id task) task_id); auto.
    exfalso; exact (Hno task Hin e). }
  split; [|split; [|split]].
  - unfold StudyHelper.start_study_mode_task.
    rewrite index_where_absent; [reflexivity|].
    intros task Hin; rewrite (Hid task Hin); reflexivity.
  - unfold StudyHelper.complete_task.
    rewrite (index_where_absent _ _ Hid); reflexivity.
  - unfold StudyHelper.record_close_attempt.
    rewrite (index_where_absent _ _ Hid); reflexivity.
  - unfold StudyHelper.delete_task; simpl.
    rewrite filter_keeps_all
      by (intros task Hin; rewrite (Hid task Hin); reflexivity).
    rewrite Nat.ltb_irrefl; destruct h; reflexivity.
Qed.

Lemma unknown_id_changes_nothing_witness :
  StudyHelper.delete_task "task_0"
    (StudyHelper.mk [Sample.task] [])
  = (false, StudyHelper.mk [Sample.task] []).
Proof.
  refine (proj2 (proj2 (proj2
    (unknown_id_changes_nothing 0 "task_0"
       (StudyHelper.mk [Sample.task] []) _)))).
  intros task [<-|[]]; vm_compute; discriminate.
Defined.

(** ** Deleting and adding tasks *)

Lemma filter_length_same_or_match {A : Type} (p : A -> bool) l :
  (List.length (filter p l) < List.length l)%nat ->
  exists x, In x l /\ p x = false.
Proof.
  induction l as [|y rest IH]; simpl; [lia|].
  destruct (p y) eqn:Hy; simpl; intros H.
  - destruct IH as (x & Hin & Hx); [lia|]; exists x; auto.
  - exists y; auto.
Qed.

Lemma has_id_true task_id task :
  StudyHelper.has_id task_id task = true <-> task.(Task.id) = task_id.
Proof. unfold StudyHelper.has_id; apply String.eqb_eq. Qed.

Lemma has_id_false task_id task :
  StudyHelper.has_id task_id task = false <-> task.(Task.id) <> task_id.
Proof. unfold StudyHelper.has_id; apply String.eqb_neq. Qed.

Lemma delete_task_result task_id h :
  let l' :=
    filter (fun t => negb (StudyHelper.has_id task_id t))
      h.(StudyHelper.tasks) in
  ((exists task, In task h.(StudyHelper.tasks) /\ task.(Task.id) = task_id) /\
   StudyHelper.delete_task task_id h
   = (true, StudyHelper.mk l' (map Task.to_dict l'))) \/
  ((forall task, In task h.(StudyHelper.tasks) -> task.(Task.id) <> task_id) /\
   StudyHelper.delete_task task_id h = (false, h)).
Proof.
  intros l'; unfold StudyHelper.delete_task; simpl; fold l'.
  destruct (List.length l' <? _)%nat eqn:Hlt.
  - left; split; [|reflexivity].
    apply Nat.ltb_lt in Hlt.
    destruct (filter_length_same_or_match _ _ Hlt) as (task & Hin & Hp).
    exists task; split; [exact Hin|].
    apply has_id_true; destruct (StudyHelper.has_id task_id task);
      [reflexivity|discriminate].
  - right; apply Nat.ltb_ge in Hlt.
    assert (Hall : l' = h.(StudyHelper.tasks)).
    { unfold l'; apply filter_all; exact Hlt. }
    split.
    + intros task Hin Hid.
      rewrite <- Hall in Hin; apply filter_In in Hin.
      destruct Hin as (_ & Hp).
      apply has_id_true in Hid; rewrite Hid in Hp; discriminate.
    + rewrite Hall; destruct h; reflexivity.
Qed.

(** X4: [delete_task] answers [True] exactly when some task has the id.
    It removes every task with that id, keeps the others as they are and
    in their order, and writes the file when it removed something; when
    it removed nothing, list and file are untouched.  Deleting the same
    id again answers [False] and changes nothing. *)
Theorem delete_task_removes_every_match :
  forall task_id h,
    let ok := fst (StudyHelper.delete_task task_id h) in
    let h' := snd (StudyHelper.delete_task task_id h) in
    (ok = true <->
     exists task, In task h.(StudyHelper.tasks) /\ task.(Task.id) = task_id) /\
    h'.(StudyHelper.tasks)
    = filter (fun t => negb (StudyHelper.has_id task_id t))
        h.(StudyHelper.tasks) /\
    (forall task,
        In task h'.(StudyHelper.tasks) <->
        In task h.(StudyHelper.tasks) /\ task.(Task.id) <> task_id) /\
    (ok = true -> synced h') /\
    (ok = false -> h' = h) /\
    StudyHelper.delete_task task_id h' = (false, h').
Proof.
  intros task_id h ok h'.
  assert (Htasks : h'.(StudyHelper.tasks)
                   = filter (fun t => negb (StudyHelper.has_id task_id t))
                       h.(StudyHelper.tasks))
    by apply delete_task_filter.
  assert (Hin : forall task,
            In task h'.(StudyHelper.tasks) <->
            In task h.(StudyHelper.tasks) /\ task.(Task.id) <> task_id).
  { intros task; rewrite Htasks, filter_In, negb_true_iff, has_id_false.
    reflexivity. }
  assert (Hagain : StudyHelper.delete_task task_id h' = (false, h')).
  { destruct (delete_task_result task_id h') as [((task & Ht & Hid) & _)|
                                                 (_ & Heq)]; [|exact Heq].
    apply Hin in Ht; destruct Ht as (_ & Hne); contradiction. }
  unfold ok, h' in *.
  destruct (delete_task_result task_id h) as [(Hex & Heq)|(Hno & Heq)];
    rewrite Heq in *; simpl in *.
  - split; [split; auto|].
    split; [reflexivity|]; split; [exact Hin|].
    split; [intros _; reflexivity|]; split; [discriminate|exact Hagain].
  - split; [split; [discriminate|]|].
    + intros (task & Ht & Hid); exfalso; exact (Hno task Ht Hid).
    + split; [exact Htasks|]; split; [exact Hin|].
      split; [discriminate|]; split; [reflexivity|exact Hagain].
Qed.



(** ** The file and the list *)

Lemma from_dict_to_dict task :
  1 <= task.(Task.priority) <= 5 ->
  Task.from_dict (Task.to_dict task) = reloaded task.
Proof.
  intros Hp; destruct task as [i su co de pr cm cr ca sm tl st cl].
  simpl in *.
  unfold Task.from_dict, reloaded, Task.set_start_time, Task.get; simpl.
  replace (Z.max 1 (Z.min 5 pr)) with pr by lia.
  destruct st; reflexivity.
Qed.

Lemma to_dict_reloaded task :
  Task.to_dict (reloaded task) = Task.to_dict task.
Proof.
  destruct task as [i su co de pr cm cr ca sm tl st cl].
  unfold Task.to_dict, reloaded; simpl.
  destruct st as [st|]; simpl; [|reflexivity].
  rewrite strftime_whole_seconds; reflexivity.
Qed.

Lemma reloaded_twice task : reloaded (reloaded task) = reloaded task.
Proof.
  destruct task as [i su co de pr cm cr ca sm tl st cl].
  unfold reloaded, Task.set_start_time; simpl.
  destruct st as [st|]; simpl; [|reflexivity].
  unfold whole_seconds at 1; rewrite strftime_whole_seconds; reflexivity.
Qed.

(** X6: every method of the task part of [StudyHelper] leaves the file
    [tasks.json] equal to the serialised task list if it was so
    before. *)
Theorem helper_keeps_file_in_step :
  forall h,
    synced h ->
    (forall new_id now subject content deadline priority study_mode
            time_limit,
        synced (snd (StudyHelper.add_task new_id now subject content deadline
                       priority study_mode time_limit h))) /\
    (forall now task_id,
        synced (snd (StudyHelper.start_study_mode_task now task_id h))) /\
    (forall now task_id,
        synced (snd (fst (StudyHelper.complete_task now task_id h)))) /\
    (forall task_id,
        synced (snd (StudyHelper.record_close_attempt task_id h))) /\
    (forall task_id, synced (snd (StudyHelper.delete_task task_id h))).
Proof.
  intros h Hs; split; [|split; [|split; [|split]]].
  - intros; reflexivity.
  - intros now task_id; unfold StudyHelper.start_study_mode_task.
    destruct (index_where _ _) as [i|]; [|exact Hs].
    destruct (nth_error _ i); [reflexivity|exact Hs].
  - intros now task_id; unfold StudyHelper.complete_task.
    destruct (index_where _ _) as [i|]; [|exact Hs].
    destruct (nth_error _ i) as [task|] eqn:Hn; [|exact Hs].
    destruct (Task.complete now task) as [[ok task'] msgs] eqn:Hc.
    destruct ok; [reflexivity|].
    assert (Hsame : task' = task).
    { unfold Task.complete in Hc.
      destruct (_ && _); [|discriminate].
      destruct (Task.start_time task); [|congruence].
      destruct (Task.time_not_reached _ _ _); congruence. }
    subst task'; simpl; rewrite (set_nth_same _ _ _ Hn).
    destruct h; exact Hs.
  - intros task_id; unfold StudyHelper.record_close_attempt.
    destruct (index_where _ _) as [i|]; [|exact Hs].
    destruct (nth_error _ i); [reflexivity|exact Hs].
  - intros task_id.
    destruct (delete_task_result task_id h) as [(_ & ->)|(_ & ->)];
      [reflexivity|exact Hs].
Qed.

Lemma helper_keeps_file_in_step_witness :
  synced (snd (StudyHelper.record_close_attempt "task_20240101120000_123"
                 (StudyHelper.init [Task.to_dict Sample.task]))).
Proof.
  refine (proj1 (proj2 (proj2 (proj2
    (helper_keeps_file_in_step
       (StudyHelper.init [Task.to_dict Sample.task]) _)))) _).
  vm_compute; reflexivity.
Defined.

(** X7: when the file is in step with the list and every priority is
    within 1..5, starting the application again on that file gives the
    same tasks in the same order, with start times cut to whole seconds
    and every other field (completed flag, close attempts, time limit)
    as it was; the new helper is in step with the file, and one more
    restart changes nothing. *)
Theorem restart_gives_back_the_tasks :
  forall h,
    synced h ->
    Forall (fun task => 1 <= task.(Task.priority) <= 5)
      h.(StudyHelper.tasks) ->
    let h' := StudyHelper.init h.(StudyHelper.tasks_file) in
    h'.(StudyHelper.tasks) = map reloaded h.(StudyHelper.tasks) /\
    synced h' /\
    StudyHelper.init h'.(StudyHelper.tasks_file) = h'.
Proof.
  intros h Hs Hp h'.
  assert (Htasks : h'.(StudyHelper.tasks) = map reloaded h.(StudyHelper.tasks)).
  { unfold h'; simpl; unfold StudyHelper._load_tasks; rewrite Hs, map_map.
    clear Hs h'; induction Hp as [|task l Ht _ IH]; simpl; [reflexivity|].
    rewrite from_dict_to_dict by exact Ht; rewrite IH; reflexivity. }
  assert (Hsync : synced h').
  { unfold synced; rewrite Htasks, map_map; unfold h'; simpl; rewrite Hs.
    apply map_ext; intros task; rewrite to_dict_reloaded; reflexivity. }
  split; [exact Htasks|]; split; [exact Hsync|].
  unfold h' at 1; simpl.
  change (StudyHelper.init (StudyHelper.tasks_file h) = h').
  reflexivity.
Qed.

Lemma restart_gives_back_the_tasks_witness :
  (StudyHelper.init
     (StudyHelper.tasks_file
        Sample.locked_session.(StudyHelperGUI.helper))).(StudyHelper.tasks)
  = map reloaded
      Sample.locked_session.(StudyHelperGUI.helper).(StudyHelper.tasks).
Proof.
  refine (proj1 (restart_gives_back_the_tasks
                   Sample.locked_session.(StudyHelperGUI.helper) _ _)).
  - vm_compute; reflexivity.
  - vm_compute; repeat constructor; discriminate.
Defined.

(** ** The countdown *)

(** X8: while the task is the running one in study mode and its end time
    lies ahead, [update_countdown] shows minutes and seconds with the
    seconds within 0..59 and the minutes within 0..1439, and schedules
    exactly one next tick one second later; the two numbers are the
    whole seconds left when less than a day is left (whole days are not
    shown).  Once the end time is reached it shows that the time is up
    and schedules nothing.  In both cases only the status text and the
    pending callbacks change. *)
Theorem countdown_display :
  forall now task_id subject end_time s,
    s.(StudyHelperGUI.current_mode) = "study_mode"%string ->
    s.(StudyHelperGUI.running_study_task_id) = Some task_id ->
    let s' := StudyHelperGUI.update_countdown now task_id subject end_time s in
    (now < end_time ->
     exists m sec,
       s'.(StudyHelperGUI.study_mode_status)
       = StudyHelperGUI.Remaining subject m sec /\
       0 <= sec < 60 /\ 0 <= m < 1440 /\
       (end_time - now < 86400 * datetime.US_PER_SEC ->
        60 * m + sec = (end_time - now) / datetime.US_PER_SEC) /\
       s'.(StudyHelperGUI.scheduled)
       = (s.(StudyHelperGUI.scheduled)
          ++ [(now + datetime.US_PER_SEC,
               StudyHelperGUI.update_countdown_cb task_id subject end_time)])
         %list) /\
    (end_time <= now ->
     s'.(StudyHelperGUI.study_mode_status) = StudyHelperGUI.Reached subject /\
     s'.(StudyHelperGUI.scheduled) = s.(StudyHelperGUI.scheduled)) /\
    s'.(StudyHelperGUI.helper) = s.(StudyHelperGUI.helper) /\
    s'.(StudyHelperGUI.running_study_task_id) = Some task_id /\
    s'.(StudyHelperGUI.is_fullscreen) = s.(StudyHelperGUI.is_fullscreen) /\
    s'.(StudyHelperGUI.lock_label) = s.(StudyHelperGUI.lock_label).
Proof.
  intros now task_id subject end_time s Hmode Hrun s'.
  unfold s', StudyHelperGUI.update_countdown, StudyHelperGUI.running_is.
  rewrite Hmode, Hrun, !String.eqb_refl.
  cbn -[Z.mul Z.div Z.modulo Z.add Z.ltb].
  destruct (now <? end_time) eqn:Hlt;
    [apply Z.ltb_lt in Hlt|apply Z.ltb_ge in Hlt];
    cbn -[Z.mul Z.div Z.modulo Z.add].
  - split; [|split; [lia|auto]].
    intros _.
    set (secs := ((end_time - now) / datetime.US_PER_SEC) mod 86400).
    assert (Hsecs : 0 <= secs < 86400)
      by (apply Z.mod_pos_bound; lia).
    exists (secs / 60), (secs mod 60).
    split; [reflexivity|].
    split; [apply Z.mod_pos_bound; lia|].
    split.
    { split; [apply Z.div_pos; lia|].
      apply Z.div_lt_upper_bound; lia. }
    split; [|reflexivity].
    intros Hday.
    assert (Hsmall : 0 <= (end_time - now) / datetime.US_PER_SEC < 86400).
    { unfold datetime.US_PER_SEC in *; split.
      - apply Z.div_pos; lia.
      - apply Z.div_lt_upper_bound; lia. }
    unfold secs; rewrite (Z.mod_small _ _ Hsmall).
    symmetry; apply Z.div_mod; discriminate.
  - split; [lia|]; split; auto.
Qed.

Lemma countdown_display_witness :
  (StudyHelperGUI.update_countdown (Sample.second 1800)
     "task_20240101120000_123" "math" (Sample.second 1800) Sample.session)
    .(StudyHelperGUI.study_mode_status)
  = StudyHelperGUI.Reached "math".
Proof.
  refine (proj1 (proj1 (proj2
    (countdown_display (Sample.second 1800) "task_20240101120000_123" "math"
       (Sample.second 1800) Sample.session _ _)) _)).
  - vm_compute; reflexivity.
  - vm_compute; reflexivity.
  - vm_compute; discriminate.
Defined.

Lemma Forall2_nth_error {A : Type} (R : A -> A -> Prop) l l' i x :
  Forall2 R l l' -> nth_error l i = Some x ->
  exists y, nth_error l' i = Some y /\ R x y.
Proof.
  intros H; revert i; induction H as [|a b l l' Hab _ IH]; intros [|i];
    simpl; try discriminate.
  - intros [= ->]; exists b; auto.
  - apply IH.
Qed.

(** What [update_countdown] leaves alone. *)
Lemma update_countdown_frame now task_id subject end_time s :
  let s' := StudyHelperGUI.update_countdown now task_id subject end_time s in
  s'.(StudyHelperGUI.helper) = s.(StudyHelperGUI.helper) /\
  s'.(StudyHelperGUI.running_study_task_id)
  = s.(StudyHelperGUI.running_study_task_id) /\
  s'.(StudyHelperGUI.current_mode) = s.(StudyHelperGUI.current_mode) /\
  s'.(StudyHelperGUI.lock_label) = s.(StudyHelperGUI.lock_label) /\
  s'.(StudyHelperGUI.is_fullscreen) = s.(StudyHelperGUI.is_fullscreen) /\
  s'.(StudyHelperGUI.root) = s.(StudyHelperGUI.root) /\
  s'.(StudyHelperGUI.unlock_dialog) = s.(StudyHelperGUI.unlock_dialog) /\
  s'.(StudyHelperGUI.shown) = s.(StudyHelperGUI.shown).
Proof.
  unfold StudyHelperGUI.update_countdown.
  destruct (_ || _); [repeat split|].
  destruct (_ <? _); repeat split.
Qed.

(** What [start_countdown] does to the task it is given and what it
    leaves alone. *)
Lemma start_countdown_effect now i s task :
  nth_error s.(StudyHelperGUI.helper).(StudyHelper.tasks) i = Some task ->
  let s' := StudyHelperGUI.start_countdown now i s in
  (exists task',
     nth_error s'.(StudyHelperGUI.helper).(StudyHelper.tasks) i = Some task' /\
     task'.(Task.id) = task.(Task.id) /\
     task'.(Task.start_time)
     = Some (match task.(Task.start_time) with
             | Some st => st
             | None => now
             end)) /\
  s'.(StudyHelperGUI.running_study_task_id)
  = s.(StudyHelperGUI.running_study_task_id) /\
  s'.(StudyHelperGUI.current_mode) = s.(StudyHelperGUI.current_mode) /\
  s'.(StudyHelperGUI.lock_label) = s.(StudyHelperGUI.lock_label) /\
  s'.(StudyHelperGUI.is_fullscreen) = s.(StudyHelperGUI.is_fullscreen) /\
  s'.(StudyHelperGUI.root) = s.(StudyHelperGUI.root) /\
  s'.(StudyHelperGUI.unlock_dialog) = s.(StudyHelperGUI.unlock_dialog) /\
  s'.(StudyHelperGUI.shown) = s.(StudyHelperGUI.shown).
Proof.
  intros Hn s'; unfold s', StudyHelperGUI.start_countdown; rewrite Hn.
  unfold Task.started.
  destruct (Task.start_time task) as [st|] eqn:Hst; simpl.
  - rewrite Hn, Hst.
    destruct (update_countdown_frame now task.(Task.id) task.(Task.subject)
                (st + datetime.minutes task.(Task.time_limit)) s)
      as (Hh & Hrest).
    split; [|exact Hrest].
    rewrite Hh; exists task; rewrite Hn, Hst; auto.
  - pose proof (start_study_mode_task_later now task.(Task.id)
                  s.(StudyHelperGUI.helper)) as Hl.
    set (h := snd (StudyHelper.start_study_mode_task now _ _)) in *.
    destruct (Forall2_nth_error _ _ _ i task Hl Hn) as (task1 & Hn1 & Hl1).
    rewrite Hn1; simpl.
    rewrite (nth_error_set_nth _ i task1 _ Hn1); simpl.
    match goal with
    | |- context [StudyHelperGUI.update_countdown ?a ?b ?c ?d ?e] =>
        destruct (update_countdown_frame a b c d e) as (Hh & Hrest)
    end.
    split; [|exact Hrest].
    rewrite Hh; simpl.
    eexists; split;
      [apply nth_error_set_nth with (x := task1); exact Hn1|].
    simpl; split; [apply Hl1|reflexivity].
Qed.

(** X9: for a started study-mode task that is the running one, with a
    positive limit of at most [MAX_TIME_LIMIT] minutes and an end time
    (the start time plus the limit) that is a [datetime], the countdown
    started by [start_countdown] shows "time reached" exactly when
    [complete] accepts the task at that moment: the display and the guard
    use the same instant, the end time. *)
Theorem countdown_agrees_with_complete :
  forall now i s task st,
    nth_error s.(StudyHelperGUI.helper).(StudyHelper.tasks) i = Some task ->
    task.(Task.start_time) = Some st ->
    Task.is_study_mode task = true ->
    0 < task.(Task.time_limit) <= MAX_TIME_LIMIT ->
    is_datetime st ->
    is_datetime (st + datetime.minutes task.(Task.time_limit)) ->
    s.(StudyHelperGUI.current_mode) = "study_mode"%string ->
    s.(StudyHelperGUI.running_study_task_id) = Some task.(Task.id) ->
    (StudyHelperGUI.start_countdown now i s).(StudyHelperGUI.study_mode_status)
    = StudyHelperGUI.Reached task.(Task.subject)
    <-> fst (fst (Task.complete now task)) = true.
Proof.
  intros now i s task st Hn Hst Hmode (Hlim & Hmax) Hdst Hdend Hcur Hrun.
  unfold StudyHelperGUI.start_countdown; rewrite Hn.
  unfold Task.started; rewrite Hst; simpl; rewrite Hn, Hst.
  unfold StudyHelperGUI.update_countdown, StudyHelperGUI.running_is.
  rewrite Hcur, Hrun, !String.eqb_refl; simpl.
  destruct (complete_started now task st Hmode Hlim Hst) as [Hlt Hge].
  destruct (Z.lt_ge_cases (now - st)
              (datetime.minutes task.(Task.time_limit))) as [Hc|Hc].
  - rewrite (Hlt Hc); simpl.
    replace (now <? st + _) with true by (symmetry; apply Z.ltb_lt; lia).
    simpl; split; discriminate.
  - destruct (Hge Hc) as (task' & -> & _); simpl.
    replace (now <? st + _) with false by (symmetry; apply Z.ltb_ge; lia).
    simpl; split; reflexivity.
Qed.

Lemma countdown_agrees_with_complete_witness :
  (StudyHelperGUI.start_countdown (Sample.second 1800) 0 Sample.session)
    .(StudyHelperGUI.study_mode_status)
  = StudyHelperGUI.Reached Sample.started_task.(Task.subject)
  <-> fst (fst (Task.complete (Sample.second 1800) Sample.started_task))
      = true.
Proof.
  refine (countdown_agrees_with_complete (Sample.second 1800) 0%nat
            Sample.session Sample.started_task 0 _ _ _ _ _ _ _ _).
  - vm_compute; reflexivity.
  - vm_compute; reflexivity.
  - vm_compute; reflexivity.
  - vm_compute; split; [reflexivity|discriminate].
  - vm_compute; split; discriminate.
  - vm_compute; split; discriminate.
  - vm_compute; reflexivity.
  - vm_compute; reflexivity.
Defined.

(** ** Entering study mode *)

(** X10: when the selector is put on study mode, [switch_mode] takes the
    first task that is not completed and is a study-mode task and makes
    it the running task.  Provided the end time of that task (the start
    time it had, or the present time when it had none, plus its limit) is
    a [datetime], it shows the lock label and starts the timer: the task
    keeps a start time it had and gets the present time otherwise.  When
    there is no such task it shows a hint and clears the lock label, and
    the running task id stays what it was. *)
Theorem switch_to_study_mode_starts_first_pending :
  forall now s,
    s.(StudyHelperGUI.current_mode) = "study_mode"%string ->
    let s' := StudyHelperGUI.switch_mode now s in
    let pending :=
      index_where
        (fun task => negb task.(Task.completed) && Task.is_study_mode task)
        s.(StudyHelperGUI.helper).(StudyHelper.tasks) in
    (forall i task,
        pending = Some i ->
        nth_error s.(StudyHelperGUI.helper).(StudyHelper.tasks) i
        = Some task ->
        let start :=
          match task.(Task.start_time) with
          | Some st => st
          | None => now
          end in
        is_datetime start ->
        is_datetime (start + datetime.minutes task.(Task.time_limit)) ->
        exists task',
          nth_error s'.(StudyHelperGUI.helper).(StudyHelper.tasks) i
          = Some task' /\
          task'.(Task.id) = task.(Task.id) /\
          task'.(Task.start_time) = Some start /\
          s'.(StudyHelperGUI.running_study_task_id) = Some task.(Task.id) /\
          s'.(StudyHelperGUI.lock_label) = StudyHelperGUI.LockRunning /\
          s'.(StudyHelperGUI.current_mode) = "study_mode"%string /\
          s'.(StudyHelperGUI.is_fullscreen)
          = s.(StudyHelperGUI.is_fullscreen)) /\
    (pending = None ->
     s' = StudyHelperGUI.set_lock_label StudyHelperGUI.NoLock
            (StudyHelperGUI.show messagebox.StudyModeHint s)).
Proof.
  intros now s Hmode s' pending.
  unfold s', pending, StudyHelperGUI.switch_mode,
    StudyHelperGUI.switch_refused.
  rewrite Hmode; simpl.
  split.
  - intros i task Hi Hn Hdst Hdend.
    rewrite Hi, Hn.
    destruct (start_countdown_effect now i
                (StudyHelperGUI.set_running_study_task_id
                   (Some task.(Task.id)) s) task Hn)
      as ((task' & Hn' & Hid & Hst) & Hrun & Hcur & _ & Hfs & _).
    exists task'.
    split; [exact Hn'|].
    split; [exact Hid|].
    split; [exact Hst|].
    simpl; split; [exact Hrun|]; split; [reflexivity|].
    split; [rewrite Hcur; exact Hmode|exact Hfs].
  - intros Hi; rewrite Hi; reflexivity.
Qed.

Lemma switch_to_study_mode_starts_first_pending_witness :
  let s :=
    StudyHelperGUI.set_current_mode "study_mode"
      (StudyHelperGUI.init "1920x1080+0+0" [Task.to_dict Sample.task]) in
  let s' := StudyHelperGUI.switch_mode (Sample.second 7) s in
  exists task',
    nth_error s'.(StudyHelperGUI.helper).(StudyHelper.tasks) 0
    = Some task' /\
    task'.(Task.start_time) = Some (Sample.second 7) /\
    s'.(StudyHelperGUI.running_study_task_id)
    = Some "task_20240101120000_123"%string /\
    s'.(StudyHelperGUI.lock_label) = StudyHelperGUI.LockRunning.
Proof.
  intros s s'.
  destruct (switch_to_study_mode_starts_first_pending (Sample.second 7) s
              eq_refl) as [Hsome _].
  assert (Hi :
    index_where
      (fun task => negb task.(Task.completed) && Task.is_study_mode task)
      s.(StudyHelperGUI.helper).(StudyHelper.tasks) = Some 0%nat)
    by (vm_compute; reflexivity).
  assert (Hn :
    nth_error s.(StudyHelperGUI.helper).(StudyHelper.tasks) 0
    = Some Sample.task) by (vm_compute; reflexivity).
  assert (Hdst : is_datetime (Sample.second 7))
    by (vm_compute; split; discriminate).
  assert (Hdend :
    is_datetime (Sample.second 7
                 + datetime.minutes Sample.task.(Task.time_limit)))
    by (vm_compute; split; discriminate).
  destruct (Hsome 0%nat Sample.task Hi Hn Hdst Hdend)
    as (task' & Hn' & _ & Hst & Hrun & Hlock & _).
  exists task'; split; [exact Hn'|].
  split; [exact Hst|].
  split; [exact Hrun|exact Hlock].
Defined.

(** ** Clicks in the task list *)

(** The row that shows [short_id] stands for the first task whose id
    ends with it; that task is also the first one with its own id. *)
Lemma short_id_resolves short_id l task :
  find (fun t => endswith t.(Task.id) short_id) l = Some task ->
  exists i,
    index_where (StudyHelper.has_id task.(Task.id)) l = Some i /\
    nth_error l i = Some task.
Proof.
  intros Hfind; apply find_first_with_same_id with (1 := Hfind).
  intros t Ht; apply String.eqb_eq in Ht; rewrite Ht.
  apply (find_some _ _ Hfind).
Qed.

(** The branches of [on_task_select] for a click in the action column. *)
Lemma on_task_select_study_start now short_id click_x x width answer s task i :
  find (fun t => endswith t.(Task.id) short_id)
    s.(StudyHelperGUI.helper).(StudyHelper.tasks) = Some task ->
  index_where (StudyHelper.has_id task.(Task.id))
    s.(StudyHelperGUI.helper).(StudyHelper.tasks) = Some i ->
  nth_error s.(StudyHelperGUI.helper).(StudyHelper.tasks) i = Some task ->
  task.(Task.id) <> EmptyString ->
  Task.is_study_mode task = true ->
  3 * (click_x - x) < width ->
  StudyHelperGUI.on_task_select now short_id 7 click_x x width answer s
  = StudyHelperGUI.show messagebox.TaskStarted
      (StudyHelperGUI.set_lock_label StudyHelperGUI.LockRunning
         (StudyHelperGUI.start_countdown now i
            (StudyHelperGUI.set_running_study_task_id (Some task.(Task.id))
               (StudyHelperGUI.set_helper
                  (snd (StudyHelper.start_study_mode_task now task.(Task.id)
                          s.(StudyHelperGUI.helper))) s)))).
Proof.
  intros Hfind Hi Hn Hid Hmode Hx.
  unfold StudyHelperGUI.on_task_select; rewrite Hfind.
  destruct (String.eqb_spec (Task.id task) EmptyString); [contradiction|].
  simpl negb; cbv iota; rewrite Hi, Hn, Hmode.
  replace (3 * (click_x - x) <? width) with true
    by (symmetry; apply Z.ltb_lt; lia).
  reflexivity.
Qed.

Lemma on_task_select_study_complete now short_id click_x x width answer s
    task i :
  find (fun t => endswith t.(Task.id) short_id)
    s.(StudyHelperGUI.helper).(StudyHelper.tasks) = Some task ->
  index_where (StudyHelper.has_id task.(Task.id))
    s.(StudyHelperGUI.helper).(StudyHelper.tasks) = Some i ->
  nth_error s.(StudyHelperGUI.helper).(StudyHelper.tasks) i = Some task ->
  task.(Task.id) <> EmptyString ->
  Task.is_study_mode task = true ->
  width <= 3 * (click_x - x) < 2 * width ->
  StudyHelperGUI.on_task_select now short_id 7 click_x x width answer s
  = let '(ok, h, msgs) :=
      StudyHelper.complete_task now task.(Task.id) s.(StudyHelperGUI.helper) in
    let s1 :=
      StudyHelperGUI.set_shown (s.(StudyHelperGUI.shown) ++ msgs)%list
        (StudyHelperGUI.set_helper h s) in
    if ok
    then StudyHelperGUI.clear_session
           (StudyHelperGUI.show messagebox.TaskCompleted s1)
    else s1.
Proof.
  intros Hfind Hi Hn Hid Hmode Hx.
  unfold StudyHelperGUI.on_task_select; rewrite Hfind.
  destruct (String.eqb_spec (Task.id task) EmptyString); [contradiction|].
  simpl negb; cbv iota; rewrite Hi, Hn, Hmode.
  replace (3 * (click_x - x) <? width) with false
    by (symmetry; apply Z.ltb_ge; lia).
  replace (3 * (click_x - x) <? 2 * width) with true
    by (symmetry; apply Z.ltb_lt; lia).
  reflexivity.
Qed.

Lemma on_task_select_delete now short_id click_x x width s task :
  find (fun t => endswith t.(Task.id) short_id)
    s.(StudyHelperGUI.helper).(StudyHelper.tasks) = Some task ->
  task.(Task.id) <> EmptyString ->
  (if Task.is_study_mode task
   then 0 <= width /\ 2 * width <= 3 * (click_x - x)
   else width <= 2 * (click_x - x)) ->
  let s1 :=
    StudyHelperGUI.set_helper
      (snd (StudyHelper.delete_task task.(Task.id) s.(StudyHelperGUI.helper)))
      (StudyHelperGUI.show (messagebox.ConfirmDelete true) s) in
  StudyHelperGUI.on_task_select now short_id 7 click_x x width true s
  = StudyHelperGUI.show messagebox.TaskDeleted
      (if Task.is_study_mode task
       then StudyHelperGUI.clear_session s1 else s1).
Proof.
  intros Hfind Hid Hx s1.
  destruct (short_id_resolves _ _ _ Hfind) as (i & Hi & Hn).
  unfold StudyHelperGUI.on_task_select; rewrite Hfind.
  destruct (String.eqb_spec (Task.id task) EmptyString); [contradiction|].
  simpl negb; cbv iota; rewrite Hi, Hn.
  destruct (Task.is_study_mode task).
  - replace (3 * (click_x - x) <? width) with false
      by (symmetry; apply Z.ltb_ge; lia).
    replace (3 * (click_x - x) <? 2 * width) with false
      by (symmetry; apply Z.ltb_ge; lia).
    reflexivity.
  - replace (2 * (click_x - x) <? width) with false
      by (symmetry; apply Z.ltb_ge; lia).
    reflexivity.
Qed.

(** X11: the close guard needs study mode to be selected.  A study-mode
    task started from the list while the selector is on normal, its end
    time being a [datetime], becomes the running task and the lock label
    is shown, but a close request that is then confirmed destroys the
    window and records no close attempt. *)
Theorem start_in_normal_mode_does_not_hold_the_window :
  forall now short_id click_x x width answer s task,
    find (fun t => endswith t.(Task.id) short_id)
      s.(StudyHelperGUI.helper).(StudyHelper.tasks) = Some task ->
    task.(Task.id) <> EmptyString ->
    Task.is_study_mode task = true ->
    3 * (click_x - x) < width ->
    s.(StudyHelperGUI.current_mode) = "normal"%string ->
    let start :=
      match task.(Task.start_time) with
      | Some st => st
      | None => now
      end in
    is_datetime start ->
    is_datetime (start + datetime.minutes task.(Task.time_limit)) ->
    let s1 :=
      StudyHelperGUI.on_task_select now short_id 7 click_x x width answer s in
    let s2 := StudyHelperGUI.handle_close true s1 in
    s1.(StudyHelperGUI.running_study_task_id) = Some task.(Task.id) /\
    s1.(StudyHelperGUI.lock_label) = StudyHelperGUI.LockRunning /\
    s1.(StudyHelperGUI.current_mode) = "normal"%string /\
    s2.(StudyHelperGUI.helper) = s1.(StudyHelperGUI.helper) /\
    s2.(StudyHelperGUI.root).(tk.winfo_exists) = false /\
    s2.(StudyHelperGUI.is_fullscreen) = s.(StudyHelperGUI.is_fullscreen).
Proof.
  intros now short_id click_x x width answer s task Hfind Hid Hmode Hx Hcur
    start Hdst Hdend s1 s2.
  destruct (short_id_resolves _ _ _ Hfind) as (i & Hi & Hn).
  assert (Hs1 := on_task_select_study_start now short_id click_x x width
                   answer s task i Hfind Hi Hn Hid Hmode Hx).
  fold s1 in Hs1.
  set (h := snd (StudyHelper.start_study_mode_task now task.(Task.id)
                   s.(StudyHelperGUI.helper))) in *.
  set (s0 := StudyHelperGUI.set_running_study_task_id (Some task.(Task.id))
               (StudyHelperGUI.set_helper h s)) in *.
  destruct (Forall2_nth_error _ _ _ i task
              (start_study_mode_task_later now task.(Task.id)
                 s.(StudyHelperGUI.helper)) Hn) as (task1 & Hn1 & _).
  fold h in Hn1.
  destruct (start_countdown_effect now i s0 task1 Hn1)
    as (_ & Hrun & Hc & _ & Hfs & _).
  assert (H1 : s1.(StudyHelperGUI.running_study_task_id)
               = Some task.(Task.id))
    by (rewrite Hs1; simpl; rewrite Hrun; reflexivity).
  assert (H2 : s1.(StudyHelperGUI.current_mode) = "normal"%string)
    by (rewrite Hs1; simpl; rewrite Hc; exact Hcur).
  assert (H3 : s1.(StudyHelperGUI.is_fullscreen)
               = s.(StudyHelperGUI.is_fullscreen))
    by (rewrite Hs1; simpl; rewrite Hfs; reflexivity).
  split; [exact H1|].
  split; [rewrite Hs1; reflexivity|].
  split; [exact H2|].
  unfold s2, StudyHelperGUI.handle_close.
  rewrite H2, andb_false_r; simpl.
  repeat split; auto.
Qed.

Lemma start_in_normal_mode_does_not_hold_the_window_witness :
  let s :=
    StudyHelperGUI.init "1920x1080+0+0" [Task.to_dict Sample.task] in
  (StudyHelperGUI.handle_close true
     (StudyHelperGUI.on_task_select 0 "00_123" 7 10 0 300 true s))
    .(StudyHelperGUI.root).(tk.winfo_exists) = false.
Proof.
  intros s.
  assert (Hfind :
    find (fun t => endswith t.(Task.id) "00_123")
      s.(StudyHelperGUI.helper).(StudyHelper.tasks)
    = Some (Task.from_dict (Task.to_dict Sample.task)))
    by (vm_compute; reflexivity).
  assert (Hid : (Task.from_dict (Task.to_dict Sample.task)).(Task.id)
                <> EmptyString) by (vm_compute; discriminate).
  assert (Hmode : Task.is_study_mode
                    (Task.from_dict (Task.to_dict Sample.task)) = true)
    by (vm_compute; reflexivity).
  assert (Hx : 3 * (10 - 0) < 300) by lia.
  assert (Hcur : s.(StudyHelperGUI.current_mode) = "normal"%string)
    by (vm_compute; reflexivity).
  assert (Hdst : is_datetime 0) by (vm_compute; split; discriminate).
  assert (Hdend :
    is_datetime
      (0 + datetime.minutes
             (Task.from_dict (Task.to_dict Sample.task)).(Task.time_limit)))
    by (vm_compute; split; discriminate).
  destruct (start_in_normal_mode_does_not_hold_the_window 0 "00_123" 10 0
              300 true s _ Hfind Hid Hmode Hx Hcur Hdst Hdend)
    as (_ & _ & _ & _ & H & _).
  exact H.
Defined.

(** X12: a click on "complete" for a started study-mode task whose time
    limit, of at most [MAX_TIME_LIMIT] minutes, has not been reached
    changes nothing but the log of messages: the tasks, the file, the
    running task, the lock and the window are as they were, and one
    message is shown, with the limit and the remaining time in tenths of
    a minute, which, when the start does not lie in the future, is within
    half a tenth of the exact remaining time. *)
Theorem refused_completion_click_changes_nothing :
  forall now short_id click_x x width answer s task st,
    find (fun t => endswith t.(Task.id) short_id)
      s.(StudyHelperGUI.helper).(StudyHelper.tasks) = Some task ->
    task.(Task.id) <> EmptyString ->
    Task.is_study_mode task = true ->
    0 < task.(Task.time_limit) <= MAX_TIME_LIMIT ->
    task.(Task.start_time) = Some st ->
    now - st < datetime.minutes task.(Task.time_limit) ->
    width <= 3 * (click_x - x) < 2 * width ->
    exists d,
      StudyHelperGUI.on_task_select now short_id 7 click_x x width answer s
      = StudyHelperGUI.set_shown
          (s.(StudyHelperGUI.shown)
           ++ [messagebox.TimeNotReached task.(Task.time_limit) d])%list s /\
      (st <= now ->
       2 * Z.abs (Task.remaining now st task.(Task.time_limit)
                  - d * (datetime.US_PER_MIN / 10))
       <= datetime.US_PER_MIN / 10).
Proof.
  intros now short_id click_x x width answer s task st Hfind Hid Hmode
    (Hlim & Hmax) Hst Hlt Hx.
  exists (format_1f (Task.remaining now st task.(Task.time_limit))).
  split; [|intros _; apply round_half_even_close; reflexivity].
  destruct (short_id_resolves _ _ _ Hfind) as (i & Hi & Hn).
  rewrite (on_task_select_study_complete now short_id click_x x width answer
             s task i Hfind Hi Hn Hid Hmode Hx).
  unfold StudyHelper.complete_task; rewrite Hi, Hn.
  destruct (complete_started now task st Hmode Hlim Hst) as [Hrefuse _].
  rewrite (Hrefuse Hlt), (set_nth_same _ _ _ Hn).
  destruct s as [? ? ? ? ? ? ? ? ? ? ? ? h ? ?]; destruct h; reflexivity.
Qed.

Lemma refused_completion_click_changes_nothing_witness :
  (StudyHelperGUI.on_task_select (Sample.second 60) "00_123" 7 150 0 300
     true Sample.locked_session).(StudyHelperGUI.is_fullscreen) = true.
Proof.
  assert (Hfind :
    find (fun t => endswith t.(Task.id) "00_123")
      Sample.locked_session.(StudyHelperGUI.helper).(StudyHelper.tasks)
    = Some (Task.set_close_attempts 3 Sample.started_task))
    by (vm_compute; reflexivity).
  assert (Hid : (Task.set_close_attempts 3 Sample.started_task).(Task.id)
                <> EmptyString) by (vm_compute; discriminate).
  assert (Hlim : 0 < (Task.set_close_attempts 3 Sample.started_task)
                       .(Task.time_limit) <= MAX_TIME_LIMIT)
    by (vm_compute; split; [reflexivity|discriminate]).
  assert (Hlt : Sample.second 60 - 0
                < datetime.minutes
                    (Task.set_close_attempts 3 Sample.started_task)
                      .(Task.time_limit)) by (vm_compute; reflexivity).
  assert (Hx : 300 <= 3 * (150 - 0) < 2 * 300) by lia.
  destruct (refused_completion_click_changes_nothing (Sample.second 60)
              "00_123" 150 0 300 true Sample.locked_session _ 0 Hfind Hid
              eq_refl Hlim eq_refl Hlt Hx) as (d & Heq & _).
  rewrite Heq; reflexivity.
Defined.

(** X13: a confirmed click on "delete" for any study-mode task, the
    running one or not, clears the running task id, the status and the
    lock label and leaves full screen; every task with another id, so
    also a running task that is another one, stays in the list as it
    is. *)
Theorem deleting_any_study_task_clears_the_session :
  forall now short_id click_x x width s task,
    find (fun t => endswith t.(Task.id) short_id)
      s.(StudyHelperGUI.helper).(StudyHelper.tasks) = Some task ->
    task.(Task.id) <> EmptyString ->
    Task.is_study_mode task = true ->
    0 <= width ->
    2 * width <= 3 * (click_x - x) ->
    let s' :=
      StudyHelperGUI.on_task_select now short_id 7 click_x x width true s in
    s'.(StudyHelperGUI.running_study_task_id) = None /\
    s'.(StudyHelperGUI.study_mode_status) = StudyHelperGUI.NoStatus /\
    s'.(StudyHelperGUI.lock_label) = StudyHelperGUI.NoLock /\
    s'.(StudyHelperGUI.is_fullscreen) = false /\
    forall other,
      In other s.(StudyHelperGUI.helper).(StudyHelper.tasks) ->
      other.(Task.id) <> task.(Task.id) ->
      In other s'.(StudyHelperGUI.helper).(StudyHelper.tasks).
Proof.
  intros now short_id click_x x width s task Hfind Hid Hmode Hw Hx s'.
  assert (Hs' := on_task_select_delete now short_id click_x x width s task
                   Hfind Hid).
  rewrite Hmode in Hs'; specialize (Hs' (conj Hw Hx)); fold s' in Hs'.
  assert (Htasks : s'.(StudyHelperGUI.helper).(StudyHelper.tasks)
                   = filter
                       (fun t => negb (StudyHelper.has_id task.(Task.id) t))
                       s.(StudyHelperGUI.helper).(StudyHelper.tasks)).
  { rewrite Hs'; simpl; rewrite helper_clear_session; simpl.
    apply delete_task_filter. }
  assert (Hui :
    s'.(StudyHelperGUI.running_study_task_id) = None /\
    s'.(StudyHelperGUI.study_mode_status) = StudyHelperGUI.NoStatus /\
    s'.(StudyHelperGUI.lock_label) = StudyHelperGUI.NoLock /\
    s'.(StudyHelperGUI.is_fullscreen) = false).
  { rewrite Hs'; unfold StudyHelperGUI.clear_session; simpl.
    destruct (StudyHelperGUI.is_fullscreen s) eqn:Hfs; simpl.
    - unfold StudyHelperGUI.exit_fullscreen.
      destruct (StudyHelperGUI.dialog_open _); simpl; auto.
    - auto. }
  destruct Hui as (H1 & H2 & H3 & H4).
  split; [exact H1|]; split; [exact H2|]; split; [exact H3|].
  split; [exact H4|].
  intros other Hin Hne; rewrite Htasks.
  apply filter_In; split; [exact Hin|].
  apply negb_true_iff, has_id_false; exact Hne.
Qed.

Lemma deleting_any_study_task_clears_the_session_witness :
  (StudyHelperGUI.on_task_select (Sample.second 20) "00_123" 7 290 0 300
     true Sample.locked_session).(StudyHelperGUI.is_fullscreen) = false.
Proof.
  assert (Hfind :
    find (fun t => endswith t.(Task.id) "00_123")
      Sample.locked_session.(StudyHelperGUI.helper).(StudyHelper.tasks)
    = Some (Task.set_close_attempts 3 Sample.started_task))
    by (vm_compute; reflexivity).
  assert (Hid : (Task.set_close_attempts 3 Sample.started_task).(Task.id)
                <> EmptyString) by (vm_compute; discriminate).
  assert (Hw : 0 <= 300) by lia.
  assert (Hx : 2 * 300 <= 3 * (290 - 0)) by lia.
  destruct (deleting_any_study_task_clears_the_session (Sample.second 20)
              "00_123" 290 0 300 Sample.locked_session _ Hfind Hid eq_refl
              Hw Hx) as (_ & _ & _ & H & _).
  exact H.
Defined.

(** X14: a row is resolved by the last characters of the id.  When two
    tasks with different ids end with the characters shown in a row, a
    confirmed click on "delete" in that row removes the first of them in
    the list and keeps the other. *)
Theorem short_id_acts_on_first_match :
  forall now short_id click_x x width s first other,
    find (fun t => endswith t.(Task.id) short_id)
      s.(StudyHelperGUI.helper).(StudyHelper.tasks) = Some first ->
    In other s.(StudyHelperGUI.helper).(StudyHelper.tasks) ->
    endswith other.(Task.id) short_id = true ->
    other.(Task.id) <> first.(Task.id) ->
    first.(Task.id) <> EmptyString ->
    (if Task.is_study_mode first
     then 0 <= width /\ 2 * width <= 3 * (click_x - x)
     else width <= 2 * (click_x - x)) ->
    let s' :=
      StudyHelperGUI.on_task_select now short_id 7 click_x x width true s in
    In other s'.(StudyHelperGUI.helper).(StudyHelper.tasks) /\
    ~ In first s'.(StudyHelperGUI.helper).(StudyHelper.tasks).
Proof.
  intros now short_id click_x x width s first other Hfind Hin Hends Hne Hid
    Hx s'.
  assert (Hs' := on_task_select_delete now short_id click_x x width s first
                   Hfind Hid Hx).
  fold s' in Hs'.
  assert (Htasks : s'.(StudyHelperGUI.helper).(StudyHelper.tasks)
                   = filter
                       (fun t => negb (StudyHelper.has_id first.(Task.id) t))
                       s.(StudyHelperGUI.helper).(StudyHelper.tasks)).
  { rewrite Hs'; simpl.
    destruct (Task.is_study_mode first);
      [rewrite helper_clear_session|]; simpl; apply delete_task_filter. }
  rewrite Htasks; split.
  - apply filter_In; split; [exact Hin|].
    apply negb_true_iff, has_id_false; exact Hne.
  - intros H; apply filter_In in H; destruct H as (_ & H).
    apply negb_true_iff, has_id_false in H; apply H; reflexivity.
Qed.

Lemma short_id_acts_on_first_match_witness :
  let a := Task.init "task_20240101120000_123" 0 "math" "a" "2024-01-02" 3
             "normal" 0 in
  let b := Task.init "task_20240102120000_123" 0 "math" "b" "2024-01-03" 3
             "normal" 0 in
  let s :=
    StudyHelperGUI.set_helper (StudyHelper.mk [a; b] [])
      (StudyHelperGUI.init "1920x1080+0+0" []) in
  In b (StudyHelperGUI.on_task_select 0 "00_123" 7 200 0 300 true s)
         .(StudyHelperGUI.helper).(StudyHelper.tasks).
Proof.
  intros a b s.
  assert (Hfind :
    find (fun t => endswith t.(Task.id) "00_123")
      s.(StudyHelperGUI.helper).(StudyHelper.tasks) = Some a)
    by (vm_compute; reflexivity).
  assert (Hin : In b s.(StudyHelperGUI.helper).(StudyHelper.tasks))
    by (right; left; reflexivity).
  assert (Hends : endswith b.(Task.id) "00_123" = true)
    by (vm_compute; reflexivity).
  assert (Hne : b.(Task.id) <> a.(Task.id)) by (vm_compute; discriminate).
  assert (Hid : a.(Task.id) <> EmptyString) by (vm_compute; discriminate).
  assert (Hx : if Task.is_study_mode a
               then 0 <= 300 /\ 2 * 300 <= 3 * (200 - 0)
               else 300 <= 2 * (200 - 0)) by (vm_compute; discriminate).
  exact (proj1 (short_id_acts_on_first_match 0 "00_123" 200 0 300 s a b
                  Hfind Hin Hends Hne Hid Hx)).
Defined.

(** ** The unlock dialog *)

(** One event of the dialog while its inputs are disabled after three or
    more failures: the entry keeps its wrong text, the inputs stay
    disabled, and nothing outside the dialog changes. *)
Lemma locked_out_step now ev s d :
  dialog_input ev ->
  s.(StudyHelperGUI.unlock_dialog) = Some d ->
  d.(tk.inputs_normal) = false ->
  s.(StudyHelperGUI.password_var) <> s.(StudyHelperGUI.unlock_password) ->
  3 <= s.(StudyHelperGUI.wrong_attempts) ->
  let s' := StudyHelperGUI.step now ev s in
  (exists d',
     s'.(StudyHelperGUI.unlock_dialog) = Some d' /\
     d'.(tk.inputs_normal) = false) /\
  s'.(StudyHelperGUI.password_var) = s.(StudyHelperGUI.password_var) /\
  s'.(StudyHelperGUI.unlock_password) = s.(StudyHelperGUI.unlock_password) /\
  3 <= s'.(StudyHelperGUI.wrong_attempts) /\
  s'.(StudyHelperGUI.is_fullscreen) = s.(StudyHelperGUI.is_fullscreen) /\
  s'.(StudyHelperGUI.root) = s.(StudyHelperGUI.root) /\
  s'.(StudyHelperGUI.helper) = s.(StudyHelperGUI.helper).
Proof.
  intros Hev Hd Hoff Hpw Hw s'.
  assert (Hsame :
    (exists d',
       s.(StudyHelperGUI.unlock_dialog) = Some d' /\
       d'.(tk.inputs_normal) = false) /\
    s.(StudyHelperGUI.password_var) = s.(StudyHelperGUI.password_var) /\
    s.(StudyHelperGUI.unlock_password) = s.(StudyHelperGUI.unlock_password) /\
    3 <= s.(StudyHelperGUI.wrong_attempts) /\
    s.(StudyHelperGUI.is_fullscreen) = s.(StudyHelperGUI.is_fullscreen) /\
    s.(StudyHelperGUI.root) = s.(StudyHelperGUI.root) /\
    s.(StudyHelperGUI.helper) = s.(StudyHelperGUI.helper))
    by (split; [exists d; auto|auto 7]).
  assert (Husable : StudyHelperGUI.inputs_usable s = false)
    by (unfold StudyHelperGUI.inputs_usable; rewrite Hd, Hoff;
        apply andb_false_r).
  unfold s', StudyHelperGUI.step.
  destruct (negb _); [exact Hsame|].
  destruct ev; simpl in Hev; try contradiction.
  - rewrite Husable; exact Hsame.
  - rewrite Husable; exact Hsame.
  - destruct (StudyHelperGUI.dialog_open s); [|exact Hsame].
    unfold StudyHelperGUI.check_password.
    destruct (String.eqb_spec (StudyHelperGUI.password_var s)
                (StudyHelperGUI.unlock_password s)); [contradiction|].
    cbn -[Z.sub Z.add Z.ltb].
    replace (0 <? 3 - (StudyHelperGUI.wrong_attempts s + 1)) with false
      by (symmetry; apply Z.ltb_ge; lia).
    unfold StudyHelperGUI.configure_inputs.
    cbn -[Z.sub Z.add Z.ltb]; rewrite Hd; cbn -[Z.sub Z.add Z.ltb].
    split; [eexists; split; reflexivity|].
    repeat split; auto; lia.
Qed.

(** X15: while the inputs of the unlock dialog are disabled after three
    failed submissions, no sequence of typing, clicks on the unlock
    button and presses of [<Return>] unlocks the window: the entry keeps
    its wrong text, so full screen, window and tasks stay as they are and
    the inputs stay disabled, until the reset callback runs. *)
Theorem no_unlock_during_cooldown :
  forall evs s d,
    Forall (fun e => dialog_input (snd e)) evs ->
    s.(StudyHelperGUI.unlock_dialog) = Some d ->
    d.(tk.inputs_normal) = false ->
    s.(StudyHelperGUI.password_var) <> s.(StudyHelperGUI.unlock_password) ->
    3 <= s.(StudyHelperGUI.wrong_attempts) ->
    let s' := StudyHelperGUI.run evs s in
    s'.(StudyHelperGUI.is_fullscreen) = s.(StudyHelperGUI.is_fullscreen) /\
    s'.(StudyHelperGUI.root) = s.(StudyHelperGUI.root) /\
    s'.(StudyHelperGUI.helper) = s.(StudyHelperGUI.helper) /\
    StudyHelperGUI.inputs_usable s' = false /\
    3 <= s'.(StudyHelperGUI.wrong_attempts).
Proof.
  intros evs; induction evs as [|[now ev] rest IH];
    intros s d Hevs Hd Hoff Hpw Hw; simpl.
  - repeat split; auto.
    unfold StudyHelperGUI.inputs_usable; rewrite Hd, Hoff.
    apply andb_false_r.
  - inversion Hevs as [|e l Hev Hrest]; subst; simpl in Hev.
    destruct (locked_out_step now ev s d Hev Hd Hoff Hpw Hw)
      as ((d' & Hd' & Hoff') & Hp & Hu & Hw' & Hfs & Hroot & Hh).
    assert (Hpw' :
      (StudyHelperGUI.step now ev s).(StudyHelperGUI.password_var)
      <> (StudyHelperGUI.step now ev s).(StudyHelperGUI.unlock_password))
      by (rewrite Hp, Hu; exact Hpw).
    destruct (IH _ d' Hrest Hd' Hoff' Hpw' Hw')
      as (H1 & H2 & H3 & H4 & H5).
    rewrite H1, H2, H3, Hfs, Hroot, Hh; auto.
Qed.

Lemma no_unlock_during_cooldown_witness :
  let wrong t :=
    [(Sample.second t, StudyHelperGUI.TypePassword "000000");
     (Sample.second t, StudyHelperGUI.UnlockButton)] in
  let s3 :=
    StudyHelperGUI.run (wrong 20 ++ wrong 21 ++ wrong 22)%list
      Sample.locked_session in
  (StudyHelperGUI.run
     [(Sample.second 23, StudyHelperGUI.TypePassword "123456");
      (Sample.second 23, StudyHelperGUI.ReturnKey);
      (Sample.second 24, StudyHelperGUI.UnlockButton)] s3)
    .(StudyHelperGUI.is_fullscreen)
  = s3.(StudyHelperGUI.is_fullscreen).
Proof.
  intros wrong s3.
  assert (Hd : s3.(StudyHelperGUI.unlock_dialog)
               = Some (tk.mkToplevel true false))
    by (vm_compute; reflexivity).
  assert (Hpw : s3.(StudyHelperGUI.password_var)
                <> s3.(StudyHelperGUI.unlock_password))
    by (vm_compute; discriminate).
  assert (Hw : 3 <= s3.(StudyHelperGUI.wrong_attempts))
    by (vm_compute; discriminate).
  refine (proj1 (no_unlock_during_cooldown _ s3 _ _ Hd eq_refl Hpw Hw)).
  repeat constructor.
Defined.

(** What [enter_fullscreen] does to the unlock dialog. *)
Lemma enter_fullscreen_dialog s :
  let s' := StudyHelperGUI.enter_fullscreen s in
  (StudyHelperGUI.dialog_open s = true ->
   s'.(StudyHelperGUI.unlock_dialog) = s.(StudyHelperGUI.unlock_dialog) /\
   s'.(StudyHelperGUI.wrong_attempts) = s.(StudyHelperGUI.wrong_attempts) /\
   s'.(StudyHelperGUI.password_var) = s.(StudyHelperGUI.password_var) /\
   s'.(StudyHelperGUI.error_label) = s.(StudyHelperGUI.error_label)) /\
  (StudyHelperGUI.dialog_open s = false ->
   StudyHelperGUI.inputs_usable s' = true /\
   s'.(StudyHelperGUI.wrong_attempts) = 0 /\
   s'.(StudyHelperGUI.password_var) = EmptyString /\
   s'.(StudyHelperGUI.error_label) = StudyHelperGUI.NoError).
Proof.
  destruct s as [ro og fs up ud wa pv el cm ru st ll he sh sc].
  unfold StudyHelperGUI.enter_fullscreen, StudyHelperGUI.show_unlock_dialog,
    StudyHelperGUI.dialog_open, StudyHelperGUI.inputs_usable.
  cbn.
  destruct ud as [[ex nm]|]; cbn.
  - destruct ex; cbn; split; intros H; try discriminate; auto.
  - split; intros H; try discriminate; auto.
Qed.

(** X16: a close request that reaches the third attempt or more while
    the unlock dialog is open keeps the dialog as it is, with its failure
    counter, text and error label; when the dialog no longer exists the
    request opens a new one with the counter at 0, an empty entry and
    enabled inputs. *)
Theorem close_request_and_the_dialog :
  forall answer s r i task,
    active s r i task ->
    2 <= task.(Task.close_attempts) ->
    let s' := StudyHelperGUI.handle_close answer s in
    (StudyHelperGUI.dialog_open s = true ->
     s'.(StudyHelperGUI.unlock_dialog) = s.(StudyHelperGUI.unlock_dialog) /\
     s'.(StudyHelperGUI.wrong_attempts) = s.(StudyHelperGUI.wrong_attempts) /\
     s'.(StudyHelperGUI.password_var) = s.(StudyHelperGUI.password_var) /\
     s'.(StudyHelperGUI.error_label) = s.(StudyHelperGUI.error_label)) /\
    (StudyHelperGUI.dialog_open s = false ->
     StudyHelperGUI.inputs_usable s' = true /\
     s'.(StudyHelperGUI.wrong_attempts) = 0 /\
     s'.(StudyHelperGUI.password_var) = EmptyString /\
     s'.(StudyHelperGUI.error_label) = StudyHelperGUI.NoError).
Proof.
  intros answer s r i task Hact Hn s'.
  unfold s'; rewrite (handle_close_active answer s r i task Hact).
  replace (Task.close_attempts task + 1 <=? 1) with false
    by (symmetry; apply Z.leb_gt; lia).
  replace (3 <=? Task.close_attempts task + 1) with true
    by (symmetry; apply Z.leb_le; lia).
  cbv zeta.
  match goal with
  | |- context [StudyHelperGUI.enter_fullscreen ?s2] =>
      exact (enter_fullscreen_dialog s2)
  end.
Qed.

Lemma close_request_and_the_dialog_witness :
  (StudyHelperGUI.handle_close true Sample.locked_session)
    .(StudyHelperGUI.unlock_dialog)
  = Sample.locked_session.(StudyHelperGUI.unlock_dialog).
Proof.
  assert (Hact : active Sample.locked_session "task_20240101120000_123"
                   0%nat (Task.set_close_attempts 3 Sample.started_task)).
  { repeat split; try (vm_compute; reflexivity).
    intros H; discriminate H. }
  assert (Hn : 2 <= (Task.set_close_attempts 3 Sample.started_task)
                      .(Task.close_attempts)) by (vm_compute; discriminate).
  refine (proj1 (proj1 (close_request_and_the_dialog true
                          Sample.locked_session _ _ _ Hact Hn) _)).
  vm_compute; reflexivity.
Defined.

(** ** Adding a task through the dialog *)

(** X17: [save_task] either adds nothing and shows one error, or appends
    exactly one task and confirms it.  The added task carries the mode
    the selector is on.  In study mode its time limit is the minutes
    typed by hand, which are then positive, or else the value picked in
    the list, which is taken unchecked; in any other mode its limit is 0.
    Empty fields, hand-typed minutes that are not a positive number, a
    missing choice, and a bad date add nothing. *)
Theorem save_task_adds_valid_tasks :
  forall new_id now subject content deadline priority manual chosen date_ok s,
    let s' :=
      StudyHelperGUI.save_task new_id now subject content deadline priority
        manual chosen date_ok s in
    let study := (s.(StudyHelperGUI.current_mode) =? "study_mode")%string in
    (s'.(StudyHelperGUI.helper) = s.(StudyHelperGUI.helper) /\
     exists m,
       s'.(StudyHelperGUI.shown) = (s.(StudyHelperGUI.shown) ++ [m])%list /\
       (m = messagebox.FieldsEmpty \/ m = messagebox.InvalidMinutes \/
        m = messagebox.NoTimeLimit \/ m = messagebox.BadDate)) \/
    (exists task,
       s'.(StudyHelperGUI.helper).(StudyHelper.tasks)
       = (s.(StudyHelperGUI.helper).(StudyHelper.tasks) ++ [task])%list /\
       synced s'.(StudyHelperGUI.helper) /\
       s'.(StudyHelperGUI.shown)
       = (s.(StudyHelperGUI.shown) ++ [messagebox.TaskAdded study])%list /\
       task.(Task.id) = new_id /\
       task.(Task.study_mode) = s.(StudyHelperGUI.current_mode) /\
       subject <> EmptyString /\ content <> EmptyString /\
       deadline <> EmptyString /\ date_ok = true /\
       (study = false -> task.(Task.time_limit) = 0) /\
       (study = true ->
        match manual with
        | Some typed =>
            typed = Some task.(Task.time_limit) /\ 0 < task.(Task.time_limit)
        | None => chosen = Some task.(Task.time_limit)
        end)).
Proof.
  intros new_id now subject content deadline priority manual chosen date_ok
    s s' study.
  unfold s', StudyHelperGUI.save_task; fold study.
  destruct (String.eqb_spec subject EmptyString) as [|Hs]; simpl;
    [left; split; [reflexivity|]; eexists; split; [reflexivity|auto]|].
  destruct (String.eqb_spec content EmptyString) as [|Hc]; simpl;
    [left; split; [reflexivity|]; eexists; split; [reflexivity|auto]|].
  destruct (String.eqb_spec deadline EmptyString) as [|Hd]; simpl;
    [left; split; [reflexivity|]; eexists; split; [reflexivity|auto]|].
  assert (Herr : forall m,
    (m = messagebox.FieldsEmpty \/ m = messagebox.InvalidMinutes \/
     m = messagebox.NoTimeLimit \/ m = messagebox.BadDate) ->
    (StudyHelperGUI.helper (StudyHelperGUI.show m s)
     = StudyHelperGUI.helper s /\
     exists m',
       StudyHelperGUI.shown (StudyHelperGUI.show m s)
       = (StudyHelperGUI.shown s ++ [m'])%list /\
       (m' = messagebox.FieldsEmpty \/ m' = messagebox.InvalidMinutes \/
        m' = messagebox.NoTimeLimit \/ m' = messagebox.BadDate)))
    by (intros m Hm; split; [reflexivity|]; exists m; split;
        [reflexivity|exact Hm]).
  assert (Hadd : forall time_limit,
    (study = false -> time_limit = 0) ->
    (study = true ->
     match manual with
     | Some typed => typed = Some time_limit /\ 0 < time_limit
     | None => chosen = Some time_limit
     end) ->
    date_ok = true ->
    exists task,
      StudyHelper.tasks
        (StudyHelperGUI.helper
           (StudyHelperGUI.show (messagebox.TaskAdded study)
              (StudyHelperGUI.set_helper
                 (snd (StudyHelper.add_task new_id now subject content
                         deadline priority s.(StudyHelperGUI.current_mode)
                         time_limit s.(StudyHelperGUI.helper))) s)))
      = (StudyHelper.tasks (StudyHelperGUI.helper s) ++ [task])%list /\
      synced
        (StudyHelperGUI.helper
           (StudyHelperGUI.show (messagebox.TaskAdded study)
              (StudyHelperGUI.set_helper
                 (snd (StudyHelper.add_task new_id now subject content
                         deadline priority s.(StudyHelperGUI.current_mode)
                         time_limit s.(StudyHelperGUI.helper))) s))) /\
      StudyHelperGUI.shown
        (StudyHelperGUI.show (messagebox.TaskAdded study)
           (StudyHelperGUI.set_helper
              (snd (StudyHelper.add_task new_id now subject content
                      deadline priority s.(StudyHelperGUI.current_mode)
                      time_limit s.(StudyHelperGUI.helper))) s))
      = (StudyHelperGUI.shown s ++ [messagebox.TaskAdded study])%list /\
      task.(Task.id) = new_id /\
      task.(Task.study_mode) = s.(StudyHelperGUI.current_mode) /\
      subject <> EmptyString /\ content <> EmptyString /\
      deadline <> EmptyString /\ date_ok = true /\
      (study = false -> task.(Task.time_limit) = 0) /\
      (study = true ->
       match manual with
       | Some typed =>
           typed = Some task.(Task.time_limit) /\ 0 < task.(Task.time_limit)
       | None => chosen = Some task.(Task.time_limit)
       end)).
  { intros time_limit H0 H1 Hdate.
    eexists; split; [reflexivity|]; split; [reflexivity|].
    split; [reflexivity|]; simpl; repeat split; auto; apply H1; auto. }
  destruct study eqn:Hstudy.
  - destruct manual as [[n|]|].
    + destruct (n <=? 0) eqn:Hn;
        [left; apply Herr; auto|apply Z.leb_gt in Hn].
      destruct date_ok; [|left; apply Herr; auto].
      right; apply Hadd; auto; discriminate.
    + left; apply Herr; auto.
    + destruct chosen as [n|]; [|left; apply Herr; auto].
      destruct date_ok; [|left; apply Herr; auto].
      right; apply Hadd; auto; discriminate.
  - destruct date_ok; [|left; apply Herr; auto].
    right; apply Hadd; auto; discriminate.
Qed.

(** ** The error book *)

Lemma error_from_dict_to_dict e : 错题.from_dict (错题.to_dict e) = e.
Proof. destruct e; reflexivity. Qed.

Lemma error_to_dict_from_dict d : 错题.to_dict (错题.from_dict d) = d.
Proof. destruct d; reflexivity. Qed.

Lemma init_saved_errors h :
  StudyHelperErrors.init
    (StudyHelperErrors._save_errors h).(StudyHelperErrors.errors_file)
  = StudyHelperErrors._save_errors h.
Proof.
  unfold StudyHelperErrors.init, StudyHelperErrors._save_errors,
    StudyHelperErrors._load_errors; simpl.
  rewrite map_map.
  rewrite (map_ext _ (fun e => e)) by apply error_from_dict_to_dict.
  rewrite map_id; reflexivity.
Qed.

(** X18: entries of the error book come back from the file exactly as
    they were written: when [errors.json] holds the serialised list,
    constructing the helper again from it gives the same helper, and
    this holds after [add_error], [review_error] and [delete_error],
    whether they change something or not. *)
Theorem error_book_survives_restart :
  forall h,
    h.(StudyHelperErrors.errors_file)
    = map 错题.to_dict h.(StudyHelperErrors.errors) ->
    StudyHelperErrors.init h.(StudyHelperErrors.errors_file) = h /\
    (forall new_id now subject question answer mistake category,
        let h1 :=
          snd (StudyHelperErrors.add_error new_id now subject question answer
                 mistake category h) in
        StudyHelperErrors.init h1.(StudyHelperErrors.errors_file) = h1 /\
        h1.(StudyHelperErrors.errors)
        = (h.(StudyHelperErrors.errors)
           ++ [错题.init new_id now subject question answer mistake category])
          %list) /\
    (forall now error_id,
        let h1 := snd (StudyHelperErrors.review_error now error_id h) in
        StudyHelperErrors.init h1.(StudyHelperErrors.errors_file) = h1) /\
    (forall error_id,
        let h1 := snd (StudyHelperErrors.delete_error error_id h) in
        StudyHelperErrors.init h1.(StudyHelperErrors.errors_file) = h1).
Proof.
  intros h Hs.
  assert (Hh : StudyHelperErrors.init h.(StudyHelperErrors.errors_file) = h).
  { destruct h as [l f]; simpl in *; subst f.
    exact (init_saved_errors (StudyHelperErrors.mk l [])). }
  split; [exact Hh|]; split; [|split].
  - intros; split; [apply init_saved_errors|reflexivity].
  - intros now error_id h1; unfold h1, StudyHelperErrors.review_error.
    destruct (index_where _ _) as [i|]; [|exact Hh].
    destruct (nth_error _ i); [apply init_saved_errors|exact Hh].
  - intros error_id h1; unfold h1, StudyHelperErrors.delete_error.
    destruct (_ <? _)%nat eqn:Hlt; [apply init_saved_errors|].
    apply Nat.ltb_ge in Hlt; simpl in *.
    rewrite (filter_all _ _ Hlt).
    destruct h; exact Hh.
Qed.

Lemma error_book_survives_restart_witness :
  let h0 :=
    snd (StudyHelperErrors.add_error "error_20240101120000_456"
           (Sample.second 1) "math" "7 * 8" "56" "wrote 54" "arithmetic"
           (StudyHelperErrors.init [])) in
  let h :=
    snd (StudyHelperErrors.review_error (Sample.second 90)
           "error_20240101120000_456" h0) in
  List.length h.(StudyHelperErrors.errors) = 1%nat /\
  StudyHelperErrors.init h.(StudyHelperErrors.errors_file) = h /\
  (let h1 :=
     snd (StudyHelperErrors.delete_error "error_20240101120000_456" h) in
   StudyHelperErrors.init h1.(StudyHelperErrors.errors_file) = h1).
Proof.
  intros h0 h.
  assert (Hs : h.(StudyHelperErrors.errors_file)
               = map 错题.to_dict h.(StudyHelperErrors.errors))
    by (vm_compute; reflexivity).
  destruct (error_book_survives_restart h Hs) as (Hinit & _ & _ & Hdel).
  split; [vm_compute; reflexivity|].
  split; [exact Hinit|].
  exact (Hdel "error_20240101120000_456"%string).
Defined.

Lemma nth_error_set_nth_other {A : Type} (l : list A) i j y :
  i <> j -> nth_error (set_nth j y l) i = nth_error l i.
Proof.
  revert i j; induction l as [|z rest IH]; intros [|i] [|j] Hij; simpl;
    auto; congruence.
Qed.

(** X19: [review_error] counts one more review on the first entry with
    the given id, stamps it with the time of the call and writes the
    file; no other entry and no other field changes.  With an id that no
    entry has it answers [False] and changes nothing. *)
Theorem review_error_counts_one_review :
  forall now error_id h,
    match
      index_where (StudyHelperErrors.has_id error_id)
        h.(StudyHelperErrors.errors)
    with
    | Some i =>
        exists e h',
          nth_error h.(StudyHelperErrors.errors) i = Some e /\
          StudyHelperErrors.review_error now error_id h = (true, h') /\
          nth_error h'.(StudyHelperErrors.errors) i
          = Some (错题.mk e.(错题.id) e.(错题.subject) e.(错题.question)
                    e.(错题.answer) e.(错题.mistake) e.(错题.category)
                    e.(错题.created_at) (e.(错题.review_count) + 1)
                    (Some (datetime.strftime now))) /\
          (forall j, j <> i ->
                     nth_error h'.(StudyHelperErrors.errors) j
                     = nth_error h.(StudyHelperErrors.errors) j) /\
          List.length h'.(StudyHelperErrors.errors)
          = List.length h.(StudyHelperErrors.errors) /\
          h'.(StudyHelperErrors.errors_file)
          = map 错题.to_dict h'.(StudyHelperErrors.errors)
    | None =>
        (forall e, In e h.(StudyHelperErrors.errors) ->
                   e.(错题.id) <> error_id) /\
        StudyHelperErrors.review_error now error_id h = (false, h)
    end.
Proof.
  intros now error_id h.
  destruct (index_where _ _) as [i|] eqn:Hi.
  - destruct (index_where_Some _ _ _ Hi) as (e & Hn & _).
    unfold StudyHelperErrors.review_error; rewrite Hi, Hn.
    eexists e, _; split; [reflexivity|]; split; [reflexivity|]; simpl.
    split; [apply nth_error_set_nth with (x := e); exact Hn|].
    split; [intros j Hj; apply nth_error_set_nth_other; exact Hj|].
    split; [apply length_set_nth|reflexivity].
  - split.
    + intros e Hin Hid.
      pose proof (index_where_None _ _ Hi e Hin) as Hf.
      unfold StudyHelperErrors.has_id in Hf.
      rewrite Hid, String.eqb_refl in Hf; discriminate.
    + unfold StudyHelperErrors.review_error; rewrite Hi; reflexivity.
Qed.

(** *** Statistics of the error book *)

Lemma total_bump k d :
  total (StudyHelperErrors.bump k d) = total d + 1.
Proof.
  induction d as [|[k' n] rest IH]; simpl; [reflexivity|].
  destruct (k' =? k)%string; simpl in *; lia.
Qed.

(** The count kept for a subject, 0 when the subject has no entry. *)
Lemma lookup_tally q subject category acc :
  match StudyHelperErrors.lookup q
          (StudyHelperErrors.tally subject category acc) with
  | Some st' =>
      StudyHelperErrors.count st'
      = match StudyHelperErrors.lookup q acc with
        | Some st => StudyHelperErrors.count st
        | None => 0
        end + (if (subject =? q)%string then 1 else 0)
  | None =>
      StudyHelperErrors.lookup q acc = None /\ (subject =? q)%string = false
  end.
Proof.
  induction acc as [|[k st] rest IH]; simpl.
  - destruct (subject =? q)%string; simpl; auto.
  - destruct (String.eqb_spec k subject) as [->|Hks]; simpl.
    + destruct (subject =? q)%string; simpl; [reflexivity|].
      destruct (StudyHelperErrors.lookup q rest); auto; lia.
    + destruct (String.eqb_spec k q) as [->|Hkq]; simpl.
      * destruct (String.eqb_spec subject q); [congruence|lia].
      * exact IH.
Qed.

Lemma tally_total subject category acc :
  total (map (fun kv => (fst kv, StudyHelperErrors.count (snd kv)))
           (StudyHelperErrors.tally subject category acc))
  = total (map (fun kv => (fst kv, StudyHelperErrors.count (snd kv))) acc)
    + 1.
Proof.
  induction acc as [|[k st] rest IH]; simpl; [reflexivity|].
  destruct (k =? subject)%string; simpl in *; lia.
Qed.

Lemma tally_keeps_sums subject category acc :
  Forall (fun kv =>
            total (StudyHelperErrors.categories (snd kv))
            = StudyHelperErrors.count (snd kv)
            /\ 1 <= StudyHelperErrors.count (snd kv)) acc ->
  Forall (fun kv =>
            total (StudyHelperErrors.categories (snd kv))
            = StudyHelperErrors.count (snd kv)
            /\ 1 <= StudyHelperErrors.count (snd kv))
    (StudyHelperErrors.tally subject category acc).
Proof.
  induction 1 as [|[k st] rest (Hsum & Hpos) Hrest IH]; simpl in *.
  - constructor; [|constructor]; simpl; split; lia.
  - destruct (k =? subject)%string; constructor; auto; simpl.
    rewrite total_bump; split; lia.
Qed.

Lemma lookup_In {V : Type} q (d : list (string * V)) v :
  StudyHelperErrors.lookup q d = Some v -> In (q, v) d.
Proof.
  induction d as [|[k w] rest IH]; simpl; [discriminate|].
  destruct (String.eqb_spec k q) as [->|]; [intros [= ->]|]; auto.
Qed.

Lemma fold_tally l acc :
  let stats :=
    fold_left
      (fun subject_stats error =>
         StudyHelperErrors.tally error.(错题.subject) error.(错题.category)
           subject_stats) l acc in
  total (map (fun kv => (fst kv, StudyHelperErrors.count (snd kv))) stats)
  = total (map (fun kv => (fst kv, StudyHelperErrors.count (snd kv))) acc)
    + Z.of_nat (List.length l) /\
  (Forall (fun kv =>
             total (StudyHelperErrors.categories (snd kv))
             = StudyHelperErrors.count (snd kv)
             /\ 1 <= StudyHelperErrors.count (snd kv)) acc ->
   Forall (fun kv =>
             total (StudyHelperErrors.categories (snd kv))
             = StudyHelperErrors.count (snd kv)
             /\ 1 <= StudyHelperErrors.count (snd kv)) stats) /\
  forall q,
    match StudyHelperErrors.lookup q stats with
    | Some st => StudyHelperErrors.count st
    | None => 0
    end
    = match StudyHelperErrors.lookup q acc with
      | Some st => StudyHelperErrors.count st
      | None => 0
      end
      + Z.of_nat
          (List.length
             (filter (fun e => (e.(错题.subject) =? q)%string) l)).
Proof.
  revert acc; induction l as [|e rest IH]; intros acc; simpl.
  - repeat split; auto; intros; lia.
  - destruct (IH (StudyHelperErrors.tally e.(错题.subject) e.(错题.category)
                    acc)) as (Htot & Hinv & Hcnt).
    simpl in *; split; [|split].
    + rewrite Htot, tally_total; lia.
    + intros Hacc; apply Hinv, tally_keeps_sums; exact Hacc.
    + intros q; rewrite Hcnt.
      pose proof (lookup_tally q e.(错题.subject) e.(错题.category) acc)
        as Hl.
      destruct (StudyHelperErrors.lookup q (StudyHelperErrors.tally _ _ acc))
        as [st'|].
      * rewrite Hl.
        destruct (错题.subject e =? q)%string; simpl; lia.
      * destruct Hl as (-> & ->); reflexivity.
Qed.

(** X20: the statistics of [get_error_stats] add up.  The counts of all
    subjects sum to the number of entries.  A subject that is listed has
    a count of at least 1, equal to the number of entries with that
    subject (the entries [get_errors_by_subject] returns for it), and
    the counts of its categories sum to it; a subject that is not listed
    has no entry. *)
Theorem error_stats_add_up :
  forall h,
    let stats := StudyHelperErrors.get_error_stats h in
    total (map (fun kv => (fst kv, StudyHelperErrors.count (snd kv))) stats)
    = Z.of_nat (List.length h.(StudyHelperErrors.errors)) /\
    forall q,
      match StudyHelperErrors.lookup q stats with
      | Some st =>
          StudyHelperErrors.count st
          = Z.of_nat
              (List.length
                 (filter (fun e => (e.(错题.subject) =? q)%string)
                    h.(StudyHelperErrors.errors))) /\
          (q <> EmptyString ->
           StudyHelperErrors.count st
           = Z.of_nat
               (List.length (StudyHelperErrors.get_errors_by_subject q h))) /\
          1 <= StudyHelperErrors.count st /\
          total (StudyHelperErrors.categories st) = StudyHelperErrors.count st
      | None =>
          forall e, In e h.(StudyHelperErrors.errors) ->
                    e.(错题.subject) <> q
      end.
Proof.
  intros h stats.
  assert (Hstats :
    stats = fold_left
              (fun subject_stats error =>
                 StudyHelperErrors.tally error.(错题.subject)
                   error.(错题.category) subject_stats)
              h.(StudyHelperErrors.errors) []).
  { unfold stats, StudyHelperErrors.get_error_stats.
    destruct (StudyHelperErrors.errors h); reflexivity. }
  destruct (fold_tally h.(StudyHelperErrors.errors) [])
    as (Htot & Hinv & Hcnt).
  rewrite <- Hstats in Htot, Hinv, Hcnt; simpl in Htot, Hcnt.
  split; [exact Htot|].
  intros q; specialize (Hcnt q).
  destruct (StudyHelperErrors.lookup q stats) as [st|] eqn:Hl.
  - pose proof (Hinv (Forall_nil _)) as Hall.
    rewrite Forall_forall in Hall.
    destruct (Hall _ (lookup_In _ _ _ Hl)) as (Hsum & Hpos); simpl in *.
    split; [exact Hcnt|]; split; [|split; assumption].
    intros Hq; rewrite Hcnt.
    unfold StudyHelperErrors.get_errors_by_subject.
    destruct (String.eqb_spec q EmptyString); [contradiction|reflexivity].
  - intros e Hin Hsub.
    assert (Hin' : In e (filter (fun e => (e.(错题.subject) =? q)%string)
                           h.(StudyHelperErrors.errors)))
      by (apply filter_In; split; [exact Hin|apply String.eqb_eq; exact Hsub]).
    destruct (filter _ _); [contradiction|simpl in Hcnt; lia].
Qed.

(** ** Statistics of the tasks *)

Lemma task_tally_sums subject done acc :
  total (map (fun kv => (fst kv, StudyHelper.total (snd kv)))
           (StudyHelper.tally subject done acc))
  = total (map (fun kv => (fst kv, StudyHelper.total (snd kv))) acc) + 1 /\
  total (map (fun kv => (fst kv, StudyHelper.completed (snd kv)))
           (StudyHelper.tally subject done acc))
  = total (map (fun kv => (fst kv, StudyHelper.completed (snd kv))) acc)
    + (if done then 1 else 0).
Proof.
  induction acc as [|[k c] rest (IH1 & IH2)]; simpl.
  - destruct done; split; reflexivity.
  - destruct (k =? subject)%string; simpl in *; destruct done; split; lia.
Qed.

Lemma task_tally_bounds subject done acc :
  Forall (fun kv =>
            1 <= StudyHelper.total (snd kv) /\
            0 <= StudyHelper.completed (snd kv) <= StudyHelper.total (snd kv))
    acc ->
  Forall (fun kv =>
            1 <= StudyHelper.total (snd kv) /\
            0 <= StudyHelper.completed (snd kv) <= StudyHelper.total (snd kv))
    (StudyHelper.tally subject done acc).
Proof.
  induction 1 as [|[k c] rest Hc Hrest IH]; simpl in *.
  - constructor; [|constructor]; simpl; destruct done; lia.
  - destruct (k =? subject)%string; constructor; auto; simpl.
    destruct done; lia.
Qed.

Lemma fold_task_tally l acc :
  let stats :=
    fold_left
      (fun subject_stats task =>
         StudyHelper.tally task.(Task.subject) task.(Task.completed)
           subject_stats) l acc in
  total (map (fun kv => (fst kv, StudyHelper.total (snd kv))) stats)
  = total (map (fun kv => (fst kv, StudyHelper.total (snd kv))) acc)
    + Z.of_nat (List.length l) /\
  total (map (fun kv => (fst kv, StudyHelper.completed (snd kv))) stats)
  = total (map (fun kv => (fst kv, StudyHelper.completed (snd kv))) acc)
    + Z.of_nat (List.length (filter (fun task => task.(Task.completed)) l)) /\
  (Forall (fun kv =>
             1 <= StudyHelper.total (snd kv) /\
             0 <= StudyHelper.completed (snd kv)
             <= StudyHelper.total (snd kv)) acc ->
   Forall (fun kv =>
             1 <= StudyHelper.total (snd kv) /\
             0 <= StudyHelper.completed (snd kv)
             <= StudyHelper.total (snd kv)) stats).
Proof.
  revert acc; induction l as [|task rest IH]; intros acc; simpl.
  - repeat split; auto; lia.
  - destruct (IH (StudyHelper.tally task.(Task.subject)
                    task.(Task.completed) acc)) as (Ht & Hc & Hb).
    destruct (task_tally_sums task.(Task.subject) task.(Task.completed) acc)
      as (Ht1 & Hc1).
    simpl in *; split; [|split].
    + rewrite Ht, Ht1; lia.
    + rewrite Hc, Hc1; destruct (Task.completed task); simpl; lia.
    + intros Hacc; apply Hb, task_tally_bounds; exact Hacc.
Qed.

(** X21: the numbers of [get_task_stats] are consistent.  The completed
    count lies between 0 and the total, which is at most the number of
    tasks; the totals of the subjects sum to the total and their
    completed counts to the completed count; every listed subject has a
    total of at least 1 and a completed count within it, so the rate per
    subject that the report computes never divides by zero; the
    completion rate has a positive denominator and lies between 0 and
    100; and no subject is listed exactly when the total is 0. *)
Theorem task_stats_add_up :
  forall now days h,
    let '(subject_stats, n, done, rate) :=
      StudyHelper.get_task_stats now days h in
    0 <= done <= n /\
    n <= Z.of_nat (List.length h.(StudyHelper.tasks)) /\
    total (map (fun kv => (fst kv, StudyHelper.total (snd kv))) subject_stats)
    = n /\
    total (map (fun kv => (fst kv, StudyHelper.completed (snd kv)))
             subject_stats) = done /\
    Forall (fun kv =>
              1 <= StudyHelper.total (snd kv) /\
              0 <= StudyHelper.completed (snd kv)
              <= StudyHelper.total (snd kv)) subject_stats /\
    0 < snd rate /\
    0 <= fst rate <= 100 * snd rate /\
    (subject_stats = [] <-> n = 0).
Proof.
  intros now days h; unfold StudyHelper.get_task_stats.
  set (recent := filter _ h.(StudyHelper.tasks)).
  assert (Hlen : (List.length recent <= List.length h.(StudyHelper.tasks))%nat)
    by apply filter_length_le.
  destruct recent as [|task rest] eqn:Hrecent.
  - simpl; repeat split; auto; try lia; constructor.
  - rewrite <- Hrecent in *.
    assert (Hpos : (0 < List.length recent)%nat)
      by (rewrite Hrecent; simpl; lia).
    pose proof (filter_length_le (fun task => Task.completed task) recent)
      as Hdone.
    destruct (fold_task_tally recent []) as (Ht & Hc & Hb).
    simpl in Ht, Hc.
    replace (0 <? Z.of_nat (List.length recent)) with true
      by (symmetry; apply Z.ltb_lt; lia).
    cbn [fst snd].
    split; [lia|]; split; [lia|]; split; [exact Ht|]; split; [exact Hc|].
    split; [apply Hb; constructor|].
    split; [lia|]; split; [lia|].
    split; [|lia].
    intros Hnil; rewrite Hnil in Ht; simpl in Ht; lia.
Qed.

(** ** Completing a task *)

(** The task a successful [complete] leaves behind. *)
Lemma complete_success now task task' msgs :
  Task.complete now task = (true, task', msgs) ->
  msgs = [] /\
  task' = (if negb task.(Task.completed)
           then Task.set_completed true (Some (datetime.strftime now)) task
           else task) /\
  task'.(Task.completed) = true.
Proof.
  unfold Task.complete; intros H.
  assert (Hfin : forall t m,
    (true,
     if negb task.(Task.completed)
     then Task.set_completed true (Some (datetime.strftime now)) task
     else task, @nil messagebox.Message) = (true, t, m) ->
    m = [] /\
    t = (if negb task.(Task.completed)
         then Task.set_completed true (Some (datetime.strftime now)) task
         else task) /\
    t.(Task.completed) = true).
  { intros t m [= <- <-]; repeat split.
    destruct (Task.completed task) eqn:Hc; simpl; auto. }
  destruct (_ && _); [|apply Hfin; exact H].
  destruct (Task.start_time task); [|discriminate].
  destruct (Task.time_not_reached _ _ _); [discriminate|].
  apply Hfin; exact H.
Qed.

Lemma complete_task_success now task_id h i task :
  index_where (StudyHelper.has_id task_id) h.(StudyHelper.tasks) = Some i ->
  nth_error h.(StudyHelper.tasks) i = Some task ->
  fst (fst (StudyHelper.complete_task now task_id h)) = true ->
  let task' :=
    if negb task.(Task.completed)
    then Task.set_completed true (Some (datetime.strftime now)) task
    else task in
  let l := set_nth i task' h.(StudyHelper.tasks) in
  StudyHelper.complete_task now task_id h
  = (true, StudyHelper.mk l (map Task.to_dict l), []) /\
  task'.(Task.completed) = true.
Proof.
  intros Hi Hn; unfold StudyHelper.complete_task; rewrite Hi, Hn.
  destruct (Task.complete now task) as [[ok t] msgs] eqn:Hc.
  destruct ok; simpl; [intros _|discriminate].
  destruct (complete_success now task t msgs Hc) as (-> & -> & Hdone).
  split; [reflexivity|exact Hdone].
Qed.

Lemma filter_length_set_nth {A : Type} (p : A -> bool) l i x y :
  nth_error l i = Some x ->
  (List.length (filter p (set_nth i y l)) + Nat.b2n (p x)
   = List.length (filter p l) + Nat.b2n (p y))%nat.
Proof.
  revert i; induction l as [|z rest IH]; intros [|i]; simpl;
    try discriminate.
  - intros [= ->]; destruct (p x), (p y); simpl; lia.
  - intros Hn; specialize (IH i Hn).
    destruct (p z); simpl; lia.
Qed.

(** X22: every task is either pending or completed, never both.  When
    [complete_task] succeeds on a task that was not completed, the task
    gets the completed flag and the time of the call as [completed_at]
    and keeps its other fields; the pending tasks become one fewer and
    the completed tasks one more. *)
Theorem complete_task_moves_the_task :
  forall now task_id h i task,
    index_where (StudyHelper.has_id task_id) h.(StudyHelper.tasks) = Some i ->
    nth_error h.(StudyHelper.tasks) i = Some task ->
    task.(Task.completed) = false ->
    fst (fst (StudyHelper.complete_task now task_id h)) = true ->
    let h' := snd (fst (StudyHelper.complete_task now task_id h)) in
    nth_error h'.(StudyHelper.tasks) i
    = Some (Task.set_completed true (Some (datetime.strftime now)) task) /\
    (List.length (StudyHelper.get_pending_tasks h') + 1
     = List.length (StudyHelper.get_pending_tasks h))%nat /\
    (List.length (StudyHelper.get_completed_tasks h')
     = List.length (StudyHelper.get_completed_tasks h) + 1)%nat /\
    (List.length (StudyHelper.get_pending_tasks h')
     + List.length (StudyHelper.get_completed_tasks h')
     = List.length h'.(StudyHelper.tasks))%nat /\
    List.length h'.(StudyHelper.tasks) = List.length h.(StudyHelper.tasks).
Proof.
  intros now task_id h i task Hi Hn Hc Hok h'.
  destruct (complete_task_success now task_id h i task Hi Hn Hok)
    as (Heq & _).
  unfold h'; rewrite Heq; rewrite Hc; simpl.
  set (task' := Task.set_completed true (Some (datetime.strftime now)) task).
  split; [apply nth_error_set_nth with (x := task); exact Hn|].
  unfold StudyHelper.get_pending_tasks, StudyHelper.get_completed_tasks.
  simpl.
  pose proof (filter_length_set_nth
                (fun t => negb t.(Task.completed)) _ i task task' Hn) as Hp.
  pose proof (filter_length_set_nth
                (fun t => t.(Task.completed)) _ i task task' Hn) as Hd.
  cbv beta in Hp, Hd.
  replace (Task.completed task') with true in * by reflexivity.
  rewrite Hc in *; simpl in Hp, Hd.
  pose proof (filter_length (fun t => Task.completed t)
                (set_nth i task' (StudyHelper.tasks h))) as Hpart.
  rewrite length_set_nth in *.
  repeat split; try lia.
Qed.

Lemma complete_task_moves_the_task_witness :
  let h := StudyHelper.mk [Sample.started_task] [] in
  List.length
    (StudyHelper.get_completed_tasks
       (snd (fst (StudyHelper.complete_task (Sample.second 1800)
                    "task_20240101120000_123" h))))
  = (List.length (StudyHelper.get_completed_tasks h) + 1)%nat.
Proof.
  intros h.
  refine (proj1 (proj2 (proj2
    (complete_task_moves_the_task (Sample.second 1800)
       "task_20240101120000_123" h 0%nat Sample.started_task
       eq_refl eq_refl eq_refl _)))).
  vm_compute; reflexivity.
Defined.

(** X23: a click on "complete" for a study-mode task that
    [complete_task] accepts marks the task completed, confirms it, and
    ends the session: the running task id, the status and the lock label
    are cleared and full screen is left. *)
Theorem accepted_completion_click_ends_the_session :
  forall now short_id click_x x width answer s task,
    find (fun t => endswith t.(Task.id) short_id)
      s.(StudyHelperGUI.helper).(StudyHelper.tasks) = Some task ->
    task.(Task.id) <> EmptyString ->
    Task.is_study_mode task = true ->
    width <= 3 * (click_x - x) < 2 * width ->
    fst (fst (StudyHelper.complete_task now task.(Task.id)
                s.(StudyHelperGUI.helper))) = true ->
    let s' :=
      StudyHelperGUI.on_task_select now short_id 7 click_x x width answer s in
    s'.(StudyHelperGUI.helper)
    = snd (fst (StudyHelper.complete_task now task.(Task.id)
                  s.(StudyHelperGUI.helper))) /\
    (exists i task',
       nth_error s.(StudyHelperGUI.helper).(StudyHelper.tasks) i = Some task /\
       nth_error s'.(StudyHelperGUI.helper).(StudyHelper.tasks) i
       = Some task' /\
       task'.(Task.completed) = true) /\
    s'.(StudyHelperGUI.running_study_task_id) = None /\
    s'.(StudyHelperGUI.study_mode_status) = StudyHelperGUI.NoStatus /\
    s'.(StudyHelperGUI.lock_label) = StudyHelperGUI.NoLock /\
    s'.(StudyHelperGUI.is_fullscreen) = false /\
    s'.(StudyHelperGUI.shown)
    = (s.(StudyHelperGUI.shown) ++ [messagebox.TaskCompleted])%list.
Proof.
  intros now short_id click_x x width answer s task Hfind Hid Hmode Hx Hok
    s'.
  destruct (short_id_resolves _ _ _ Hfind) as (i & Hi & Hn).
  assert (Hs' := on_task_select_study_complete now short_id click_x x width
                   answer s task i Hfind Hi Hn Hid Hmode Hx).
  fold s' in Hs'.
  destruct (complete_task_success now task.(Task.id) _ i task Hi Hn Hok)
    as (Heq & Hdone).
  rewrite Heq in Hs' |- *; cbv zeta iota beta in Hs'.
  rewrite app_nil_r in Hs'.
  assert (Hh : s'.(StudyHelperGUI.helper)
               = snd (fst (true,
                           StudyHelper.mk
                             (set_nth i
                                (if negb task.(Task.completed)
                                 then Task.set_completed true
                                        (Some (datetime.strftime now)) task
                                 else task)
                                s.(StudyHelperGUI.helper).(StudyHelper.tasks))
                             (map Task.to_dict
                                (set_nth i
                                   (if negb task.(Task.completed)
                                    then Task.set_completed true
                                           (Some (datetime.strftime now)) task
                                    else task)
                                   s.(StudyHelperGUI.helper)
                                     .(StudyHelper.tasks))),
                           @nil messagebox.Message)))
    by (rewrite Hs', helper_clear_session; reflexivity).
  split; [exact Hh|].
  split.
  { exists i; eexists; split; [exact Hn|]; split; [|exact Hdone].
    rewrite Hh; simpl.
    apply nth_error_set_nth with (x := task); exact Hn. }
  rewrite Hs'; unfold StudyHelperGUI.clear_session; simpl.
  destruct (StudyHelperGUI.is_fullscreen s) eqn:Hfs; simpl.
  - unfold StudyHelperGUI.exit_fullscreen.
    destruct (StudyHelperGUI.dialog_open _) eqn:Hd; simpl; auto 8.
  - auto 8.
Qed.

Lemma accepted_completion_click_ends_the_session_witness :
  (StudyHelperGUI.on_task_select (Sample.second 1800) "00_123" 7 150 0 300
     true Sample.locked_session).(StudyHelperGUI.is_fullscreen) = false.
Proof.
  assert (Hfind :
    find (fun t => endswith t.(Task.id) "00_123")
      Sample.locked_session.(StudyHelperGUI.helper).(StudyHelper.tasks)
    = Some (Task.set_close_attempts 3 Sample.started_task))
    by (vm_compute; reflexivity).
  assert (Hid : (Task.set_close_attempts 3 Sample.started_task).(Task.id)
                <> EmptyString) by (vm_compute; discriminate).
  assert (Hx : 300 <= 3 * (150 - 0) < 2 * 300) by lia.
  assert (Hok :
    fst (fst (StudyHelper.complete_task (Sample.second 1800)
                (Task.set_close_attempts 3 Sample.started_task).(Task.id)
                Sample.locked_session.(StudyHelperGUI.helper))) = true)
    by (vm_compute; reflexivity).
  destruct (accepted_completion_click_ends_the_session (Sample.second 1800)
              "00_123" 150 0 300 true Sample.locked_session _ Hfind Hid
              eq_refl Hx Hok) as (_ & _ & _ & _ & _ & H & _).
  exact H.
Defined.

(** ** A file written by an older version *)

(** X24: a file entry that lacks the keys of the study mode is read as a
    task of normal mode with a time limit of 0, no close attempts and no
    start time.  An entry that lacks the study mode or the time limit
    can be completed at any moment. *)
Theorem old_file_entry_is_a_normal_task :
  forall data,
    (data.(Task.d_study_mode) = None ->
     (Task.from_dict data).(Task.study_mode) = "normal"%string) /\
    (data.(Task.d_time_limit) = None ->
     (Task.from_dict data).(Task.time_limit) = 0) /\
    (data.(Task.d_close_attempts) = None ->
     (Task.from_dict data).(Task.close_attempts) = 0) /\
    (data.(Task.d_start_time) = None ->
     (Task.from_dict data).(Task.start_time) = None) /\
    (data.(Task.d_study_mode) = None \/ data.(Task.d_time_limit) = None ->
     forall now,
       exists task',
         Task.complete now (Task.from_dict data) = (true, task', []) /\
         task'.(Task.completed) = true).
Proof.
  intros data.
  split; [intros H; simpl; rewrite H; reflexivity|].
  split; [intros H; simpl; rewrite H; reflexivity|].
  split; [intros H; simpl; rewrite H; reflexivity|].
  split; [intros H; simpl; rewrite H; reflexivity|].
  intros H now; unfold Task.complete.
  replace (Task.is_study_mode (Task.from_dict data)
           && (0 <? Task.time_limit (Task.from_dict data))) with false.
  - eexists; split; [reflexivity|].
    destruct (Task.completed (Task.from_dict data)) eqn:Hc;
      simpl in *; rewrite ?Hc; reflexivity.
  - symmetry; destruct H as [H|H].
    + unfold Task.is_study_mode; simpl; rewrite H; reflexivity.
    + simpl; rewrite H; simpl; apply andb_false_r.
Qed.

Lemma old_file_entry_is_a_normal_task_witness :
  let data :=
    Task.mkDict "task_20230101120000_500" "math" "old" "2023-01-02" 3 false
      0 None None None None None in
  exists task',
    Task.complete 0 (Task.from_dict data) = (true, task', []) /\
    task'.(Task.completed) = true.
Proof.
  intros data.
  exact (proj2 (proj2 (proj2 (proj2 (old_file_entry_is_a_normal_task data))))
           (or_introl eq_refl) 0).
Defined.

(** ** After the cool-down *)

(** X25: once [reset_unlock_dialog] has run on an open dialog, typing the
    secret and clicking the unlock button, or pressing [<Return>],
    unlocks: full screen and always-on-top are cleared, the window gets
    the captured geometry back and the dialog is closed. *)
Theorem unlock_after_the_reset :
  forall t1 t2 s submit,
    s.(StudyHelperGUI.root).(tk.winfo_exists) = true ->
    StudyHelperGUI.dialog_open s = true ->
    submit = StudyHelperGUI.UnlockButton \/ submit = StudyHelperGUI.ReturnKey ->
    let s' :=
      StudyHelperGUI.run
        [(t1, StudyHelperGUI.TypePassword s.(StudyHelperGUI.unlock_password));
         (t2, submit)]
        (StudyHelperGUI.reset_unlock_dialog s) in
    s'.(StudyHelperGUI.is_fullscreen) = false /\
    s'.(StudyHelperGUI.root).(tk.fullscreen) = false /\
    s'.(StudyHelperGUI.root).(tk.topmost) = false /\
    s'.(StudyHelperGUI.root).(tk.geometry)
    = s.(StudyHelperGUI.original_geometry) /\
    StudyHelperGUI.dialog_open s' = false /\
    s'.(StudyHelperGUI.helper) = s.(StudyHelperGUI.helper).
Proof.
  intros t1 t2 s submit Hroot Hd Hsub s'.
  destruct s as [ro og fs up ud wa pv el cm ru st ll he sh sc].
  unfold StudyHelperGUI.dialog_open in Hd; simpl in Hroot, Hd.
  destruct ud as [[ex nm]|]; [|discriminate].
  simpl in Hd; subst ex.
  unfold s', StudyHelperGUI.run, StudyHelperGUI.step,
    StudyHelperGUI.reset_unlock_dialog, StudyHelperGUI.dialog_open,
    StudyHelperGUI.inputs_usable, StudyHelperGUI.configure_inputs.
  cbn -[String.eqb Z.add Z.sub Z.ltb]; rewrite Hroot.
  cbn -[String.eqb Z.add Z.sub Z.ltb]; rewrite Hroot.
  destruct Hsub as [-> | ->];
    unfold StudyHelperGUI.check_password, StudyHelperGUI.exit_fullscreen,
      StudyHelperGUI.dialog_open;
    cbn -[String.eqb Z.add Z.sub Z.ltb];
    rewrite String.eqb_refl;
    cbn -[String.eqb Z.add Z.sub Z.ltb]; repeat split.
Qed.

Lemma unlock_after_the_reset_witness :
  (StudyHelperGUI.run
     [(Sample.second 30, StudyHelperGUI.TypePassword "123456");
      (Sample.second 31, StudyHelperGUI.ReturnKey)]
     (StudyHelperGUI.reset_unlock_dialog Sample.locked_session))
    .(StudyHelperGUI.is_fullscreen) = false.
Proof.
  exact (proj1 (unlock_after_the_reset (Sample.second 30) (Sample.second 31)
                  Sample.locked_session StudyHelperGUI.ReturnKey
                  eq_refl eq_refl (or_intror eq_refl))).
Defined.
